(** * Edulink: the classroom-export flattening script (DFtoMongo/script.py)

    A shallow embedding of the helper functions and of the DataFrame-building
    statements of [DFtoMongo/script.py], together with the parts of the
    Python runtime, of the [datetime] module and of pandas that those
    statements call.

    The [datetime] functions are those of CPython 3.11; [json_normalize] is
    the one of pandas 1.3 and later.

    Conventions.
    - A Python object is a [value]; a dict is an association list in insertion
      order (a well-formed dict binds each key once, lookups take the first
      binding).
    - A [str] is a [string]; one [ascii] stands for one character, so the
      model covers the characters U+0000..U+00FF.
    - A computation yields an [outcome]: a result, a raised exception, or
      [Unmodelled] when the run leaves the fragment of pandas described here
      (nothing is stated about such runs). *)

From Stdlib Require Import ZArith List String Ascii Bool Lia.
Import ListNotations.
Local Open Scope string_scope.
Local Open Scope list_scope.
Local Open Scope Z_scope.
Set Warnings "-register-all".

(* ================================================================== *)
(** * Outcomes *)

Inductive exn : Type :=
| KeyError
| AttributeError
| TypeError
| ValueError
| OverflowError
| AssertionError
| IndexError
| NotImplementedError.

Inductive outcome (A : Type) : Type :=
| Ok (a : A)
| Raise (e : exn)
| Unmodelled.

Arguments Ok {A} a.
Arguments Raise {A} e.
Arguments Unmodelled {A}.

Definition bind {A B : Type} (m : outcome A) (k : A -> outcome B) : outcome B :=
  match m with
  | Ok a => k a
  | Raise e => Raise e
  | Unmodelled => Unmodelled
  end.

Notation "x <- m ;; k" := (bind m (fun x => k))
  (at level 61, m at next level, right associativity).
Notation "' p <- m ;; k" := (bind m (fun p => k))
  (at level 61, p pattern, m at next level, right associativity).

(** [for x in xs: acc = f acc x], stopping at the first exception. *)
Fixpoint foldM {A S : Type} (f : S -> A -> outcome S) (xs : list A) (s : S)
  : outcome S :=
  match xs with
  | [] => Ok s
  | x :: xs' => s' <- f s x ;; foldM f xs' s'
  end.

(** [[f(x) for x in xs]], stopping at the first exception. *)
Fixpoint mapM {A B : Type} (f : A -> outcome B) (xs : list A) : outcome (list B) :=
  match xs with
  | [] => Ok []
  | x :: xs' => y <- f x ;; ys <- mapM f xs' ;; Ok (y :: ys)
  end.

(* ================================================================== *)
(** * Python objects *)

Module Py.

(** A float: not-a-number, an infinity, or the finite number [m * 2^e]. *)
Inductive pyfloat : Type :=
| FNan
| FInf (negative : bool)
| FFin (m e : Z).

(** A time-zone aware [datetime] whose [tzinfo] is [tzutc()]. *)
Record datetime : Type := mkDatetime {
  year : Z; month : Z; day : Z;
  hour : Z; minute : Z; second : Z; microsecond : Z
}.

Inductive value : Type :=
| VNone
| VBool (b : bool)
| VInt (n : Z)
| VFloat (f : pyfloat)
| VStr (s : string)
| VList (l : list value)
| VDict (d : list (string * value))
| VDatetime (t : datetime).

Definition dict : Type := list (string * value).

(** [np.nan] *)
Definition nan : value := VFloat FNan.

(** ** dict primitives *)

Fixpoint dict_get (k : string) (d : dict) : option value :=
  match d with
  | [] => None
  | (k', v) :: d' => if String.eqb k k' then Some v else dict_get k d'
  end.

(** [k in d] *)
Definition dict_in (k : string) (d : dict) : bool :=
  match dict_get k d with Some _ => true | None => false end.

(** [d[k] = v]: an existing key keeps its position. *)
Fixpoint dict_set (k : string) (v : value) (d : dict) : dict :=
  match d with
  | [] => [(k, v)]
  | (k', v') :: d' =>
      if String.eqb k k' then (k, v) :: d' else (k', v') :: dict_set k v d'
  end.

(** [del d[k]] *)
Fixpoint dict_del (k : string) (d : dict) : dict :=
  match d with
  | [] => []
  | (k', v') :: d' =>
      if String.eqb k k' then d' else (k', v') :: dict_del k d'
  end.

(** [dict(pairs)]: later pairs overwrite earlier ones. *)
Definition dict_of_pairs (ps : list (string * value)) : dict :=
  fold_left (fun d p => dict_set (fst p) (snd p) d) ps [].

(** ** the operations of the object protocol the script uses *)

(** [o.get(k, default)] *)
Definition meth_get (o : value) (k : string) (default : value) : outcome value :=
  match o with
  | VDict d => Ok (match dict_get k d with Some v => v | None => default end)
  | _ => Raise AttributeError
  end.

(** [o.keys()] *)
Definition meth_keys (o : value) : outcome (list string) :=
  match o with
  | VDict d => Ok (map fst d)
  | _ => Raise AttributeError
  end.

(** [o[k]] for a string key [k] *)
Definition subscript (o : value) (k : string) : outcome value :=
  match o with
  | VDict d => match dict_get k d with Some v => Ok v | None => Raise KeyError end
  | _ => Raise TypeError
  end.

Definition is_list (o : value) : bool :=
  match o with VList _ => true | _ => false end.

Definition is_dict (o : value) : bool :=
  match o with VDict _ => true | _ => false end.

(** [bool(o)] *)
Definition truthy (o : value) : bool :=
  match o with
  | VNone => false
  | VBool b => b
  | VInt n => negb (n =? 0)
  | VFloat (FFin m _) => negb (m =? 0)
  | VFloat _ => true
  | VStr s => negb (String.eqb s "")
  | VList l => match l with [] => false | _ => true end
  | VDict d => match d with [] => false | _ => true end
  | VDatetime _ => true
  end.

(** ** [int(o)] *)

(** The characters [int] strips as white space. *)
Definition is_space (c : ascii) : bool :=
  let n := nat_of_ascii c in
  ((9 <=? n) && (n <=? 13) || (n =? 32) || (n =? 133) || (n =? 160))%nat.

Definition digit_of (c : ascii) : option Z :=
  let n := nat_of_ascii c in
  if ((48 <=? n) && (n <=? 57))%nat then Some (Z.of_nat n - 48) else None.

Definition is_ascii_digit (c : ascii) : bool :=
  match digit_of c with Some _ => true | None => false end.

Fixpoint lstrip (cs : list ascii) : list ascii :=
  match cs with
  | c :: cs' => if is_space c then lstrip cs' else cs
  | [] => []
  end.

Definition strip (cs : list ascii) : list ascii :=
  rev (lstrip (rev (lstrip cs))).

(** Decimal digits, a single underscore allowed between two digits.
    [prev] tells whether the previous character was a digit. *)
Fixpoint int_digits (cs : list ascii) (prev : bool) (acc : Z) (count : nat)
  : option (Z * nat) :=
  match cs with
  | [] => if prev then Some (acc, count) else None
  | c :: cs' =>
      match digit_of c with
      | Some d => int_digits cs' true (acc * 10 + d) (S count)
      | None =>
          if (Ascii.eqb c "_" && prev)%bool
          then int_digits cs' false acc count
          else None
      end
  end.

(** The interpreter refuses decimal strings of more than 4300 digits. *)
Definition int_max_str_digits : nat := 4300.

(** [int(s)] for a [str] *)
Definition int_of_str (s : string) : outcome Z :=
  let cs := strip (list_ascii_of_string s) in
  let '(sign, body) :=
    match cs with
    | c :: cs' =>
        if Ascii.eqb c "-" then (-1, cs')
        else if Ascii.eqb c "+" then (1, cs')
        else (1, cs)
    | [] => (1, cs)
    end in
  match int_digits body false 0 0 with
  | Some (n, count) =>
      if (int_max_str_digits <? count)%nat then Raise ValueError
      else Ok (sign * n)
  | None => Raise ValueError
  end.

(** [int(f)] for a float: truncation towards zero *)
Definition int_of_float (f : pyfloat) : outcome Z :=
  match f with
  | FNan => Raise ValueError
  | FInf _ => Raise OverflowError
  | FFin m e => Ok (if 0 <=? e then m * 2 ^ e else Z.quot m (2 ^ (- e)))
  end.

Definition int (o : value) : outcome Z :=
  match o with
  | VInt n => Ok n
  | VBool b => Ok (if b then 1 else 0)
  | VFloat f => int_of_float f
  | VStr s => int_of_str s
  | _ => Raise TypeError
  end.

(** ** [str] helpers *)

(** [s.replace(c, new)] for a one-character [c] *)
Fixpoint str_replace (c : ascii) (new : string) (s : string) : string :=
  match s with
  | EmptyString => EmptyString
  | String c' s' =>
      if Ascii.eqb c c' then String.append new (str_replace c new s')
      else String c' (str_replace c new s')
  end.

End Py.
Import Py.

(* ================================================================== *)
(** * The [datetime] module

    The interpreter runs the C implementation of the module.  The calendar
    arithmetic, the checks of the constructor and [astimezone] are written
    after [Lib/datetime.py] (Python 3.11), the reference implementation,
    which computes the same as the C code on the dates that reach these
    functions (years 1 to 9999).  The two differ in [fromisoformat], on
    strings that are no ISO 8601 times (a fraction behind the minutes, a
    blank before the offset, a sign in the year, a date followed by nothing
    but the separator): the parser below is the one of the C code. *)

Module Datetime.

Definition MINYEAR : Z := 1.
Definition MAXYEAR : Z := 9999.
Definition MAXORDINAL : Z := 3652059.

Definition DAYS_IN_MONTH (m : Z) : Z :=
  match m with
  | 1 => 31 | 2 => 28 | 3 => 31 | 4 => 30 | 5 => 31 | 6 => 30
  | 7 => 31 | 8 => 31 | 9 => 30 | 10 => 31 | 11 => 30 | 12 => 31
  | _ => -1
  end.

Definition DAYS_BEFORE_MONTH (m : Z) : Z :=
  match m with
  | 1 => 0 | 2 => 31 | 3 => 59 | 4 => 90 | 5 => 120 | 6 => 151
  | 7 => 181 | 8 => 212 | 9 => 243 | 10 => 273 | 11 => 304 | 12 => 334
  | _ => -1
  end.

Definition is_leap (y : Z) : bool :=
  (y mod 4 =? 0) && (negb (y mod 100 =? 0) || (y mod 400 =? 0)).

Definition days_before_year (year : Z) : Z :=
  let y := year - 1 in
  y * 365 + y / 4 - y / 100 + y / 400.

Definition days_in_month (year month : Z) : Z :=
  if (month =? 2) && is_leap year then 29 else DAYS_IN_MONTH month.

Definition days_before_month (year month : Z) : Z :=
  DAYS_BEFORE_MONTH month + (if (2 <? month) && is_leap year then 1 else 0).

Definition ymd2ord (year month day : Z) : Z :=
  days_before_year year + days_before_month year month + day.

Definition DI400Y : Z := days_before_year 401.
Definition DI100Y : Z := days_before_year 101.
Definition DI4Y : Z := days_before_year 5.

Definition ord2ymd (n0 : Z) : Z * Z * Z :=
  let n := n0 - 1 in
  let n400 := n / DI400Y in
  let n := n mod DI400Y in
  let year := n400 * 400 + 1 in
  let n100 := n / DI100Y in
  let n := n mod DI100Y in
  let n4 := n / DI4Y in
  let n := n mod DI4Y in
  let n1 := n / 365 in
  let n := n mod 365 in
  let year := year + n100 * 100 + n4 * 4 + n1 in
  if (n1 =? 4) || (n100 =? 4) then (year - 1, 12, 31)
  else
    let leapyear := (n1 =? 3) && (negb (n4 =? 24) || (n100 =? 3)) in
    let month := Z.shiftr (n + 50) 5 in
    let preceding :=
      DAYS_BEFORE_MONTH month + (if (2 <? month) && leapyear then 1 else 0) in
    let '(month, preceding) :=
      if n <? preceding
      then (month - 1,
            preceding - (DAYS_IN_MONTH (month - 1)
                         + (if (month - 1 =? 2) && leapyear then 1 else 0)))
      else (month, preceding) in
    (year, month, n - preceding + 1).

Definition DAY_US : Z := 86400 * 1000000.

(** [timezone(offset)]: the offset must lie strictly within one day. *)
Definition timezone (offset_us : Z) : outcome Z :=
  if (- (DAY_US - 1) <=? offset_us) && (offset_us <=? DAY_US - 1)
  then Ok offset_us else Raise ValueError.

(** [_check_date_fields] and [_check_time_fields] *)
Definition check_fields (y m d hh mm ss us : Z) : outcome datetime :=
  if negb ((MINYEAR <=? y) && (y <=? MAXYEAR)) then Raise ValueError
  else if negb ((1 <=? m) && (m <=? 12)) then Raise ValueError
  else if negb ((1 <=? d) && (d <=? days_in_month y m)) then Raise ValueError
  else if negb ((0 <=? hh) && (hh <=? 23)) then Raise ValueError
  else if negb ((0 <=? mm) && (mm <=? 59)) then Raise ValueError
  else if negb ((0 <=? ss) && (ss <=? 59)) then Raise ValueError
  else if negb ((0 <=? us) && (us <=? 999999)) then Raise ValueError
  else Ok (mkDatetime y m d hh mm ss us).

Definition fits_c_int (n : Z) : bool :=
  (- 2147483648 <=? n) && (n <=? 2147483647).

(** [datetime(y, m, d, hh, mm, tzinfo=tzutc())] called with Python ints: the
    interpreter converts each argument to a C int first ([OverflowError]),
    then checks the ranges ([ValueError]). *)
Definition new (y m d hh mm : Z) : outcome datetime :=
  if forallb fits_c_int [y; m; d; hh; mm]
  then check_fields y m d hh mm 0 0
  else Raise OverflowError.

(** ** The parser of [datetime.fromisoformat]

    [datetime.fromisoformat] is the one of the interpreter's C implementation
    of the module ([datetime_fromisoformat] and the functions it calls in
    [Modules/_datetimemodule.c], CPython 3.11), which differs from the
    parser of [Lib/datetime.py] on strings that are no ISO 8601 times: it
    reads the UTF-8 encoding of the string byte by byte, as a C string that
    ends with a NUL byte.  A pointer into that string is its index here; a
    function that returns an error code raises ValueError here, the exception
    [datetime_fromisoformat] turns every error code into.  Integer
    division and remainder are those of C, truncated towards zero. *)

Module C.

Definition code (c : ascii) : Z := Z.of_nat (nat_of_ascii c).

(** The UTF-8 encoding of a character up to U+00FF *)
Definition utf8_char (c : ascii) : list Z :=
  let n := code c in
  if n <? 128 then [n] else [192 + n / 64; 128 + n mod 64].

(** [PyUnicode_AsUTF8AndSize] *)
Definition utf8 (s : string) : list Z :=
  flat_map utf8_char (list_ascii_of_string s).

(** [s[i]] for a C string [s]: the byte after the last one is the NUL. *)
Definition byte_at (s : list Z) (i : nat) : Z := nth i s 0.

Definition is_digit (c : Z) : bool := (48 <=? c) && (c <=? 57).

(** [parse_digits(ptr, var, num_digits)] with [*var] initially [var]: the
    number read and the pointer behind it. *)
Fixpoint parse_digits (s : list Z) (ptr num_digits : nat) (var : Z)
  : outcome (Z * nat) :=
  match num_digits with
  | O => Ok (var, ptr)
  | S n =>
      let c := byte_at s ptr in
      if is_digit c then parse_digits s (S ptr) n (var * 10 + (c - 48))
      else Raise ValueError
  end.

(** The tables [_days_in_month] and [_days_before_month], which have the
    indices 0..12.  [ord_to_ymd] reads them at other indices for an ordinal
    below 1; the month it leaves is below 1 then, and the date is refused
    whatever the tables are taken to hold there. *)
Definition _days_in_month (m : Z) : Z :=
  match m with
  | 1 => 31 | 2 => 28 | 3 => 31 | 4 => 30 | 5 => 31 | 6 => 30
  | 7 => 31 | 8 => 31 | 9 => 30 | 10 => 31 | 11 => 30 | 12 => 31
  | _ => 0
  end.

Definition _days_before_month (m : Z) : Z :=
  match m with
  | 1 => 0 | 2 => 31 | 3 => 59 | 4 => 90 | 5 => 120 | 6 => 151
  | 7 => 181 | 8 => 212 | 9 => 243 | 10 => 273 | 11 => 304 | 12 => 334
  | _ => 0
  end.

Definition is_leap (year : Z) : bool :=
  (Z.rem year 4 =? 0)
  && (negb (Z.rem year 100 =? 0) || (Z.rem year 400 =? 0)).

Definition days_in_month (year month : Z) : Z :=
  if (month =? 2) && is_leap year then 29 else _days_in_month month.

Definition days_before_month (year month : Z) : Z :=
  _days_before_month month + (if (2 <? month) && is_leap year then 1 else 0).

Definition days_before_year (year : Z) : Z :=
  let y := year - 1 in
  y * 365 + Z.quot y 4 - Z.quot y 100 + Z.quot y 400.

Definition DI4Y : Z := 1461.
Definition DI100Y : Z := 36524.
Definition DI400Y : Z := 146097.

Definition ymd_to_ord (year month day : Z) : Z :=
  days_before_year year + days_before_month year month + day.

Definition ord_to_ymd (ordinal : Z) : Z * Z * Z :=
  let ordinal := ordinal - 1 in
  let n400 := Z.quot ordinal DI400Y in
  let n := Z.rem ordinal DI400Y in
  let year := n400 * 400 + 1 in
  let n100 := Z.quot n DI100Y in
  let n := Z.rem n DI100Y in
  let n4 := Z.quot n DI4Y in
  let n := Z.rem n DI4Y in
  let n1 := Z.quot n 365 in
  let n := Z.rem n 365 in
  let year := year + n100 * 100 + n4 * 4 + n1 in
  if (n1 =? 4) || (n100 =? 4) then (year - 1, 12, 31)
  else
    let leapyear := (n1 =? 3) && (negb (n4 =? 24) || (n100 =? 3)) in
    let month := Z.shiftr (n + 50) 5 in
    let preceding :=
      _days_before_month month + (if (2 <? month) && leapyear then 1 else 0) in
    let '(month, preceding) :=
      if n <? preceding
      then (month - 1, preceding - days_in_month year (month - 1))
      else (month, preceding) in
    (year, month, n - preceding + 1).

(** [weekday]: 0 for a Monday *)
Definition weekday (year month day : Z) : Z :=
  Z.rem (ymd_to_ord year month day + 6) 7.

Definition iso_week1_monday (year : Z) : Z :=
  let first_day := ymd_to_ord year 1 1 in
  let first_weekday := Z.rem (first_day + 6) 7 in
  let week1_monday := first_day - first_weekday in
  if 3 <? first_weekday then week1_monday + 7 else week1_monday.

Definition iso_to_ymd (iso_year iso_week iso_day : Z) : outcome (Z * Z * Z) :=
  let out_of_range :=
    if (iso_week <=? 0) || (53 <=? iso_week) then
      if iso_week =? 53 then
        let first_weekday := weekday iso_year 1 1 in
        negb ((first_weekday =? 3) || ((first_weekday =? 2) && is_leap iso_year))
      else true
    else false in
  if out_of_range then Raise ValueError
  else if (iso_day <=? 0) || (8 <=? iso_day) then Raise ValueError
  else
    let day_1 := iso_week1_monday iso_year in
    let day_offset := (iso_week - 1) * 7 + iso_day - 1 in
    Ok (ord_to_ymd (day_1 + day_offset)).

(** The loop of [_find_isoformat_datetime_separator] that runs [idx] over
    the digits that follow the week number. *)
Fixpoint scan_digits (fuel : nat) (dtstr : list Z) (len idx : nat) : nat :=
  match fuel with
  | O => idx
  | S fuel' =>
      if (idx <? len)%nat && is_digit (byte_at dtstr idx)
      then scan_digits fuel' dtstr len (S idx)
      else idx
  end.

(** [_find_isoformat_datetime_separator(dtstr, len)]: the position of the
    character between date and time, -1 when the date is cut short. *)
Definition _find_isoformat_datetime_separator (dtstr : list Z) (len : nat) : Z :=
  if (len =? 7)%nat then 7
  else if byte_at dtstr 4 =? code "-" then
    if byte_at dtstr 5 =? code "W" then
      if (len <? 8)%nat then -1
      else if (8 <? len)%nat && (byte_at dtstr 8 =? code "-") then
        if (len =? 9)%nat then -1
        else if (10 <? len)%nat && is_digit (byte_at dtstr 10) then 8
        else 10
      else 8
    else 10
  else if byte_at dtstr 4 =? code "W" then
    let idx := scan_digits len dtstr len 7 in
    if (idx <? 9)%nat then Z.of_nat idx
    else if Nat.even idx then 7
    else 8
  else 8.

(** [(size_t)(p - dtstr) < len] for a [len] that was converted from a signed
    number: -1 has become the largest [size_t]. *)
Definition below (p : nat) (len : Z) : bool :=
  (len <? 0) || (Z.of_nat p <? len).

(** [if (uses_separator && *(p++) != '-') return -2;]: the pointer to go on
    with. *)
Definition skip_separator (dtstr : list Z) (uses_separator : bool) (p : nat)
  : outcome nat :=
  if uses_separator then
    if byte_at dtstr p =? code "-" then Ok (S p) else Raise ValueError
  else Ok p.

(** [parse_isoformat_date(dtstr, len, &year, &month, &day)] *)
Definition parse_isoformat_date (dtstr : list Z) (len : Z)
  : outcome (Z * Z * Z) :=
  '(year, p) <- parse_digits dtstr 0 4 0 ;;
  let uses_separator := byte_at dtstr p =? code "-" in
  let p := if uses_separator then S p else p in
  if byte_at dtstr p =? code "W" then
    let p := S p in
    '(iso_week, p) <- parse_digits dtstr p 2 0 ;;
    if below p len then
      p <- skip_separator dtstr uses_separator p ;;
      '(iso_day, _) <- parse_digits dtstr p 1 0 ;;
      iso_to_ymd year iso_week iso_day
    else iso_to_ymd year iso_week 1
  else
    '(month, p) <- parse_digits dtstr p 2 0 ;;
    p <- skip_separator dtstr uses_separator p ;;
    '(day, _) <- parse_digits dtstr p 2 0 ;;
    Ok (year, month, day).

(** Where the loop over hours, minutes and seconds of [parse_hh_mm_ss_ff]
    leaves the function: by a [return] with the value 0 or 1, or behind the
    loop, at the fraction. *)
Inductive loop_exit : Type :=
| Returns (rest : bool) (vals : list Z)
| Fraction (p : nat) (vals : list Z).

(** The [for (size_t i = 0; i < 3; ++i)] loop of [parse_hh_mm_ss_ff]; [left]
    counts the rounds that remain. *)
Fixpoint hh_mm_ss (left i : nat) (s : list Z) (p p_end : nat)
  (has_separator : bool) (vals : list Z) : outcome loop_exit :=
  match left with
  | O => Ok (Fraction p vals)
  | S left' =>
      '(v, p) <- parse_digits s p 2 0 ;;
      let vals := vals ++ [v] in
      let c := byte_at s p in
      let p := S p in
      let has_separator :=
        if (i =? 0)%nat then c =? code ":" else has_separator in
      if (p_end <=? p)%nat then Ok (Returns (negb (c =? 0)) vals)
      else if has_separator && (c =? code ":")
      then hh_mm_ss left' (S i) s p p_end has_separator vals
      else if (c =? code ".") || (c =? code ",") then Ok (Fraction p vals)
      else if negb has_separator
      then hh_mm_ss left' (S i) s (p - 1) p_end has_separator vals
      else Raise ValueError
  end.

Definition correction (to_parse : nat) : Z :=
  match to_parse with
  | 1%nat => 100000 | 2%nat => 10000 | 3%nat => 1000 | 4%nat => 100
  | 5%nat => 10
  | _ => 1
  end.

(** The [while] loop that steps over the digits behind the fraction read *)
Fixpoint skip_digits (fuel : nat) (s : list Z) (p : nat) : nat :=
  match fuel with
  | O => p
  | S fuel' => if is_digit (byte_at s p) then skip_digits fuel' s (S p) else p
  end.

(** [parse_hh_mm_ss_ff(tstr, tstr_end, &hour, &minute, &second,
    &microsecond)]: the four numbers, and whether the value returned is 1
    (something is left behind the time) and not 0. *)
Definition parse_hh_mm_ss_ff (s : list Z) (tstr tstr_end : nat)
  : outcome (Z * Z * Z * Z * bool) :=
  exit <- hh_mm_ss 3 0 s tstr tstr_end true [] ;;
  match exit with
  | Returns rest vals =>
      Ok (nth 0 vals 0, nth 1 vals 0, nth 2 vals 0, 0, rest)
  | Fraction p vals =>
      let len_remains := (tstr_end - p)%nat in
      let to_parse := if (6 <=? len_remains)%nat then 6%nat else len_remains in
      '(microsecond, p) <- parse_digits s p to_parse 0 ;;
      let microsecond :=
        if (to_parse <? 6)%nat then microsecond * correction to_parse
        else microsecond in
      let p := skip_digits (List.length s) s p in
      Ok (nth 0 vals 0, nth 1 vals 0, nth 2 vals 0, microsecond,
          negb (byte_at s p =? 0))
  end.

Definition is_tz_char (c : Z) : bool :=
  (c =? code "Z") || (c =? code "+") || (c =? code "-").

(** The [do ... while (++tzinfo_pos < p_end)] loop of [parse_isoformat_time] *)
Fixpoint find_tzinfo (fuel : nat) (s : list Z) (tzinfo_pos p_end : nat) : nat :=
  match fuel with
  | O => tzinfo_pos
  | S fuel' =>
      if is_tz_char (byte_at s tzinfo_pos) then tzinfo_pos
      else if (S tzinfo_pos <? p_end)%nat
      then find_tzinfo fuel' s (S tzinfo_pos) p_end
      else S tzinfo_pos
  end.

(** [parse_isoformat_time(dtstr, dtlen, ...)] for the time that begins at
    [dtstr] and ends at [p_end = dtstr + dtlen]: hour, minute, second and
    microsecond, and [tzoffset] and [tzmicrosecond] when the value returned
    is 1. *)
Definition parse_isoformat_time (s : list Z) (dtstr p_end : nat)
  : outcome (Z * Z * Z * Z * option (Z * Z)) :=
  let tzinfo_pos := find_tzinfo (S (p_end - dtstr)) s dtstr p_end in
  '(hour, minute, second, microsecond, rest) <-
    parse_hh_mm_ss_ff s dtstr tzinfo_pos ;;
  if (tzinfo_pos =? p_end)%nat then
    if rest then Raise ValueError
    else Ok (hour, minute, second, microsecond, None)
  else if byte_at s tzinfo_pos =? code "Z" then
    if negb (byte_at s (S tzinfo_pos) =? 0) then Raise ValueError
    else Ok (hour, minute, second, microsecond, Some (0, 0))
  else
    let tzsign := if byte_at s tzinfo_pos =? code "-" then -1 else 1 in
    '(tzhour, tzminute, tzsecond, tzmicrosecond, rest) <-
      parse_hh_mm_ss_ff s (S tzinfo_pos) p_end ;;
    let tzoffset := tzsign * (tzhour * 3600 + tzminute * 60 + tzsecond) in
    let tzmicrosecond := tzmicrosecond * tzsign in
    if rest then Raise ValueError
    else Ok (hour, minute, second, microsecond, Some (tzoffset, tzmicrosecond)).

(** [tzinfo_from_isoformat_results]: the UTC offset in microseconds of the
    [tzinfo] that is built, [None] for no [tzinfo].  An offset of 0 seconds
    gives UTC whatever its microseconds are. *)
Definition tzinfo_from_isoformat_results (tz : option (Z * Z))
  : outcome (option Z) :=
  match tz with
  | Some (tzoffset, tz_useconds) =>
      if tzoffset =? 0 then Ok (Some 0)
      else
        off <- timezone (tzoffset * 1000000 + tz_useconds) ;;
        Ok (Some off)
  | None => Ok None
  end.

(** The bytes of the UTF-8 character that begins with the byte [c] *)
Definition utf8_width (c : Z) : nat :=
  if Z.land c 128 =? 0 then 1%nat
  else if Z.land c 240 =? 224 then 3%nat
  else if Z.land c 240 =? 240 then 4%nat
  else 2%nat.

End C.

(** [datetime.fromisoformat]: the wall-clock fields and the UTC offset in
    microseconds, [None] when the string carries no offset.  A string of
    fewer than seven characters is refused at once
    ([_sanitize_isoformat_str]).  Were the date read in full although the
    separator position is -1, the C code would step in front of the string:
    that run is outside the model ([fromisoformat_modelled] shows that it
    does not occur). *)
Definition fromisoformat (date_string : string) : outcome (datetime * option Z) :=
  if (String.length date_string <? 7)%nat then Raise ValueError
  else
    let dt_ptr := C.utf8 date_string in
    let len := List.length dt_ptr in
    let separator_location := C._find_isoformat_datetime_separator dt_ptr len in
    '(year, month, day) <- C.parse_isoformat_date dt_ptr separator_location ;;
    '(hour, minute, second, microsecond, tz) <-
      (if separator_location <? Z.of_nat len then
         if separator_location <? 0 then Unmodelled
         else
           let p := Z.to_nat separator_location in
           let p := (p + C.utf8_width (C.byte_at dt_ptr p))%nat in
           C.parse_isoformat_time dt_ptr p len
       else Ok (0, 0, 0, 0, None)) ;;
    tzinfo <- C.tzinfo_from_isoformat_results tz ;;
    t <- check_fields year month day hour minute second microsecond ;;
    Ok (t, tzinfo).


(** Microseconds from the start of ordinal day 0 to the wall-clock time [t]. *)
Definition to_us (t : datetime) : Z :=
  (ymd2ord (year t) (month t) (day t) * 86400
   + hour t * 3600 + minute t * 60 + second t) * 1000000 + microsecond t.

(** [t - timedelta(microseconds=offset_us)], as [datetime.__add__] does it. *)
Definition sub_offset (t : datetime) (offset_us : Z) : outcome datetime :=
  let total := to_us t - offset_us in
  let days := total / DAY_US in
  let rest := total mod DAY_US in
  let secs := rest / 1000000 in
  let us := rest mod 1000000 in
  let hh := secs / 3600 in
  let rem := secs mod 3600 in
  if (0 <? days) && (days <=? MAXORDINAL) then
    let '(y, m, d) := ord2ymd days in
    Ok (mkDatetime y m d hh (rem / 60) (rem mod 60) us)
  else Raise OverflowError.

(** The host's local time zone: the UTC offset, in seconds, that the platform
    reports for a given wall-clock time, [None] when it cannot convert it. *)
Definition localzone : Type := datetime -> option Z.

(** [t.astimezone(tzutc())]: an aware [t] is shifted by its own offset; a naive
    [t] is taken to be local time in the host's zone. *)
Definition astimezone_utc (local : localzone) (t : datetime) (tzi : option Z)
  : outcome datetime :=
  match tzi with
  | Some off => sub_offset t off
  | None =>
      match local t with
      | Some gmtoff =>
          off <- timezone (gmtoff * 1000000) ;;
          sub_offset t off
      | None => Raise OverflowError
      end
  end.

End Datetime.

(* ================================================================== *)
(** * pandas

    The fragment of pandas the script calls: [json_normalize]
    ([pandas/io/json/_normalize.py]) and the [DataFrame] operations applied to
    its results.  A cell holds the Python object that was put into it.
    pandas itself stores a column under one dtype, which it infers when a
    frame is built from records and when a column is the result of [map]: in
    a column of numbers an int that stands beside a float or a missing value
    is kept, and emitted, as a float, and None as NaN.  That conversion is
    left out here.  What is stated below about the value of a cell therefore
    concerns cells it leaves alone (strings and lists, booleans beside
    booleans and missing values, the cells of a column of ints only, the
    object columns of the meta fields), or what it keeps: the rows and
    columns of a frame, which cells are missing, and that a converted
    timestamp is a UTC instant. *)

Module Pandas.

(** A frame: the column labels, which may repeat, and per row one cell for each
    label. *)
Record DataFrame : Type := mkDataFrame {
  columns : list string;
  rows : list (list value)
}.

(** A column taken out of a frame. *)
Definition Series : Type := list value.

(** A row as [apply(axis=1)] hands it over: cells indexed by column label. *)
Definition Row : Type := list (string * value).

Definition empty_frame : DataFrame := mkDataFrame [] [].

(** [pd.isnull(o)] for the objects of the model *)
Definition isnull (o : value) : bool :=
  match o with
  | VNone => true
  | VFloat FNan => true
  | _ => false
  end.

(** ** [nested_to_record] *)

(** [new_d[k] = v] for a key that must be new: flattening that would overwrite a
    key already present is outside the model. *)
Definition set_fresh (k : string) (v : value) (new_d : dict) : outcome dict :=
  if dict_in k new_d then Unmodelled else Ok (new_d ++ [(k, v)]).

(** [new_d.update(sub)] for keys that must all be new *)
Definition update_fresh (new_d sub : dict) : outcome dict :=
  foldM (fun acc kv => set_fresh (fst kv) (snd kv) acc) sub new_d.

(** [nested_to_record(ds, prefix, sep=".", level)] for a dict [ds]: nested dicts
    are replaced by their entries under dotted keys, at every depth; lists are
    kept as they are. *)
Fixpoint nested_to_record (prefix : string) (level : nat) (ds : value)
  {struct ds} : outcome dict :=
  match ds with
  | VDict d =>
      (fix items (todo : list (string * value)) (new_d : dict) {struct todo}
         : outcome dict :=
         match todo with
         | [] => Ok new_d
         | (k, v) :: todo' =>
             let newkey :=
               if (level =? 0)%nat then k
               else String.append prefix (String.append "." k) in
             match v with
             | VDict _ =>
                 sub <- nested_to_record newkey (S level) v ;;
                 new_d' <- update_fresh (dict_del k new_d) sub ;;
                 items todo' new_d'
             | _ =>
                 if (level =? 0)%nat then items todo' new_d
                 else
                   new_d' <- set_fresh newkey v (dict_del k new_d) ;;
                   items todo' new_d'
             end
         end) d d
  | _ => Unmodelled
  end.

(** ** [_simple_json_normalize] *)

(** [_normalise_json] *)
Fixpoint normalise_json (data : value) (key_string : string)
  (normalized_dict : dict) {struct data} : dict :=
  match data with
  | VDict d =>
      (fix items (todo : list (string * value)) (acc : dict) {struct todo} : dict :=
         match todo with
         | [] => acc
         | (key, v) :: todo' =>
             let new_key :=
               if String.eqb key_string "" then key
               else String.append key_string (String.append "." key) in
             items todo' (normalise_json v new_key acc)
         end) d normalized_dict
  | _ => dict_set key_string data normalized_dict
  end.

(** [{**a, **b}] *)
Definition dict_merge (a b : dict) : dict :=
  fold_left (fun acc kv => dict_set (fst kv) (snd kv) acc) b a.

(** [_normalise_json_ordered] *)
Definition normalise_json_ordered (data : dict) : dict :=
  let top_dict_ := filter (fun kv => negb (is_dict (snd kv))) data in
  let nested_dict_ :=
    normalise_json (VDict (filter (fun kv => is_dict (snd kv)) data)) "" [] in
  dict_merge top_dict_ nested_dict_.

Fixpoint simple_json_normalize (ds : value) : value :=
  match ds with
  | VDict d => VDict (normalise_json_ordered d)
  | VList l => VList (map simple_json_normalize l)
  | _ => VDict []
  end.

(** ** Frames *)

Fixpoint as_dicts (recs : list value) : option (list dict) :=
  match recs with
  | [] => Some []
  | VDict d :: recs' =>
      match as_dicts recs' with Some ds => Some (d :: ds) | None => None end
  | _ => None
  end.

(** The keys of the records, each once, in order of first appearance. *)
Definition union_keys (ds : list dict) : list string :=
  fold_left
    (fun cols d =>
       fold_left
         (fun cols kv =>
            if existsb (String.eqb (fst kv)) cols then cols else cols ++ [fst kv])
         d cols)
    ds [].

Definition cell (d : dict) (c : string) : value :=
  match dict_get c d with Some v => v | None => nan end.

(** [DataFrame(records)] for a list of dicts: a column per key, [NaN] where a
    record lacks the key, each cell as the record has it (the dtype pandas
    infers for a column of numbers is left out, see the head of the module).
    A list with an element that is not a dict is outside the model. *)
Definition DataFrame_of_records (recs : list value) : outcome DataFrame :=
  match as_dicts recs with
  | Some ds =>
      let cols := union_keys ds in
      Ok (mkDataFrame cols (map (fun d => map (cell d) cols) ds))
  | None => Unmodelled
  end.

Definition count_label (c : string) (df : DataFrame) : nat :=
  List.length (filter (String.eqb c) (columns df)).

(** [c in df] *)
Definition contains (df : DataFrame) (c : string) : bool :=
  existsb (String.eqb c) (columns df).

(** The position of the first column labelled [c]. *)
Fixpoint index_of (c : string) (cols : list string) : option nat :=
  match cols with
  | [] => None
  | c' :: cols' =>
      if String.eqb c c' then Some O
      else match index_of c cols' with Some i => Some (S i) | None => None end
  end.

(** [df[c]]: the column, [KeyError] when there is none; a label carried by
    several columns selects a frame, which is outside the model. *)
Definition getitem (df : DataFrame) (c : string) : outcome Series :=
  match count_label c df, index_of c (columns df) with
  | 1%nat, Some i => Ok (map (fun r => nth i r nan) (rows df))
  | O, _ => Raise KeyError
  | _, _ => Unmodelled
  end.

Fixpoint set_nth (i : nat) (v : value) (r : list value) : list value :=
  match i, r with
  | O, _ :: r' => v :: r'
  | S i', x :: r' => x :: set_nth i' v r'
  | _, [] => []
  end.

Fixpoint zip_with {A B C : Type} (f : A -> B -> C) (xs : list A) (ys : list B)
  : list C :=
  match xs, ys with
  | x :: xs', y :: ys' => f x y :: zip_with f xs' ys'
  | _, _ => []
  end.

(** A frame without columns has no index yet and takes the one of the first
    column it is given. *)
Definition append_column (df : DataFrame) (c : string) (vals : Series) : DataFrame :=
  match columns df, rows df with
  | [], [] => mkDataFrame [c] (map (fun v => [v]) vals)
  | _, _ => mkDataFrame (columns df ++ [c])
              (zip_with (fun r v => r ++ [v]) (rows df) vals)
  end.

(** [df[c] = vals] for a sequence with one value per row *)
Definition setitem (df : DataFrame) (c : string) (vals : Series) : outcome DataFrame :=
  match count_label c df, index_of c (columns df) with
  | O, _ => Ok (append_column df c vals)
  | 1%nat, Some i =>
      Ok (mkDataFrame (columns df) (zip_with (fun r v => set_nth i v r) (rows df) vals))
  | _, _ => Unmodelled
  end.

(** [df.rename(columns=mapping)] *)
Definition rename (mapping : list (string * string)) (df : DataFrame) : DataFrame :=
  let new_label c :=
    match List.find (fun kv => String.eqb c (fst kv)) mapping with
    | Some kv => snd kv
    | None => c
    end in
  mkDataFrame (map new_label (columns df)) (rows df).

(** [s.map(f)]: the results of [f], cell by cell (the dtype inferred for
    them is left out) *)
Definition Series_map (f : value -> outcome value) (s : Series) : outcome Series :=
  mapM f s.

(** [df.apply(f, axis=1)] for an [f] that returns a scalar, a list or [None].
    On a frame without rows pandas first tries [f] on a row of [NaN]: if that
    call returns, the result is an empty Series; if it raises, the result is a
    copy of the frame, which is outside the model. *)
Definition apply_rows (f : Row -> outcome value) (df : DataFrame) : outcome Series :=
  match rows df with
  | [] =>
      match f (map (fun c => (c, nan)) (columns df)) with
      | Ok _ => Ok []
      | _ => Unmodelled
      end
  | _ => mapM (fun r => f (combine (columns df) r)) (rows df)
  end.

(** [row.get(k, default)] *)
Definition Row_get (row : Row) (k : string) (default : value) : value :=
  match dict_get k row with Some v => v | None => default end.

(** [df.get(c, default)]: the column, or the default object itself. *)
Definition get (df : DataFrame) (c : string) (default : value)
  : outcome (Series + value) :=
  match getitem df c with
  | Ok s => Ok (inl s)
  | Raise KeyError => Ok (inr default)
  | Raise e => Raise e
  | Unmodelled => Unmodelled
  end.

(** [x.fillna(v)]: defined on a Series, not on a plain Python object. *)
Definition fillna (x : Series + value) (v : value) : outcome Series :=
  match x with
  | inl s => Ok (map (fun o => if isnull o then v else o) s)
  | inr _ => Raise AttributeError
  end.

(** The positions of all columns labelled [c]. *)
Fixpoint positions (c : string) (cols : list string) (i : nat) : list nat :=
  match cols with
  | [] => []
  | c' :: cols' =>
      if String.eqb c c' then i :: positions c cols' (S i)
      else positions c cols' (S i)
  end.

(** [df[labels]] for labels that all occur in [df] *)
Definition select (df : DataFrame) (labels : list string) : DataFrame :=
  let idx := flat_map (fun c => positions c (columns df) O) labels in
  mkDataFrame (map (fun i => nth i (columns df) "") idx)
              (map (fun r => map (fun i => nth i r nan) idx) (rows df)).

(** [df.empty] *)
Definition empty (df : DataFrame) : bool :=
  match columns df, rows df with
  | [], _ | _, [] => true
  | _, _ => false
  end.

(** [df.replace({np.nan: None})] *)
Definition replace_nan (df : DataFrame) : DataFrame :=
  mkDataFrame (columns df)
    (map (map (fun o => match o with VFloat FNan => VNone | _ => o end)) (rows df)).


(** [df.to_dict("records")]: [dict(zip(columns, row))] per row, so that of
    several columns with one label the last one is kept. *)
Definition to_dict_records (df : DataFrame) : list dict :=
  map (fun r => dict_of_pairs (combine (columns df) r)) (rows df).

(** ** [json_normalize] with a record path *)

Inductive errors_mode : Type := errors_raise | errors_ignore.

(** The [except KeyError] clause of [_pull_field] *)
Definition on_key_error (errors : errors_mode) (extract_record : bool)
  (m : outcome value) : outcome value :=
  match m with
  | Raise KeyError =>
      if extract_record then Raise KeyError
      else match errors with
           | errors_ignore => Ok nan
           | errors_raise => Raise KeyError
           end
  | _ => m
  end.

Fixpoint walk (result : value) (spec : list string) : outcome value :=
  match spec with
  | [] => Ok result
  | field :: spec' =>
      match result with
      | VNone => Raise KeyError
      | _ => r <- subscript result field ;; walk r spec'
      end
  end.

(** [_pull_field(js, spec)] for a list [spec] *)
Definition pull_field (errors : errors_mode) (js : value) (spec : list string)
  : outcome value :=
  on_key_error errors false (walk js spec).

(** [_pull_field(js, spec, extract_record)] for a string [spec] *)
Definition pull_field_str (errors : errors_mode) (js : value) (spec : string)
  (extract_record : bool) : outcome value :=
  on_key_error errors extract_record (subscript js spec).

(** [_pull_records] *)
Definition pull_records (errors : errors_mode) (js : value) (spec : string)
  : outcome (list value) :=
  result <- pull_field_str errors js spec true ;;
  match result with
  | VList l => Ok l
  | _ => if isnull result then Ok [] else Raise TypeError
  end.

(** What [_recursive_extract] accumulates in the enclosing scope. *)
Record extracted : Type := mkExtracted {
  records : list value;
  lengths : list nat;
  meta_vals : list (string * list value)
}.

(** [meta_vals[key].append(v)] on a [defaultdict(list)] *)
Fixpoint meta_append (key : string) (v : value) (mv : list (string * list value))
  : list (string * list value) :=
  match mv with
  | [] => [(key, [v])]
  | (k, vs) :: mv' =>
      if String.eqb key k then (k, vs ++ [v]) :: mv'
      else (k, vs) :: meta_append key v mv'
  end.

(** [sep.join(val)] with [sep = "."] *)
Fixpoint join (val : list string) : string :=
  match val with
  | [] => ""
  | [x] => x
  | x :: val' => String.append x (String.append "." (join val'))
  end.

(** The objects [for obj in data] visits, after [if isinstance(data, dict):
    data = [data]]. *)
Definition objects (data : value) : outcome (list value) :=
  match data with
  | VDict _ => Ok [data]
  | VList l => Ok l
  | VStr s => Ok (map (fun c => VStr (String c "")) (list_ascii_of_string s))
  | _ => Raise TypeError
  end.

Definition flatten_record (r : value) : outcome value :=
  if is_dict r then d <- nested_to_record "" 0 r ;; Ok (VDict d) else Ok r.

(** [_recursive_extract(data, path, seen_meta, level)]; [seen_meta] is mutated
    in place by the original and therefore threaded here. *)
Fixpoint recursive_extract (errors : errors_mode) (meta : list (list string))
  (path : list string) (data : value) (seen_meta : dict) (level : nat)
  (st : extracted) {struct path} : outcome (dict * extracted) :=
  objs <- objects data ;;
  match path with
  | [] => match objs with [] => Ok (seen_meta, st) | _ => Raise IndexError end
  | p :: [] =>
      foldM
        (fun '(seen, st) obj =>
           recs <- pull_records errors obj p ;;
           recs <- mapM flatten_record recs ;;
           mv <- foldM
                   (fun mv val =>
                      let key := join val in
                      meta_val <-
                        (if (List.length val <? level + 1)%nat
                         then subscript (VDict seen) key
                         else pull_field errors obj (skipn level val)) ;;
                      Ok (meta_append key meta_val mv))
                   meta (meta_vals st) ;;
           Ok (seen,
               mkExtracted (records st ++ recs)
                           (lengths st ++ [List.length recs]) mv))
        objs (seen_meta, st)
  | p :: path' =>
      foldM
        (fun '(seen, st) obj =>
           seen <- foldM
                     (fun seen val =>
                        if (level + 1 =? List.length val)%nat
                        then
                          v <- pull_field_str errors obj (last val "") false ;;
                          Ok (dict_set (join val) v seen)
                        else Ok seen)
                     meta seen ;;
           sub <- subscript obj p ;;
           recursive_extract errors meta path' sub seen (S level) st)
        objs (seen_meta, st)
  end.

(** [values.repeat(lengths)] *)
Definition repeat_each (vals : list value) (lens : list nat) : Series :=
  flat_map (fun vn => repeat (fst vn) (snd vn)) (combine vals lens).

(** The body of [json_normalize] once [data] is known to be a non-empty list
    or a dict: extraction, [DataFrame(records)], then one column per meta
    key. *)
Definition normalize_records (data : value) (record_path : list string)
  (meta : list (list string)) (errors : errors_mode) : outcome DataFrame :=
  '(_, st) <- recursive_extract errors meta record_path data [] 0
                (mkExtracted [] [] []) ;;
  result <- DataFrame_of_records (records st) ;;
  foldM
    (fun result kv =>
       if contains result (fst kv) then Raise ValueError
       else Ok (append_column result (fst kv)
                  (repeat_each (snd kv) (lengths st))))
    (meta_vals st) result.

(** [pd.json_normalize(data, record_path, meta, sep=".", errors)] *)
Definition json_normalize (data : value) (record_path : list string)
  (meta : list (list string)) (errors : errors_mode) : outcome DataFrame :=
  match data with
  | VList [] => Ok empty_frame
  | VList _ | VDict _ => normalize_records data record_path meta errors
  | _ => Raise NotImplementedError
  end.

(** [pd.json_normalize(data)] with no record path and no meta *)
Definition json_normalize_simple (data : value) : outcome DataFrame :=
  match data with
  | VList l => DataFrame_of_records (map simple_json_normalize l)
  | VDict _ => DataFrame_of_records [simple_json_normalize data]
  | _ => Raise NotImplementedError
  end.

End Pandas.

(* ================================================================== *)
(** * The helpers of [script.py] *)

(** [try: body except Exception: handler] *)
Definition try_except {A : Type} (body handler : outcome A) : outcome A :=
  match body with
  | Raise _ => handler
  | _ => body
  end.

(** [set(wanted) <= set(keys)] *)
Definition subset (wanted keys : list string) : bool :=
  forallb (fun k => existsb (String.eqb k) keys) wanted.

Section Helpers.

(** The only piece of the environment the helpers read: the local time zone of
    the host, which [astimezone] consults for a string without UTC offset. *)
Variable local : Datetime.localzone.

(** [to_dt] (script.py, lines 11-26) *)
Definition to_dt (s : value) : outcome value :=
  match s with
  | VNone => Ok VNone
  | VStr str =>
      try_except
        ('(t, tzi) <- Datetime.fromisoformat (str_replace "Z" "+00:00" str) ;;
         u <- Datetime.astimezone_utc local t tzi ;;
         Ok (VDatetime u))
        (Ok VNone)
  | VDict _ =>
      probe <- meth_get s "dueDate" s ;;
      keys <- meth_keys probe ;;
      if subset ["year"; "month"; "day"] keys then
        d <- meth_get s "dueDate" s ;;
        t <- meth_get s "dueTime" (VDict []) ;;
        hours <- meth_get t "hours" (VInt 0) ;;
        hh <- int hours ;;
        minutes <- meth_get t "minutes" (VInt 0) ;;
        mm <- int minutes ;;
        yv <- subscript d "year" ;;
        y <- int yv ;;
        mv <- subscript d "month" ;;
        m <- int mv ;;
        dv <- subscript d "day" ;;
        dd <- int dv ;;
        r <- Datetime.new y m dd hh mm ;;
        Ok (VDatetime r)
      else Ok VNone
  | _ => Ok VNone
  end.

End Helpers.


(** [df_to_docs] (lines 28-32) *)
Definition df_to_docs (df : Pandas.DataFrame) : list dict :=
  if Pandas.empty df then []
  else Pandas.to_dict_records (Pandas.replace_nan df).

(** A dict's value under a key, [None] when the key is missing: [d.get(k)] *)
Definition get_or_none (k : string) (d : dict) : value :=
  match dict_get k d with Some v => v | None => VNone end.

(** The descriptor built from a drive-file payload. *)
Definition descriptor (inner : dict) : value :=
  VDict [("id", get_or_none "id" inner); ("title", get_or_none "title" inner);
         ("link", get_or_none "alternateLink" inner);
         ("thumb", get_or_none "thumbnailUrl" inner)].

(** One round of the [for att in x] loop of [extract_attachments] *)
Definition extract_attachment (out : list value) (att : value)
  : outcome (list value) :=
  got <- meth_get att "driveFile" VNone ;;
  let df := if truthy got then got else VDict [] in
  probe <- meth_get df "driveFile" VNone ;;
  inner <- (if is_dict probe then meth_get df "driveFile" VNone else Ok df) ;;
  if is_dict inner then
    id <- meth_get inner "id" VNone ;;
    title <- meth_get inner "title" VNone ;;
    link <- meth_get inner "alternateLink" VNone ;;
    thumb <- meth_get inner "thumbnailUrl" VNone ;;
    Ok (out ++ [VDict [("id", id); ("title", title); ("link", link);
                       ("thumb", thumb)]])
  else Ok out.

(** [extract_attachments] (lines 112-128) *)
Definition extract_attachments (row : Pandas.Row) : outcome value :=
  let x := Pandas.Row_get row "assignmentSubmission.attachments" VNone in
  match x with
  | VList l =>
      out <- foldM extract_attachment l [] ;;
      Ok (if truthy (VList out) then VList out else VNone)
  | _ => Ok VNone
  end.

(** One round of the [for h in hist] loop of [pick_latest_points] *)
Definition latest_step (pts h : value) : value :=
  let gh :=
    match h with
    | VDict d => match dict_get "gradeHistory" d with Some g => g | None => VNone end
    | _ => VNone
    end in
  match gh with
  | VDict g => match dict_get "pointsEarned" g with Some v => v | None => pts end
  | _ => pts
  end.

(** [pick_latest_points] (lines 133-142) *)
Definition pick_latest_points (hist : value) : value :=
  match hist with
  | VList [] => VNone
  | VList l => fold_left latest_step l VNone
  | _ => VNone
  end.

(* ================================================================== *)
(** * The DataFrame-building statements of [script.py] *)

Import Pandas.

(** [df[c] = df[c].map(to_dt)] *)
Definition map_to_dt (local : Datetime.localzone) (df : DataFrame) (c : string)
  : outcome DataFrame :=
  col <- getitem df c ;;
  col <- Series_map (to_dt local) col ;;
  setitem df c col.

(** [courses_df] (lines 47-51) *)
Definition courses_df (local : Datetime.localzone) (courses_raw : value)
  : outcome DataFrame :=
  df <- json_normalize_simple courses_raw ;;
  course_info <- getitem df "course_info" ;;
  df <- json_normalize_simple (VList course_info) ;;
  let df := rename [("id", "courseId")] df in
  df <- map_to_dt local df "creationTime" ;;
  map_to_dt local df "updateTime".

(** [students_df] (lines 54-60) *)
Definition students_df (courses_raw : value) : outcome DataFrame :=
  df <- json_normalize courses_raw ["students"] [["course_info"; "id"]]
          errors_raise ;;
  Ok (rename [("course_info.id", "courseId")] df).

(** [teachers_df] (lines 63-69) *)
Definition teachers_df (courses_raw : value) : outcome DataFrame :=
  df <- json_normalize courses_raw ["teachers"] [["course_info"; "id"]]
          errors_raise ;;
  Ok (rename [("course_info.id", "courseId")] df).

(** [assignments_df] as lines 72-78 leave it *)
Definition assignments_df (courses_raw : value) : outcome DataFrame :=
  df <- json_normalize courses_raw ["assignments"] [["course_info"; "id"]]
          errors_raise ;;
  Ok (rename [("course_info.id", "courseId"); ("id", "assignmentId")] df).

(** The lambda of line 82 *)
Definition due_of_row (local : Datetime.localzone) (r : Row) : outcome value :=
  to_dt local (VDict [("dueDate", Row_get r "dueDate" VNone);
                      ("dueTime", Row_get r "dueTime" VNone)]).

(** [assignments_df] after lines 81-85 *)
Definition assignments_df_dated (local : Datetime.localzone) (courses_raw : value)
  : outcome DataFrame :=
  df <- assignments_df courses_raw ;;
  due <- apply_rows (due_of_row local) df ;;
  df <- setitem df "dueDateTime" due ;;
  df <- map_to_dt local df "creationTime" ;;
  map_to_dt local df "updateTime".

(** [submissions_df] as lines 88-104 leave it *)
Definition submissions_df (courses_raw : value) : outcome DataFrame :=
  df <- json_normalize courses_raw ["assignments"; "submissions"]
          [["course_info"; "id"]; ["assignments"; "id"]; ["assignments"; "title"]]
          errors_ignore ;;
  Ok (rename [("course_info.id", "courseId"); ("assignments.id", "assignmentId");
              ("assignments.title", "assignmentTitle"); ("id", "submissionId")]
        df).

(** Lines 107-109 *)
Definition parse_timestamps (local : Datetime.localzone) (df : DataFrame)
  : outcome DataFrame :=
  foldM
    (fun df col => if contains df col then map_to_dt local df col else Ok df)
    ["creationTime"; "updateTime"] df.

(** Line 130 *)
Definition add_attachments (df : DataFrame) : outcome DataFrame :=
  s <- apply_rows extract_attachments df ;;
  setitem df "attachments" s.

(** Line 144: the column of the results of [pick_latest_points] (the dtype
    inferred for them is left out: beside a missing grade pandas stores an
    integer grade as a float) *)
Definition add_latest_points (df : DataFrame) : outcome DataFrame :=
  s <- getitem df "submissionHistory" ;;
  setitem df "pointsEarned_latest" (map pick_latest_points s).

(** Line 145 *)
Definition fill_late (df : DataFrame) : outcome DataFrame :=
  x <- get df "late" (VBool false) ;;
  s <- fillna x (VBool false) ;;
  setitem df "late" s.

Definition keep_sub_cols : list string :=
  ["submissionId"; "courseId"; "assignmentId"; "assignmentTitle"; "userId";
   "state"; "creationTime"; "updateTime"; "late"; "draftGrade";
   "pointsEarned_latest"; "attachments"; "alternateLink"].

(** Line 153 *)
Definition keep_columns (df : DataFrame) : DataFrame :=
  select df (filter (contains df) keep_sub_cols).

(** [submissions_df] after lines 107-153 *)
Definition submissions_df_final (local : Datetime.localzone) (courses_raw : value)
  : outcome DataFrame :=
  df <- submissions_df courses_raw ;;
  df <- parse_timestamps local df ;;
  df <- add_attachments df ;;
  df <- add_latest_points df ;;
  df <- fill_late df ;;
  Ok (keep_columns df).

(** ** Writing to MongoDB *)

(** An [UpdateOne(filter, {"$set": doc}, upsert=True)] request. *)
Record UpdateOne : Type := mkUpdateOne {
  op_filter : dict;
  op_set : dict;
  op_upsert : bool
}.

(** [{k: d[k] for k in key_fields}] *)
Definition key_filter (key_fields : list string) (d : dict) : outcome dict :=
  foldM (fun filt k => v <- subscript (VDict d) k ;; Ok (dict_set k v filt))
    key_fields [].

(** [upsert] (lines 173-181): the operations handed to
    [col.bulk_write(ops, ordered=False)], [None] when the function returns
    without writing. *)
Definition upsert (df : DataFrame) (key_fields : list string)
  : outcome (option (list UpdateOne)) :=
  match df_to_docs df with
  | [] => Ok None
  | docs =>
      ops <- foldM (fun ops d =>
                      filt <- key_filter key_fields d ;;
                      Ok (ops ++ [mkUpdateOne filt d true]))
               docs [] ;;
      Ok (Some ops)
  end.

(* ================================================================== *)
(** * The paginated fetches of [classroom_fetsher.py]

    [_fetch_students], [_fetch_teachers], [_fetch_assignments],
    [_fetch_announcements] and the body of
    [_fetch_single_assignment_submissions] are one loop over the pages of a
    listing; they differ in the listing that is requested and in the key of
    the response that holds the items.  The listing is a parameter here: the
    outcome of [list(..., pageToken=tok).execute()], where the first request
    carries no token. *)

Definition listing : Type := option value -> outcome value.

(** [items.extend(more)] *)
Definition list_extend (items more : value) : outcome value :=
  match items with
  | VList xs =>
      match more with
      | VList ys => Ok (VList (xs ++ ys))
      | VStr s =>
          Ok (VList (xs ++ map (fun c => VStr (String c "")) (list_ascii_of_string s)))
      | VDict d => Ok (VList (xs ++ map (fun kv => VStr (fst kv)) d))
      | _ => Raise TypeError
      end
  | _ => Raise AttributeError
  end.

(** The [while 'nextPageToken' in results] loop; [None] when [fuel] rounds do
    not reach its end. *)
Fixpoint fetch_more (fuel : nat) (execute : listing) (key : string)
  (results items : value) : option (outcome value) :=
  match fuel with
  | O => None
  | S fuel' =>
      match results with
      | VDict d =>
          match dict_get "nextPageToken" d with
          | None => Some (Ok items)
          | Some tok =>
              match (results' <- execute (Some tok) ;;
                     more <- meth_get results' key (VList []) ;;
                     items' <- list_extend items more ;;
                     Ok (results', items')) with
              | Ok (results', items') => fetch_more fuel' execute key results' items'
              | Raise e => Some (Raise e)
              | Unmodelled => Some Unmodelled
              end
          end
      | _ => Some (Raise TypeError)
      end
  end.

(** The statements inside [try] *)
Definition fetch_body (fuel : nat) (execute : listing) (key : string)
  : option (outcome value) :=
  match (results <- execute None ;;
         items <- meth_get results key (VList []) ;;
         Ok (results, items)) with
  | Ok (results, items) => fetch_more fuel execute key results items
  | Raise e => Some (Raise e)
  | Unmodelled => Some Unmodelled
  end.

(** [_fetch_students] and its siblings: [except Exception: return []] *)
Definition fetch_pages (fuel : nat) (execute : listing) (key : string)
  : option (outcome value) :=
  match fetch_body fuel execute key with
  | Some r => Some (try_except r (Ok (VList [])))
  | None => None
  end.

(** [_fetch_single_assignment_submissions] *)
Definition fetch_single_assignment_submissions (fuel : nat) (execute : listing)
  (assignment : value) : option (outcome value) :=
  match subscript assignment "id" with
  | Ok _ =>
      match assignment, fetch_body fuel execute "studentSubmissions" with
      | VDict a, Some (Ok submissions) =>
          Some (Ok (VDict (dict_set "submissions" submissions a)))
      | VDict a, Some (Raise _) =>
          Some (Ok (VDict (dict_set "submissions" (VList []) a)))
      | VDict a, Some Unmodelled => Some Unmodelled
      | _, Some _ => Some (Raise TypeError)
      | _, None => None
      end
  | Raise e => Some (Raise e)
  | Unmodelled => Some Unmodelled
  end.

(* ================================================================== *)
(** * Reference definitions and sample inputs *)

(** The grade of a history entry that qualifies: its [gradeHistory] record
    exists and contains the key [pointsEarned], whatever the value. *)
Definition qualifying_points (h : value) : option value :=
  match h with
  | VDict d =>
      match dict_get "gradeHistory" d with
      | Some (VDict g) => dict_get "pointsEarned" g
      | _ => None
      end
  | _ => None
  end.

(** The Latest-Grade Picker in the words of the specification: the value of
    the last qualifying entry in list order, absent when there is none or when
    the input is no list. *)
Definition spec_latest_points (hist : value) : value :=
  match hist with
  | VList l =>
      last (flat_map (fun h => match qualifying_points h with
                               | Some v => [v]
                               | None => []
                               end) l) VNone
  | _ => VNone
  end.

(** A structured time in which missing parts are written out as 0. *)
Definition with_default (k : string) (v : value) (d : dict) : dict :=
  if dict_in k d then d else d ++ [(k, v)].

Definition due_date_2025_09_01 : value :=
  VDict [("year", VInt 2025); ("month", VInt 9); ("day", VInt 1)].

(** The values a list of emitted records has in one field. *)
Definition field (k : string) (docs : list dict) : list (option value) :=
  map (dict_get k) docs.

Definition emitted (k : string) (df : outcome DataFrame)
  : outcome (list (option value)) :=
  d <- df ;; Ok (field k (df_to_docs d)).

(** One course with two students, one teacher and one assignment that has
    three submissions. *)
Definition sample_submission (id user : string) : value :=
  VDict [("id", VStr id); ("userId", VStr user); ("late", VBool false);
         ("submissionHistory", VList [])].

Definition sample_assignment : value :=
  VDict [("id", VStr "a1"); ("title", VStr "Essay");
         ("creationTime", VStr "2025-08-30T19:27:44.005Z");
         ("updateTime", VStr "2025-08-30T19:27:44.005Z");
         ("submissions", VList [sample_submission "s1" "u1";
                                sample_submission "s2" "u2";
                                sample_submission "s3" "u3"])].

Definition sample_course_info : value :=
  VDict [("id", VStr "c1"); ("name", VStr "Algebra");
         ("creationTime", VStr "2025-08-30T19:27:44.005Z");
         ("updateTime", VStr "2025-08-30T19:27:44.005Z")].

Definition sample_snapshot : value :=
  VList [VDict [("course_info", sample_course_info);
                ("students", VList [VDict [("userId", VStr "u1")];
                                    VDict [("userId", VStr "u2")]]);
                ("teachers", VList [VDict [("userId", VStr "t1")]]);
                ("assignments", VList [sample_assignment])]].

(** A submission's attachment list, as the flattened row holds it. *)
Definition attachments_row (atts : list value) : Row :=
  [("assignmentSubmission.attachments", VList atts)].

Definition drive_file_a1 : value :=
  VDict [("id", VStr "a1"); ("title", VStr "t"); ("alternateLink", VStr "l");
         ("thumbnailUrl", VStr "th")].

Definition descriptor_a1 : value :=
  VDict [("id", VStr "a1"); ("title", VStr "t"); ("link", VStr "l");
         ("thumb", VStr "th")].

(** An attachment that is a web link, not a drive file. *)
Definition link_attachment : value :=
  VDict [("link", VDict [("url", VStr "https://example.org"); ("title", VStr "page")])].

(** A block that lacks the key [students]. *)
Definition snapshot_without_students : value :=
  VList [VDict [("course_info", sample_course_info);
                ("teachers", VList [VDict [("userId", VStr "t1")]]);
                ("assignments", VList [])]].

(** A block whose [students] field is null, followed by a block with one
    student. *)
Definition snapshot_null_students : value :=
  VList [VDict [("course_info", sample_course_info);
                ("students", VNone);
                ("teachers", VList [VDict [("userId", VStr "t1")]]);
                ("assignments", VList [])];
         VDict [("course_info", VDict [("id", VStr "c2")]);
                ("students", VList [VDict [("userId", VStr "u9")]]);
                ("teachers", VList []);
                ("assignments", VList [])]].

(** A snapshot in which no submission carries the field [late]. *)
Definition snapshot_without_late : value :=
  VList [VDict [("course_info", sample_course_info);
                ("students", VList []);
                ("teachers", VList []);
                ("assignments",
                 VList [VDict [("id", VStr "a1"); ("title", VStr "Essay");
                               ("submissions",
                                VList [VDict [("id", VStr "s1");
                                              ("userId", VStr "u1");
                                              ("submissionHistory", VList [])]])]])]].

(** A snapshot with a submission that is late, one that says it is not, and
    one without the field. *)
Definition snapshot_some_late : value :=
  VList [VDict [("course_info", sample_course_info);
                ("students", VList []);
                ("teachers", VList []);
                ("assignments",
                 VList [VDict [("id", VStr "a1"); ("title", VStr "Essay");
                               ("submissions",
                                VList [VDict [("id", VStr "s1");
                                              ("late", VBool true);
                                              ("submissionHistory", VList [])];
                                       VDict [("id", VStr "s2");
                                              ("late", VBool false);
                                              ("submissionHistory", VList [])];
                                       VDict [("id", VStr "s3");
                                              ("submissionHistory", VList [])]])]])]].

(** A snapshot whose only submission has a timestamp without UTC offset. *)
Definition snapshot_offsetless : value :=
  VList [VDict [("course_info", sample_course_info);
                ("students", VList []);
                ("teachers", VList []);
                ("assignments",
                 VList [VDict [("id", VStr "a1"); ("title", VStr "Essay");
                               ("submissions",
                                VList [VDict [("id", VStr "s1");
                                              ("creationTime", VStr "2025-08-30T19:27:44");
                                              ("late", VBool true);
                                              ("submissionHistory", VList [])]])]])]].

(** Two hosts: one whose local time is UTC, one two hours east of it.  (A
    real host refuses the wall-clock times within a day of the ends of the
    calendar; these two convert every time.) *)
Definition zone_utc : Datetime.localzone := fun _ => Some 0.
Definition zone_plus_two : Datetime.localzone := fun _ => Some 7200.

(** ** The five collections *)

(** The records a frame is written out as, as [upsert] computes them. *)
Definition docs (df : outcome DataFrame) : outcome (list dict) :=
  d <- df ;; Ok (df_to_docs d).

(** The five collections, each as the statements that build it leave it. *)
Record collections : Type := mkCollections {
  courses : outcome (list dict);
  students : outcome (list dict);
  teachers : outcome (list dict);
  assignments : outcome (list dict);
  submissions : outcome (list dict)
}.

Definition flatten (local : Datetime.localzone) (courses_raw : value)
  : collections :=
  mkCollections
    (docs (courses_df local courses_raw))
    (docs (students_df courses_raw))
    (docs (teachers_df courses_raw))
    (docs (assignments_df_dated local courses_raw))
    (docs (submissions_df_final local courses_raw)).

(** The statements in the order of the script (lines 47-153): the first
    exception ends the run. *)
Definition run (local : Datetime.localzone) (courses_raw : value)
  : outcome (list dict * list dict * list dict * list dict * list dict) :=
  c <- courses_df local courses_raw ;;
  s <- students_df courses_raw ;;
  t <- teachers_df courses_raw ;;
  a <- assignments_df_dated local courses_raw ;;
  b <- submissions_df_final local courses_raw ;;
  Ok (df_to_docs c, df_to_docs s, df_to_docs t, df_to_docs a, df_to_docs b).

(** A string that [to_dt] reads as a time without UTC offset. *)
Definition offsetless (s : string) : bool :=
  match Datetime.fromisoformat (str_replace "Z" "+00:00" s) with
  | Ok (_, None) => true
  | _ => false
  end.

(** Some string inside [v] is such a time. *)
Fixpoint has_offsetless (v : value) : bool :=
  match v with
  | VStr s => offsetless s
  | VList l => existsb has_offsetless l
  | VDict d => existsb (fun kv => has_offsetless (snd kv)) d
  | _ => false
  end.

Definition clean (v : value) : Prop := has_offsetless v = false.

Definition clean_dict (d : dict) : Prop := Forall (fun kv => clean (snd kv)) d.

Definition clean_frame (df : DataFrame) : Prop := Forall (Forall clean) (rows df).

Definition clean_meta (mv : list (string * list value)) : Prop :=
  Forall (fun kv => Forall clean (snd kv)) mv.

Definition clean_extracted (st : extracted) : Prop :=
  Forall clean (records st) /\ clean_meta (meta_vals st).

(** What [df.replace({np.nan: None})] makes of a cell. *)
Definition none_for_nan (o : value) : value :=
  match o with VFloat FNan => VNone | _ => o end.

(** What a block contributes to the frame of one of its sub-collections [p]:
    the id of its [course_info] and the number of entries under [p]. *)
Definition block_part (p : string) (blk : value) (part : value * nat) : Prop :=
  pull_field errors_raise blk ["course_info"; "id"] = Ok (fst part)
  /\ exists recs, pull_records errors_raise blk p = Ok recs
                  /\ List.length recs = snd part.

(** The [courseId] the records of such a frame must carry: block by block, the
    block's course id once per entry. *)
Definition expected_courseIds (parts : list (value * nat)) : list (option value) :=
  flat_map (fun part => repeat (Some (none_for_nan (fst part))) (snd part)) parts.

(** What an assignment contributes to the frame of the submissions: its id
    and the number of its submissions. *)
Definition assignment_part (a : value) (part : value * nat) : Prop :=
  pull_field errors_ignore a ["id"] = Ok (fst part)
  /\ exists recs, pull_records errors_ignore a "submissions" = Ok recs
                  /\ List.length recs = snd part.

(** The assignments of a block, as the extraction of the submissions visits
    them. *)
Definition block_assignments (blk : value) (assignments : list value) : Prop :=
  exists sub, subscript blk "assignments" = Ok sub /\ objects sub = Ok assignments.

(** The three meta paths of line 91-95. *)
Definition submission_meta : list (list string) :=
  [["course_info"; "id"]; ["assignments"; "id"]; ["assignments"; "title"]].

(** The meta values line 91-95 collect for one assignment with id [aid] and
    title [title]. *)
Definition meta_step (mv : list (string * list value)) (aid title : value)
  : list (string * list value) :=
  meta_append "assignments.title" title
    (meta_append "assignments.id" aid (meta_append "course_info.id" aid mv)).

(** Every row has one cell per column. *)
Definition rectangular (df : DataFrame) : Prop :=
  Forall (fun r => List.length r = List.length (columns df)) (rows df).

(** No value of the dict, and no cell of the frame, is itself a dict. *)
Definition flat_dict (d : dict) : Prop :=
  Forall (fun kv => is_dict (snd kv) = false) d.

Definition flat_frame (df : DataFrame) : Prop :=
  Forall (Forall (fun v => is_dict v = false)) (rows df).

(** ** Further reference definitions and sample inputs *)

(** The frame of an outcome that is one. *)
Definition frame_of (m : outcome DataFrame) : DataFrame :=
  match m with Ok df => df | _ => empty_frame end.

(** The two shapes of an attachment entry that the comment of line 119
    names: the drive file directly under [driveFile], or nested a second time
    under that key. *)
Inductive drive_file_of : value -> dict -> Prop :=
| drive_file_direct : forall (att d : dict),
    dict_get "driveFile" att = Some (VDict d) ->
    d <> [] ->
    is_dict (get_or_none "driveFile" d) = false ->
    drive_file_of (VDict att) d
| drive_file_nested : forall (att w d : dict),
    dict_get "driveFile" att = Some (VDict w) ->
    dict_get "driveFile" w = Some (VDict d) ->
    drive_file_of (VDict att) d.

(** [df'] is [df] with the column [c] set: as many rows, the other columns
    untouched. *)
Definition sets_column (c : string) (df df' : DataFrame) : Prop :=
  rectangular df'
  /\ List.length (rows df') = List.length (rows df)
  /\ (forall c', c' <> c -> getitem df' c' = getitem df c')
  /\ (forall c', In c' (columns df') <-> c' = c \/ In c' (columns df)).

(** A converted time stamp: a UTC instant or absent. *)
Definition converted (v : value) : Prop := v = VNone \/ exists t, v = VDatetime t.

(** A snapshot whose submissions carry time stamps, grades, attachments and a
    field outside the allow-list. *)
Definition snapshot_graded : value :=
  VList [VDict [("course_info", sample_course_info);
                ("students", VList []);
                ("teachers", VList []);
                ("assignments",
                 VList [VDict [("id", VStr "a1"); ("title", VStr "Essay");
                               ("submissions",
                                VList [VDict [("id", VStr "s1");
                                              ("userId", VStr "u1");
                                              ("creationTime", VStr "2025-08-30T19:27:44.005Z");
                                              ("updateTime", VStr "not-a-date");
                                              ("late", VBool true);
                                              ("courseWorkType", VStr "ASSIGNMENT");
                                              ("assignmentSubmission",
                                               VDict [("attachments",
                                                       VList [VDict [("driveFile", drive_file_a1)]])]);
                                              ("submissionHistory",
                                               VList [VDict [("gradeHistory",
                                                              VDict [("pointsEarned", VInt 5)])];
                                                      VDict [("gradeHistory",
                                                              VDict [("pointsEarned", VInt 9)])]])];
                                       VDict [("id", VStr "s2");
                                              ("userId", VStr "u2");
                                              ("submissionHistory", VList [])]])]])]].

(** A snapshot in which every submission has an integer grade. *)
Definition snapshot_all_graded : value :=
  VList [VDict [("course_info", sample_course_info);
                ("students", VList []);
                ("teachers", VList []);
                ("assignments",
                 VList [VDict [("id", VStr "a1"); ("title", VStr "Essay");
                               ("submissions",
                                VList [VDict [("id", VStr "s1");
                                              ("late", VBool false);
                                              ("submissionHistory",
                                               VList [VDict [("gradeHistory",
                                                              VDict [("pointsEarned", VInt 5)])];
                                                      VDict [("gradeHistory",
                                                              VDict [("pointsEarned", VInt 9)])]])];
                                       VDict [("id", VStr "s2");
                                              ("late", VBool true);
                                              ("submissionHistory",
                                               VList [VDict [("gradeHistory",
                                                              VDict [("pointsEarned", VInt 7)])]])]])]])]].

(** An integer that a column of 64-bit integers holds. *)
Definition fits_int64 (n : Z) : bool :=
  (- 9223372036854775808 <=? n) && (n <=? 9223372036854775807).

(** A grade that is such an integer. *)
Definition integer_grade (v : value) : Prop :=
  exists n, v = VInt n /\ fits_int64 n = true.

Definition is_str (o : value) : bool :=
  match o with VStr _ => true | _ => false end.

(** The columns of the allow-list that lines 107-145 do not assign. *)
Definition carried_columns : list string :=
  ["submissionId"; "courseId"; "assignmentId"; "assignmentTitle"; "userId";
   "state"; "draftGrade"; "alternateLink"].

(** The record [rec] is a dict with distinct keys that binds [k] to [v], and
    [v] is not itself a dict. *)
Definition carries (k : string) (rec v : value) : Prop :=
  exists d, rec = VDict d /\ NoDup (map fst d) /\ dict_get k d = Some v
            /\ is_dict v = false.

Fixpoint distinct (l : list string) : bool :=
  match l with
  | [] => true
  | x :: l' => negb (existsb (String.eqb x) l') && distinct l'
  end.

(** A value as [json.load] builds it: every dict binds each key once. *)
Fixpoint well_formed (v : value) : bool :=
  match v with
  | VList l => forallb well_formed l
  | VDict d => distinct (map fst d) && forallb (fun kv => well_formed (snd kv)) d
  | _ => true
  end.

(** The items a page holds under [key]. *)
Definition page_items (key : string) (page : dict) : value :=
  match dict_get key page with Some v => v | None => VList [] end.

(** The listing serves the pages [pages], one after the other, when asked for
    the page of token [tok]: each page names the token of the next, the last
    one names none. *)
Inductive serves (execute : listing) : option value -> list dict -> Prop :=
| serves_last : forall tok page,
    execute tok = Ok (VDict page) ->
    dict_get "nextPageToken" page = None ->
    serves execute tok [page]
| serves_next : forall tok page tok' pages,
    execute tok = Ok (VDict page) ->
    dict_get "nextPageToken" page = Some tok' ->
    serves execute (Some tok') pages ->
    serves execute tok (page :: pages).

(** The listing serves [n] pages from token [tok] on and fails on the
    request after them. *)
Inductive breaks_after (execute : listing) : option value -> nat -> Prop :=
| breaks_now : forall tok e,
    execute tok = Raise e -> breaks_after execute tok 0
| breaks_later : forall tok page tok' n,
    execute tok = Ok (VDict page) ->
    dict_get "nextPageToken" page = Some tok' ->
    breaks_after execute (Some tok') n ->
    breaks_after execute tok (S n).

(** The items of all pages, when each page holds a list. *)
Fixpoint all_items (key : string) (pages : list dict) : option (list value) :=
  match pages with
  | [] => Some []
  | page :: pages' =>
      match page_items key page, all_items key pages' with
      | VList l, Some ls => Some (l ++ ls)
      | _, _ => None
      end
  end.

(** A listing of three students on two pages, and the same listing when the
    request for the second page fails. *)
Definition students_first_page : value :=
  VDict [("students", VList [VDict [("userId", VStr "u1")];
                             VDict [("userId", VStr "u2")]]);
         ("nextPageToken", VStr "t1")].

Definition two_pages : listing := fun tok =>
  match tok with
  | None => Ok students_first_page
  | Some _ => Ok (VDict [("students", VList [VDict [("userId", VStr "u3")]])])
  end.

Definition second_page_fails : listing := fun tok =>
  match tok with
  | None => Ok students_first_page
  | Some _ => Raise ValueError
  end.

(** A listing of one page of submissions. *)
Definition one_page_of_submissions : listing := fun _ =>
  Ok (VDict [("studentSubmissions", VList [VDict [("id", VStr "s1")]])]).

(** ** Proof tools *)

Definition modelled {A : Type} (m : outcome A) : Prop := m <> Unmodelled.

Ltac case_if :=
  match goal with
  | |- context [if ?c then _ else _] => destruct c
  end.

(** Induction over values that reaches into lists and dicts. *)
Fixpoint value_nested_ind (P : value -> Prop)
  (HNone : P VNone)
  (HBool : forall b, P (VBool b))
  (HInt : forall n, P (VInt n))
  (HFloat : forall f, P (VFloat f))
  (HStr : forall s, P (VStr s))
  (HList : forall l, Forall P l -> P (VList l))
  (HDict : forall d, Forall (fun kv => P (snd kv)) d -> P (VDict d))
  (HDatetime : forall t, P (VDatetime t))
  (v : value) {struct v} : P v :=
  match v with
  | VNone => HNone
  | VBool b => HBool b
  | VInt n => HInt n
  | VFloat f => HFloat f
  | VStr s => HStr s
  | VList l =>
      HList l
        ((fix go (l : list value) : Forall P l :=
            match l with
            | [] => Forall_nil P
            | x :: l' =>
                Forall_cons x
                  (value_nested_ind P HNone HBool HInt HFloat HStr HList HDict
                     HDatetime x)
                  (go l')
            end) l)
  | VDict d =>
      HDict d
        ((fix go (d : list (string * value)) : Forall (fun kv => P (snd kv)) d :=
            match d with
            | [] => Forall_nil _
            | kv :: d' =>
                Forall_cons kv
                  (value_nested_ind P HNone HBool HInt HFloat HStr HList HDict
                     HDatetime (snd kv))
                  (go d')
            end) d)
  | VDatetime t => HDatetime t
  end.

(* ================================================================== *)
(** * Properties of the helpers *)

(** C2. The Timestamp Unifier maps the Z-suffixed string to the UTC instant
    2025-08-30 19:27:44.005, the structured date to midnight UTC, the
    structured date with a time to 14:30 UTC, reads missing hours or minutes
    as 0, and maps None and an unparseable string to absent. *)
Theorem to_dt_examples : forall local (d t : dict),
  to_dt local (VStr "2025-08-30T19:27:44.005Z")
    = Ok (VDatetime (mkDatetime 2025 8 30 19 27 44 5000))
  /\ to_dt local (VDict [("dueDate", due_date_2025_09_01)])
    = Ok (VDatetime (mkDatetime 2025 9 1 0 0 0 0))
  /\ to_dt local (VDict [("dueDate", due_date_2025_09_01);
                        ("dueTime", VDict [("hours", VInt 14); ("minutes", VInt 30)])])
    = Ok (VDatetime (mkDatetime 2025 9 1 14 30 0 0))
  /\ to_dt local (VDict [("dueDate", VDict d); ("dueTime", VDict t)])
    = to_dt local (VDict [("dueDate", VDict d);
                          ("dueTime", VDict (with_default "minutes" (VInt 0)
                                               (with_default "hours" (VInt 0) t)))])
  /\ to_dt local VNone = Ok VNone
  /\ to_dt local (VStr "not-a-date") = Ok VNone.
Proof.
  intros local d t.
  split; [vm_compute; reflexivity|].
  split; [vm_compute; reflexivity|].
  split; [vm_compute; reflexivity|].
  split; [|split; vm_compute; reflexivity].
  unfold to_dt.
  change (meth_get (VDict [("dueDate", VDict d); ("dueTime", VDict t)]) "dueDate"
            (VDict [("dueDate", VDict d); ("dueTime", VDict t)])) with (Ok (VDict d)).
  set (t' := with_default "minutes" (VInt 0) (with_default "hours" (VInt 0) t)).
  change (meth_get (VDict [("dueDate", VDict d); ("dueTime", VDict t')]) "dueDate"
            (VDict [("dueDate", VDict d); ("dueTime", VDict t')])) with (Ok (VDict d)).
  change (meth_get (VDict [("dueDate", VDict d); ("dueTime", VDict t)]) "dueTime"
            (VDict [])) with (Ok (VDict t)).
  change (meth_get (VDict [("dueDate", VDict d); ("dueTime", VDict t')]) "dueTime"
            (VDict [])) with (Ok (VDict t')).
  cbn [bind meth_keys].
  destruct (subset ["year"; "month"; "day"] (map fst d)); [|reflexivity].
  cbn [bind meth_get]. subst t'.
  assert (Hget : forall k v0 (u : dict),
             match dict_get k (with_default k v0 u) with Some v => v | None => v0 end
             = match dict_get k u with Some v => v | None => v0 end).
  { intros k v0 u. unfold with_default, dict_in.
    destruct (dict_get k u) eqn:E; [rewrite E; reflexivity|].
    induction u as [|[k' v'] u IH]; cbn.
    - rewrite String.eqb_refl. reflexivity.
    - cbn in E. destruct (String.eqb k k'); [discriminate|]. apply IH, E. }
  assert (Hother : forall k k' v0 (u : dict), String.eqb k k' = false ->
             dict_get k (with_default k' v0 u) = dict_get k u).
  { intros k k' v0 u Hk. unfold with_default. destruct (dict_in k' u); [reflexivity|].
    induction u as [|[k2 v2] u IH]; cbn.
    - rewrite Hk. reflexivity.
    - destruct (String.eqb k k2); [reflexivity|apply IH]. }
  rewrite (Hother "hours" "minutes") by reflexivity.
  rewrite !Hget.
  rewrite (Hother "minutes" "hours") by reflexivity.
  reflexivity.
Qed.

Lemma dict_get_in_keys : forall k (d : dict) v,
  dict_get k d = Some v -> existsb (String.eqb k) (map fst d) = true.
Proof.
  intros k d v. induction d as [|[k' v'] d IH]; cbn; [discriminate|].
  destruct (String.eqb k k'); [reflexivity|]. exact IH.
Qed.

(** ** The parser stays inside the model *)

Lemma bind_modelled : forall (A B : Type) (m : outcome A) (k : A -> outcome B),
  modelled m -> (forall a, modelled (k a)) -> modelled (bind m k).
Proof.
  unfold modelled. intros A B m k Hm Hk. destruct m; cbn.
  - apply Hk.
  - discriminate.
  - exfalso. apply Hm. reflexivity.
Qed.

Lemma check_fields_modelled : forall y m d hh mm ss us,
  modelled (Datetime.check_fields y m d hh mm ss us).
Proof.
  intros. unfold modelled, Datetime.check_fields.
  repeat (case_if; [discriminate|]). discriminate.
Qed.

Lemma timezone_modelled : forall o, modelled (Datetime.timezone o).
Proof. intros o. unfold Datetime.timezone. case_if; discriminate. Qed.

Lemma parse_digits_modelled : forall n s ptr var,
  modelled (Datetime.C.parse_digits s ptr n var).
Proof.
  induction n as [|n IH]; intros s ptr var; cbn [Datetime.C.parse_digits].
  - discriminate.
  - cbv zeta. case_if; [apply IH|discriminate].
Qed.

Lemma iso_to_ymd_modelled : forall y w d, modelled (Datetime.C.iso_to_ymd y w d).
Proof.
  intros. unfold modelled, Datetime.C.iso_to_ymd. cbv zeta.
  match goal with |- (if ?c then _ else _) <> _ => destruct c end; [discriminate|].
  case_if; discriminate.
Qed.

Lemma skip_separator_modelled : forall s u p,
  modelled (Datetime.C.skip_separator s u p).
Proof.
  intros. unfold modelled, Datetime.C.skip_separator.
  destruct u; [case_if|]; discriminate.
Qed.

Lemma parse_isoformat_date_modelled : forall s len,
  modelled (Datetime.C.parse_isoformat_date s len).
Proof.
  intros s len. unfold Datetime.C.parse_isoformat_date.
  apply bind_modelled; [apply parse_digits_modelled|]. intros [year p]. cbv zeta.
  case_if.
  - apply bind_modelled; [apply parse_digits_modelled|]. intros [iso_week p'].
    case_if; [|apply iso_to_ymd_modelled].
    apply bind_modelled; [apply skip_separator_modelled|]. intros p''.
    apply bind_modelled; [apply parse_digits_modelled|]. intros [iso_day q].
    apply iso_to_ymd_modelled.
  - apply bind_modelled; [apply parse_digits_modelled|]. intros [month p'].
    apply bind_modelled; [apply skip_separator_modelled|]. intros p''.
    apply bind_modelled; [apply parse_digits_modelled|]. intros [day q].
    discriminate.
Qed.

Lemma hh_mm_ss_modelled : forall left i s p p_end hs vals,
  modelled (Datetime.C.hh_mm_ss left i s p p_end hs vals).
Proof.
  induction left as [|left IH]; intros; cbn [Datetime.C.hh_mm_ss].
  - discriminate.
  - apply bind_modelled; [apply parse_digits_modelled|]. intros [v q]. cbv zeta.
    case_if; [discriminate|]. case_if; [apply IH|].
    case_if; [discriminate|]. case_if; [apply IH|discriminate].
Qed.

Lemma parse_hh_mm_ss_ff_modelled : forall s tstr tstr_end,
  modelled (Datetime.C.parse_hh_mm_ss_ff s tstr tstr_end).
Proof.
  intros. unfold Datetime.C.parse_hh_mm_ss_ff.
  apply bind_modelled; [apply hh_mm_ss_modelled|]. intros [rest vals|p vals].
  - discriminate.
  - cbv zeta. apply bind_modelled; [apply parse_digits_modelled|].
    intros [us q]. discriminate.
Qed.

Lemma parse_isoformat_time_modelled : forall s dtstr p_end,
  modelled (Datetime.C.parse_isoformat_time s dtstr p_end).
Proof.
  intros. unfold Datetime.C.parse_isoformat_time. cbv zeta.
  apply bind_modelled; [apply parse_hh_mm_ss_ff_modelled|].
  intros [[[[hh mm] ss] us] rest].
  case_if; [destruct rest; discriminate|].
  case_if; [case_if; discriminate|].
  apply bind_modelled; [apply parse_hh_mm_ss_ff_modelled|].
  intros [[[[th tm] ts] tus] rest'].
  destruct rest'; discriminate.
Qed.

Lemma tzinfo_modelled : forall tz,
  modelled (Datetime.C.tzinfo_from_isoformat_results tz).
Proof.
  intros [[tzoffset tz_useconds]|]; unfold Datetime.C.tzinfo_from_isoformat_results;
    [|discriminate].
  case_if; [discriminate|].
  apply bind_modelled; [apply timezone_modelled|]. discriminate.
Qed.

(** Where [_find_isoformat_datetime_separator] answers -1 the string ends
    before the week date it announces does, and [parse_isoformat_date]
    fails on it. *)
Lemma date_cut_short : forall s,
  Datetime.C._find_isoformat_datetime_separator s (List.length s) < 0 ->
  Datetime.C.parse_isoformat_date s
    (Datetime.C._find_isoformat_datetime_separator s (List.length s))
  = Raise ValueError.
Proof.
  intros s H.
  do 10 (destruct s as [|? s];
         [unfold Datetime.C._find_isoformat_datetime_separator in *;
          cbn [List.length Nat.eqb Nat.ltb Nat.leb Datetime.C.byte_at nth andb]
            in *;
          repeat match type of H with
                 | (if ?c then _ else _) < 0 => destruct c eqn:?
                 | _ => lia
                 end;
          unfold Datetime.C.parse_isoformat_date;
          cbn [Datetime.C.parse_digits Datetime.C.byte_at nth];
          cbv zeta;
          repeat match goal with
                 | |- context [Datetime.C.is_digit 0] =>
                     change (Datetime.C.is_digit 0) with false
                 | |- context [if Datetime.C.is_digit ?b then _ else _] =>
                     destruct (Datetime.C.is_digit b); cbn [bind]
                 | E : ?c = true |- context [if ?c then _ else _] =>
                     rewrite E
                 | _ => progress cbn [bind Datetime.C.byte_at nth
                                      Datetime.C.skip_separator
                                      Datetime.C.parse_digits Datetime.C.below
                                      Z.ltb Z.compare orb]
                 end;
          try reflexivity
         |]).
  exfalso. unfold Datetime.C._find_isoformat_datetime_separator in H.
  cbn [List.length Nat.eqb Nat.ltb Nat.leb andb] in H.
  repeat match type of H with
         | (if ?c then _ else _) < 0 => destruct c
         | _ => lia
         end.
Qed.

Lemma fromisoformat_modelled : forall x, modelled (Datetime.fromisoformat x).
Proof.
  intros x. unfold Datetime.fromisoformat.
  case_if; [discriminate|]. cbv zeta.
  destruct (Datetime.C.parse_isoformat_date _ _) as [[[y m] d]| |] eqn:E;
    [|discriminate|exfalso; apply (parse_isoformat_date_modelled _ _ E)].
  cbn [bind]. apply bind_modelled.
  - case_if; [|discriminate].
    match goal with |- context [if ?c then _ else _] => destruct c eqn:Eneg end;
      [|apply parse_isoformat_time_modelled].
    apply Z.ltb_lt in Eneg. rewrite (date_cut_short _ Eneg) in E. discriminate.
  - intros [[[[hh mm] ss] us] tz].
    apply bind_modelled; [apply tzinfo_modelled|]. intros tzinfo.
    apply bind_modelled; [apply check_fields_modelled|]. discriminate.
Qed.

Lemma sub_offset_modelled : forall t o, modelled (Datetime.sub_offset t o).
Proof.
  intros t o. unfold modelled, Datetime.sub_offset. cbv zeta.
  case_if; [destruct (Datetime.ord2ymd _) as [[? ?] ?]; cbv beta iota|];
    discriminate.
Qed.

Lemma astimezone_utc_modelled : forall local t tzi,
  modelled (Datetime.astimezone_utc local t tzi).
Proof.
  intros local t tzi. unfold Datetime.astimezone_utc.
  destruct tzi as [o|]; [apply sub_offset_modelled|].
  destruct (local t) as [g|]; [|discriminate].
  apply bind_modelled; [apply timezone_modelled|].
  intros; apply sub_offset_modelled.
Qed.

(** A string is never answered with an exception: the result is a UTC
    instant, or absent when parsing or conversion fails. *)
Lemma to_dt_str_returns : forall local s,
  to_dt local (VStr s) = Ok VNone
  \/ exists t, to_dt local (VStr s) = Ok (VDatetime t).
Proof.
  intros local s. unfold to_dt.
  pose proof (fromisoformat_modelled (str_replace "Z" "+00:00" s)) as Hf.
  destruct (Datetime.fromisoformat (str_replace "Z" "+00:00" s)) as [[t tzi]| |];
    cbn [bind try_except].
  - pose proof (astimezone_utc_modelled local t tzi) as Ha.
    destruct (Datetime.astimezone_utc local t tzi) as [u| |]; cbn.
    + right. exists u. reflexivity.
    + left. reflexivity.
    + exfalso. apply Ha. reflexivity.
  - left. reflexivity.
  - exfalso. apply Hf. reflexivity.
Qed.

(** Anything that is neither None, a string nor a dict is answered with
    absent. *)
Lemma to_dt_other_absent : forall local s,
  match s with VStr _ | VDict _ => False | _ => True end ->
  to_dt local s = Ok VNone.
Proof. intros local s H. destruct s; try reflexivity; contradiction. Qed.

(** C3. The Timestamp Unifier raises AttributeError, instead of returning
    absent, on a dict whose [dueDate] key holds null: the dict that line 82
    builds for an assignment without due date. *)
Theorem to_dt_null_dueDate_raises : forall local,
  to_dt local (VDict [("dueDate", VNone); ("dueTime", VNone)])
    = Raise AttributeError
  /\ to_dt local (VDict [("dueDate", VStr "2025-09-01")]) = Raise AttributeError
  /\ to_dt local (VDict [("dueDate", due_date_2025_09_01); ("dueTime", VNone)])
    = Raise AttributeError.
Proof. intros local. repeat split; vm_compute; reflexivity. Qed.

(** Line 82 hands [to_dt] the cell of a column [dueDate]; whenever that cell
    is no dict, which includes the default None of a frame without such a
    column, the call raises. *)
Lemma due_of_row_raises : forall local (r : Row),
  is_dict (Row_get r "dueDate" VNone) = false ->
  due_of_row local r = Raise AttributeError.
Proof.
  intros local r H. unfold due_of_row, to_dt.
  cbn [meth_get dict_get String.eqb Ascii.eqb Bool.eqb bind].
  destruct (Row_get r "dueDate" VNone); try reflexivity; discriminate.
Qed.

(** C10. A bare structured dict, one with the keys year, month and day and
    without the keys [dueDate] and [dueTime], is accepted and yields that date
    at 00:00 UTC, whatever else the dict holds: hours and minutes placed in the
    bare dict itself are ignored. *)
Theorem to_dt_bare_date : forall local (s : dict) (y m d : Z),
  dict_get "dueDate" s = None ->
  dict_get "dueTime" s = None ->
  dict_get "year" s = Some (VInt y) ->
  dict_get "month" s = Some (VInt m) ->
  dict_get "day" s = Some (VInt d) ->
  1 <= y <= 9999 -> 1 <= m <= 12 -> 1 <= d <= Datetime.days_in_month y m ->
  to_dt local (VDict s) = Ok (VDatetime (mkDatetime y m d 0 0 0 0)).
Proof.
  intros local s y m d Hdd Hdt Hy Hm Hd Ry Rm Rd.
  assert (Hdim : Datetime.days_in_month y m <= 31).
  { unfold Datetime.days_in_month.
    destruct ((m =? 2) && Datetime.is_leap y); [lia|].
    unfold Datetime.DAYS_IN_MONTH.
    destruct m as [|p|p]; try lia.
    do 4 (destruct p as [p|p|]; try lia). }
  unfold to_dt, meth_get. rewrite Hdd, Hdt. cbn [bind meth_keys].
  unfold subset. cbn [forallb].
  rewrite (dict_get_in_keys _ _ _ Hy), (dict_get_in_keys _ _ _ Hm),
    (dict_get_in_keys _ _ _ Hd).
  cbn [andb dict_get bind int].
  unfold subscript. rewrite Hy, Hm, Hd. cbn [bind int].
  unfold Datetime.new. cbn [forallb]. unfold Datetime.fits_c_int.
  replace ((-2147483648 <=? y) && (y <=? 2147483647)) with true
    by (symmetry; apply andb_true_iff; split; apply Z.leb_le; lia).
  replace ((-2147483648 <=? m) && (m <=? 2147483647)) with true
    by (symmetry; apply andb_true_iff; split; apply Z.leb_le; lia).
  replace ((-2147483648 <=? d) && (d <=? 2147483647)) with true
    by (symmetry; apply andb_true_iff; split; apply Z.leb_le; lia).
  cbn [andb Z.leb Z.compare].
  unfold Datetime.check_fields, Datetime.MINYEAR, Datetime.MAXYEAR.
  replace ((1 <=? y) && (y <=? 9999)) with true
    by (symmetry; apply andb_true_iff; split; apply Z.leb_le; lia).
  replace ((1 <=? m) && (m <=? 12)) with true
    by (symmetry; apply andb_true_iff; split; apply Z.leb_le; lia).
  replace ((1 <=? d) && (d <=? Datetime.days_in_month y m)) with true
    by (symmetry; apply andb_true_iff; split; apply Z.leb_le; lia).
  reflexivity.
Qed.

Lemma to_dt_bare_date_witness :
  to_dt zone_plus_two
    (VDict [("year", VInt 2025); ("month", VInt 9); ("day", VInt 1);
            ("hours", VInt 14); ("minutes", VInt 30)])
  = Ok (VDatetime (mkDatetime 2025 9 1 0 0 0 0)).
Proof.
  apply (to_dt_bare_date zone_plus_two
           [("year", VInt 2025); ("month", VInt 9); ("day", VInt 1);
            ("hours", VInt 14); ("minutes", VInt 30)] 2025 9 1);
    try reflexivity; vm_compute; split; discriminate.
Defined.

(* ================================================================== *)
(** * The Attachment Extractor *)

(** C4. The Attachment Extractor resolves a drive-file payload given directly
    or nested a second time under the same key and maps it to id, title, link
    and thumb, as on the sample [{"driveFile": {...}}]; an entry without a
    drive-file payload, however, is not skipped: it contributes a descriptor
    whose four fields are None. *)
Theorem extract_attachments_link_entry :
  extract_attachments (attachments_row [VDict [("driveFile", drive_file_a1)]])
    = Ok (VList [descriptor_a1])
  /\ extract_attachments
       (attachments_row [VDict [("driveFile", VDict [("driveFile", drive_file_a1)])]])
    = Ok (VList [descriptor_a1])
  /\ extract_attachments (attachments_row [link_attachment])
    = Ok (VList [VDict [("id", VNone); ("title", VNone); ("link", VNone);
                        ("thumb", VNone)]])
  /\ extract_attachments
       (attachments_row [link_attachment; VDict [("driveFile", drive_file_a1)]])
    = Ok (VList [VDict [("id", VNone); ("title", VNone); ("link", VNone);
                        ("thumb", VNone)];
                 descriptor_a1]).
Proof. repeat split; vm_compute; reflexivity. Qed.

(** A payload directly under [driveFile]. *)
Lemma extract_attachment_direct : forall out (att d : dict),
  dict_get "driveFile" att = Some (VDict d) ->
  d <> [] ->
  is_dict (get_or_none "driveFile" d) = false ->
  extract_attachment out (VDict att) = Ok (out ++ [descriptor d]).
Proof.
  intros out att d Hatt Hd Hin. unfold extract_attachment.
  cbn [meth_get bind]. rewrite Hatt.
  destruct d as [|kv d]; [contradiction|]. cbn [truthy meth_get bind].
  unfold get_or_none in Hin. rewrite Hin. cbn [bind is_dict meth_get].
  reflexivity.
Qed.

(** A payload nested a second time under [driveFile]. *)
Lemma extract_attachment_nested : forall out (att d inner : dict),
  dict_get "driveFile" att = Some (VDict d) ->
  dict_get "driveFile" d = Some (VDict inner) ->
  extract_attachment out (VDict att) = Ok (out ++ [descriptor inner]).
Proof.
  intros out att d inner Hatt Hd. unfold extract_attachment.
  cbn [meth_get bind]. rewrite Hatt.
  destruct d as [|kv d]; [discriminate|]. cbn [truthy meth_get bind].
  rewrite Hd. cbn [bind is_dict meth_get]. reflexivity.
Qed.

(** An entry without the key [driveFile]: not skipped, one descriptor of
    Nones. *)
Lemma extract_attachment_without_payload : forall out (att : dict),
  dict_get "driveFile" att = None ->
  extract_attachment out (VDict att) = Ok (out ++ [descriptor []]).
Proof.
  intros out att Hatt. unfold extract_attachment.
  cbn [meth_get bind]. rewrite Hatt. reflexivity.
Qed.

(** Every entry that the loop gets past adds exactly one descriptor. *)
Lemma extract_attachment_appends : forall out att out',
  extract_attachment out att = Ok out' ->
  exists desc, out' = out ++ [desc].
Proof.
  intros out att out' H. unfold extract_attachment in H.
  destruct att; try discriminate. cbn [meth_get bind] in H.
  set (got := match dict_get "driveFile" d with Some v => v | None => VNone end) in H.
  set (df := if truthy got then got else VDict []) in H.
  assert (Hdf : (exists e, df = VDict e) \/ meth_get df "driveFile" VNone = Raise AttributeError).
  { subst df. destruct (truthy got); [|left; eexists; reflexivity].
    destruct got; try (right; reflexivity). left. eexists. reflexivity. }
  destruct Hdf as [[e He]|Hr]; [|rewrite Hr in H; discriminate].
  rewrite He in H. cbn [meth_get bind] in H.
  destruct (is_dict _) eqn:Hp in H; cbn [bind] in H.
  - destruct (dict_get "driveFile" e) as [v|]; [|discriminate].
    destruct v; try discriminate. cbn [is_dict meth_get bind] in H.
    injection H as <-. eexists. reflexivity.
  - cbn [is_dict meth_get bind] in H. injection H as <-. eexists. reflexivity.
Qed.

Lemma extract_loop_length : forall l out out',
  foldM extract_attachment l out = Ok out' ->
  List.length out' = (List.length out + List.length l)%nat.
Proof.
  induction l as [|att l IH]; intros out out' H; cbn in H.
  - injection H as <-. cbn. lia.
  - destruct (extract_attachment out att) as [o| |] eqn:E; try discriminate.
    cbn [bind] in H. apply IH in H.
    destruct (extract_attachment_appends _ _ _ E) as [desc ->].
    rewrite H, length_app. cbn. lia.
Qed.

(** C5. The Attachment Extractor returns absent when its input is absent or
    no list, when it is the empty list, and when the entries contributed no
    descriptor; it never returns an empty list. *)
Theorem extract_attachments_absent : forall (row : Row),
  (is_list (Row_get row "assignmentSubmission.attachments" VNone) = false ->
   extract_attachments row = Ok VNone)
  /\ (Row_get row "assignmentSubmission.attachments" VNone = VList [] ->
      extract_attachments row = Ok VNone)
  /\ (forall l, Row_get row "assignmentSubmission.attachments" VNone = VList l ->
      foldM extract_attachment l [] = Ok [] ->
      extract_attachments row = Ok VNone)
  /\ extract_attachments row <> Ok (VList []).
Proof.
  intros row. unfold extract_attachments.
  destruct (Row_get row "assignmentSubmission.attachments" VNone) as [| | | | |l| |];
    repeat split; try reflexivity; try discriminate; intros.
  - injection H as ->. reflexivity.
  - injection H as ->. rewrite H0. reflexivity.
  - destruct (foldM extract_attachment l []) as [out| |]; cbn; try discriminate.
    destruct out; cbn; discriminate.
Qed.

Lemma extract_attachments_absent_witness :
  extract_attachments [("userId", VStr "u1")] = Ok VNone
  /\ extract_attachments (attachments_row []) = Ok VNone
  /\ extract_attachments (attachments_row []) <> Ok (VList []).
Proof.
  split; [|split].
  - apply (proj1 (extract_attachments_absent [("userId", VStr "u1")])).
    reflexivity.
  - apply (proj1 (proj2 (proj2 (extract_attachments_absent (attachments_row []))))
             []); reflexivity.
  - apply (proj2 (proj2 (proj2 (extract_attachments_absent (attachments_row []))))).
Defined.

(* ================================================================== *)
(** * The Latest-Grade Picker *)

Lemma latest_step_spec : forall pts h,
  latest_step pts h = match qualifying_points h with Some v => v | None => pts end.
Proof.
  intros pts h. unfold latest_step, qualifying_points.
  destruct h; try reflexivity.
  destruct (dict_get "gradeHistory" d) as [g|]; [|reflexivity].
  destruct g; reflexivity.
Qed.

Lemma last_cons_default : forall (A : Type) (r : list A) (x d : A),
  last r x = last (x :: r) d.
Proof.
  induction r as [|y r IH]; intros x d; [reflexivity|].
  destruct r as [|z r]; [reflexivity|].
  change (last (y :: z :: r) x) with (last (z :: r) x).
  change (last (x :: y :: z :: r) d) with (last (z :: r) d).
  rewrite (IH x d). reflexivity.
Qed.

Lemma fold_latest_spec : forall l pts,
  fold_left latest_step l pts
  = last (flat_map (fun h => match qualifying_points h with
                             | Some v => [v]
                             | None => []
                             end) l) pts.
Proof.
  induction l as [|h l IH]; intros pts; cbn [fold_left flat_map].
  - reflexivity.
  - rewrite IH, latest_step_spec.
    destruct (qualifying_points h) as [v|]; cbn [app].
    + apply last_cons_default.
    + reflexivity.
Qed.

(** C6. The Latest-Grade Picker returns the grade-points value of the last
    entry, in list order, whose wrapped gradeHistory record contains the
    grade-points key (an explicit zero or null qualifies and overwrites), and
    absent for an absent, malformed or empty input or one without qualifying
    entry; the sample history yields 9. *)
Theorem pick_latest_points_spec : forall hist,
  pick_latest_points hist = spec_latest_points hist
  /\ pick_latest_points
       (VList [VDict [("gradeHistory", VDict [("pointsEarned", VInt 5)])];
               VDict [("gradeHistory", VDict [("other", VInt 1)])];
               VDict [("gradeHistory", VDict [("pointsEarned", VInt 9)])]])
     = VInt 9
  /\ pick_latest_points
       (VList [VDict [("gradeHistory", VDict [("pointsEarned", VInt 5)])];
               VDict [("gradeHistory", VDict [("pointsEarned", VInt 0)])]])
     = VInt 0
  /\ pick_latest_points
       (VList [VDict [("gradeHistory", VDict [("pointsEarned", VInt 5)])];
               VDict [("gradeHistory", VDict [("pointsEarned", VNone)])]])
     = VNone
  /\ pick_latest_points (VList []) = VNone
  /\ pick_latest_points VNone = VNone
  /\ pick_latest_points nan = VNone.
Proof.
  intros hist. split; [|repeat split; reflexivity].
  destruct hist as [| | | | |l| |]; try reflexivity.
  unfold pick_latest_points, spec_latest_points.
  destruct l as [|h l]; [reflexivity|]. apply fold_latest_spec.
Qed.

(* ================================================================== *)
(** * The collections *)

(** C1. On a snapshot of one course with 2 students, 1 teacher and 1
    assignment with 3 submissions the script builds 2 student, 1 teacher, 1
    assignment and 3 submission records, the first three kinds carrying the
    course's id as [courseId]; but building the course records raises
    KeyError (line 48 asks for a column [course_info] that the flattening of
    line 47 has split up), and the [courseId] of the submission records is the
    id of the assignment, not of the course. *)
Theorem sample_snapshot_collections : forall local,
  courses_df local sample_snapshot = Raise KeyError
  /\ emitted "courseId" (students_df sample_snapshot)
     = Ok [Some (VStr "c1"); Some (VStr "c1")]
  /\ emitted "courseId" (teachers_df sample_snapshot) = Ok [Some (VStr "c1")]
  /\ emitted "courseId" (assignments_df sample_snapshot) = Ok [Some (VStr "c1")]
  /\ emitted "assignmentId" (assignments_df sample_snapshot) = Ok [Some (VStr "a1")]
  /\ emitted "submissionId" (submissions_df sample_snapshot)
     = Ok [Some (VStr "s1"); Some (VStr "s2"); Some (VStr "s3")]
  /\ emitted "assignmentId" (submissions_df sample_snapshot)
     = Ok [Some (VStr "a1"); Some (VStr "a1"); Some (VStr "a1")]
  /\ emitted "courseId" (submissions_df sample_snapshot)
     = Ok [Some (VStr "a1"); Some (VStr "a1"); Some (VStr "a1")]
  /\ emitted "courseId" (submissions_df_final local sample_snapshot)
     = Ok [Some (VStr "a1"); Some (VStr "a1"); Some (VStr "a1")].
Proof. intros local. repeat split; vm_compute; reflexivity. Qed.

(** C8. On a snapshot in which no submission has a [late] field, line 145
    raises AttributeError ([get] hands back its default [False], which has no
    [fillna]) instead of setting [late] to false; when some submission carries
    the field, the others get false and the literal booleans are kept. *)
Theorem late_without_column_raises : forall local,
  submissions_df_final local snapshot_without_late = Raise AttributeError
  /\ emitted "late" (submissions_df snapshot_without_late) = Ok [None]
  /\ (df <- submissions_df snapshot_without_late ;; fill_late df)
     = Raise AttributeError
  /\ emitted "late" (submissions_df_final local snapshot_some_late)
     = Ok [Some (VBool true); Some (VBool false); Some (VBool false)].
Proof. intros local. repeat split; vm_compute; reflexivity. Qed.

(** Line 145 on any frame without a column [late]. *)
Lemma fill_late_without_column : forall df,
  contains df "late" = false -> fill_late df = Raise AttributeError.
Proof.
  intros df H. unfold fill_late, get, getitem, count_label.
  unfold contains in H.
  assert (E : filter (String.eqb "late") (columns df) = []).
  { induction (columns df) as [|c cs IH]; [reflexivity|].
    cbn [existsb filter] in H |- *. destruct (String.eqb "late" c); [discriminate|].
    apply IH, H. }
  rewrite E. reflexivity.
Qed.

(* ================================================================== *)
(** * Sub-collections that are missing or null *)

Lemma dict_get_set_same : forall k v (d : dict),
  dict_get k (dict_set k v d) = Some v.
Proof.
  intros k v d. induction d as [|[k' v'] d IH]; cbn.
  - rewrite String.eqb_refl. reflexivity.
  - destruct (String.eqb k k') eqn:E; cbn; rewrite ?String.eqb_refl, ?E; auto.
Qed.

Lemma dict_get_set_other : forall k k' v (d : dict),
  String.eqb k k' = false ->
  dict_get k (dict_set k' v d) = dict_get k d.
Proof.
  intros k k' v d Hk. induction d as [|[k2 v2] d IH]; cbn.
  - rewrite Hk. reflexivity.
  - destruct (String.eqb k' k2) eqn:E; cbn.
    + apply String.eqb_eq in E. subst k2. rewrite Hk. reflexivity.
    + destruct (String.eqb k k2); [reflexivity|apply IH].
Qed.

Lemma foldM_congr_at : forall (A S : Type) (f : S -> A -> outcome S) (x y : A),
  (forall s, f s x = f s y) ->
  forall pre post s,
  foldM f (pre ++ x :: post) s = foldM f (pre ++ y :: post) s.
Proof.
  intros A S f x y Hxy pre post. induction pre as [|a pre IH]; intros s; cbn.
  - rewrite Hxy. reflexivity.
  - destruct (f s a); cbn; auto.
Qed.

Lemma json_normalize_app : forall pre x post record_path meta errors,
  json_normalize (VList (pre ++ x :: post)) record_path meta errors
  = normalize_records (VList (pre ++ x :: post)) record_path meta errors.
Proof. intros. destruct pre; reflexivity. Qed.

Lemma subscript_set_same : forall k v (b : dict),
  subscript (VDict (dict_set k v b)) k = Ok v.
Proof. intros. unfold subscript. rewrite dict_get_set_same. reflexivity. Qed.

(** The leaf step of the extraction on a dict whose record field is null or
    the empty list: no record, and the meta value of the block. *)
Lemma pull_records_null : forall errors p (b : dict) v,
  v = VNone \/ v = VList [] ->
  pull_records errors (VDict (dict_set p v b)) p = Ok [].
Proof.
  intros errors p b v Hv. unfold pull_records, pull_field_str, subscript.
  rewrite dict_get_set_same. destruct Hv as [-> | ->]; reflexivity.
Qed.

(** A record path of one level: a block in which the field is null goes
    through [json_normalize] like the block in which it is the empty list. *)
Lemma json_normalize_null_field : forall (p : string) (pre post : list value)
  (b : dict),
  String.eqb "course_info" p = false ->
  json_normalize (VList (pre ++ VDict (dict_set p VNone b) :: post)) [p]
    [["course_info"; "id"]] errors_raise
  = json_normalize (VList (pre ++ VDict (dict_set p (VList []) b) :: post)) [p]
      [["course_info"; "id"]] errors_raise.
Proof.
  intros p pre post b Hp.
  rewrite !json_normalize_app. unfold normalize_records.
  cbn [recursive_extract objects bind].
  rewrite (foldM_congr_at _ _ _ (VDict (dict_set p VNone b))
             (VDict (dict_set p (VList []) b))); [reflexivity|].
  intros [seen st].
  rewrite !pull_records_null by auto.
  cbn [bind mapM List.length].
  cbn [foldM bind join List.length Nat.ltb Nat.leb Nat.add skipn].
  unfold pull_field. cbn [walk subscript].
  rewrite !(dict_get_set_other "course_info" p) by exact Hp.
  reflexivity.
Qed.

(** An assignment whose [submissions] field is null goes through the
    extraction of the submissions like one whose field is the empty list. *)
Lemma submissions_null_field : forall (pre post apre apost : list value)
  (a b : dict),
  submissions_df
    (VList (pre ++ VDict (dict_set "assignments"
                            (VList (apre ++ VDict (dict_set "submissions" VNone a)
                                      :: apost)) b) :: post))
  = submissions_df
      (VList (pre ++ VDict (dict_set "assignments"
                              (VList (apre ++ VDict (dict_set "submissions"
                                                       (VList []) a)
                                        :: apost)) b) :: post)).
Proof.
  intros pre post apre apost a b.
  unfold submissions_df. f_equal.
  rewrite !json_normalize_app. unfold normalize_records.
  cbn [recursive_extract objects bind].
  set (x := VDict (dict_set "assignments"
                     (VList (apre ++ VDict (dict_set "submissions" VNone a)
                               :: apost)) b)).
  set (y := VDict (dict_set "assignments"
                     (VList (apre ++ VDict (dict_set "submissions" (VList []) a)
                               :: apost)) b)).
  rewrite (foldM_congr_at _ _ _ x y); [reflexivity|].
  intros [seen st]. subst x y.
  cbn [foldM bind List.length Nat.eqb Nat.add].
  rewrite !subscript_set_same. cbn [bind objects].
  apply foldM_congr_at.
  intros [seen' st'].
  rewrite !pull_records_null by auto.
  cbn [bind mapM List.length].
  cbn [foldM bind join List.length Nat.ltb Nat.leb Nat.add skipn].
  unfold pull_field. cbn [walk subscript].
  rewrite !(dict_get_set_other "id" "submissions") by reflexivity.
  rewrite !(dict_get_set_other "title" "submissions") by reflexivity.
  reflexivity.
Qed.

(** A first block that is a dict without the key of the record path makes
    [json_normalize] raise KeyError, whatever follows and whatever the meta
    paths and the error mode are. *)
Lemma missing_key_raises : forall p (b : dict) post meta errors,
  dict_get p b = None ->
  json_normalize (VList (VDict b :: post)) [p] meta errors = Raise KeyError.
Proof.
  intros p b post meta errors H. cbn [json_normalize]. unfold normalize_records.
  cbn [recursive_extract objects bind foldM].
  unfold pull_records, pull_field_str, subscript. rewrite H. reflexivity.
Qed.

(** C7, as the code has it. A block that lacks a sub-collection key makes the
    extraction raise KeyError: no frame of that kind is produced from the
    snapshot. *)
Lemma missing_students_key_raises :
  students_df snapshot_without_students = Raise KeyError
  /\ ~ (exists df, students_df snapshot_without_students = Ok df).
Proof.
  split; [vm_compute; reflexivity|].
  intros [df H]. vm_compute in H. discriminate.
Qed.

Lemma foldM_fails_at : forall (A S : Type) (f : S -> A -> outcome S) (x : A),
  (forall s s', f s x <> Ok s') ->
  forall pre post s s', foldM f (pre ++ x :: post) s <> Ok s'.
Proof.
  intros A S f x Hx pre post. induction pre as [|a pre IH]; intros s s' H; cbn in H.
  - destruct (f s x) as [s1| |] eqn:E; try discriminate. apply (Hx s s1 E).
  - destruct (f s a) as [s1| |]; try discriminate. cbn [bind] in H.
    apply (IH s1 s' H).
Qed.

Lemma one_level_missing_key : forall p (b : dict) pre post meta errors df,
  dict_get p b = None ->
  json_normalize (VList (pre ++ VDict b :: post)) [p] meta errors <> Ok df.
Proof.
  intros p b pre post meta errors df Hb H.
  rewrite json_normalize_app in H. unfold normalize_records in H.
  destruct (recursive_extract _ _ _ _ _ _ _) as [[seen st]| |] eqn:E;
    try discriminate.
  cbn [recursive_extract objects bind] in E.
  revert E. apply foldM_fails_at. intros [seen0 st0] s' Hs.
  unfold pull_records, pull_field_str, subscript in Hs. rewrite Hb in Hs.
  cbn in Hs. discriminate.
Qed.

Lemma bind_not_ok : forall (A B : Type) (m : outcome A) (k : A -> outcome B) b,
  (forall a, m <> Ok a) -> bind m k <> Ok b.
Proof.
  intros A B m k b Hm H. destruct m as [a| |]; try discriminate.
  apply (Hm a). reflexivity.
Qed.

(** The extraction of the submissions stops at a block whose walk down the
    record path fails, wherever the block stands. *)
Lemma submissions_block_fails : forall pre x post df,
  (forall seen st s',
     (seen <- foldM
                (fun seen val =>
                   if (0 + 1 =? List.length val)%nat
                   then
                     v <- pull_field_str errors_ignore x (last val "") false ;;
                     Ok (dict_set (join val) v seen)
                   else Ok seen)
                [["course_info"; "id"]; ["assignments"; "id"];
                 ["assignments"; "title"]] seen ;;
      sub <- subscript x "assignments" ;;
      recursive_extract errors_ignore
        [["course_info"; "id"]; ["assignments"; "id"]; ["assignments"; "title"]]
        ["submissions"] sub seen 1 st) <> Ok s') ->
  submissions_df (VList (pre ++ x :: post)) <> Ok df.
Proof.
  intros pre x post df Hx H. unfold submissions_df in H.
  revert H. apply bind_not_ok. intros df0 H.
  rewrite json_normalize_app in H. unfold normalize_records in H.
  destruct (recursive_extract _ _ _ _ _ _ _) as [[seen st]| |] eqn:E;
    try discriminate.
  cbn [recursive_extract objects bind] in E.
  revert E. apply foldM_fails_at. intros [seen0 st0] s' Hs.
  apply (Hx seen0 st0 s'). exact Hs.
Qed.

Lemma submissions_missing_assignments : forall pre (b : dict) post df,
  dict_get "assignments" b = None ->
  submissions_df (VList (pre ++ VDict b :: post)) <> Ok df.
Proof.
  intros pre b post df Hb. apply submissions_block_fails.
  intros seen st s' Hs.
  cbn [foldM bind List.length Nat.eqb Nat.add] in Hs.
  unfold subscript in Hs. rewrite Hb in Hs. discriminate.
Qed.

(** [json_normalize] iterates over what lies one step down the record path:
    a null there is a TypeError. *)
Lemma submissions_null_assignments : forall pre (b : dict) post df,
  submissions_df (VList (pre ++ VDict (dict_set "assignments" VNone b) :: post))
  <> Ok df.
Proof.
  intros pre b post df. apply submissions_block_fails.
  intros seen st s' Hs.
  cbn [foldM bind List.length Nat.eqb Nat.add] in Hs.
  rewrite subscript_set_same in Hs. cbn [bind] in Hs.
  cbn [recursive_extract objects bind] in Hs. discriminate.
Qed.

Lemma submissions_missing_submissions : forall pre (a b : dict) apre apost post df,
  dict_get "submissions" a = None ->
  submissions_df
    (VList (pre ++ VDict (dict_set "assignments"
                            (VList (apre ++ VDict a :: apost)) b) :: post))
  <> Ok df.
Proof.
  intros pre a b apre apost post df Ha. apply submissions_block_fails.
  intros seen st s' Hs.
  cbn [foldM bind List.length Nat.eqb Nat.add] in Hs.
  rewrite subscript_set_same in Hs. cbn [bind] in Hs.
  cbn [recursive_extract objects bind] in Hs.
  revert Hs. apply foldM_fails_at. intros [seen1 st1] s1 Hs.
  unfold pull_records, pull_field_str, subscript in Hs. rewrite Ha in Hs.
  cbn in Hs. discriminate.
Qed.

(** C7, amended. A block whose students, teachers or assignments field is
    null, and an assignment whose submissions field is null, is treated as
    having the empty list there by the extraction of that kind: the frame of
    that kind is the one of the snapshot with the empty list written out, the
    block contributing no record to it while the other blocks contribute
    theirs.  A null assignments field is not treated so by the extraction of
    the submissions, which builds no frame then.  A block in which the key of
    a sub-collection is missing, or an assignment without the key
    [submissions], keeps the frame of that kind from being built, wherever it
    stands in the snapshot. *)
Theorem null_subcollection_is_empty : forall (pre post apre apost : list value)
  (a b c : dict),
  emitted "userId" (students_df snapshot_null_students) = Ok [Some (VStr "u9")]
  /\ emitted "courseId" (students_df snapshot_null_students) = Ok [Some (VStr "c2")]
  /\ emitted "courseId" (teachers_df snapshot_null_students) = Ok [Some (VStr "c1")]
  /\ students_df (VList (pre ++ VDict (dict_set "students" VNone b) :: post))
  = students_df (VList (pre ++ VDict (dict_set "students" (VList []) b) :: post))
  /\ teachers_df (VList (pre ++ VDict (dict_set "teachers" VNone b) :: post))
  = teachers_df (VList (pre ++ VDict (dict_set "teachers" (VList []) b) :: post))
  /\ assignments_df (VList (pre ++ VDict (dict_set "assignments" VNone b) :: post))
  = assignments_df
      (VList (pre ++ VDict (dict_set "assignments" (VList []) b) :: post))
  /\ submissions_df
       (VList (pre ++ VDict (dict_set "assignments"
                               (VList (apre ++ VDict (dict_set "submissions" VNone a)
                                         :: apost)) b) :: post))
  = submissions_df
      (VList (pre ++ VDict (dict_set "assignments"
                              (VList (apre ++ VDict (dict_set "submissions"
                                                       (VList []) a)
                                        :: apost)) b) :: post))
  /\ ~ (exists df,
          submissions_df
            (VList (pre ++ VDict (dict_set "assignments" VNone b) :: post))
          = Ok df)
  /\ (dict_get "students" c = None ->
      ~ exists df, students_df (VList (pre ++ VDict c :: post)) = Ok df)
  /\ (dict_get "teachers" c = None ->
      ~ exists df, teachers_df (VList (pre ++ VDict c :: post)) = Ok df)
  /\ (dict_get "assignments" c = None ->
      ~ (exists df, assignments_df (VList (pre ++ VDict c :: post)) = Ok df)
      /\ ~ (exists df, submissions_df (VList (pre ++ VDict c :: post)) = Ok df))
  /\ (dict_get "submissions" c = None ->
      ~ exists df,
          submissions_df
            (VList (pre ++ VDict (dict_set "assignments"
                                    (VList (apre ++ VDict c :: apost)) b) :: post))
          = Ok df).
Proof.
  intros pre post apre apost a b c.
  do 3 (split; [vm_compute; reflexivity|]).
  split; [unfold students_df; rewrite json_normalize_null_field by reflexivity;
          reflexivity|].
  split; [unfold teachers_df; rewrite json_normalize_null_field by reflexivity;
          reflexivity|].
  split; [unfold assignments_df; rewrite json_normalize_null_field by reflexivity;
          reflexivity|].
  split; [apply submissions_null_field|].
  split; [intros [df H]; exact (submissions_null_assignments _ _ _ _ H)|].
  split; [intros Hc [df H]; unfold students_df in H; revert H;
          apply bind_not_ok; intros df0; apply one_level_missing_key, Hc|].
  split; [intros Hc [df H]; unfold teachers_df in H; revert H;
          apply bind_not_ok; intros df0; apply one_level_missing_key, Hc|].
  split.
  - intros Hc. split.
    + intros [df H]. unfold assignments_df in H. revert H.
      apply bind_not_ok. intros df0. apply one_level_missing_key, Hc.
    + intros [df H]. exact (submissions_missing_assignments _ _ _ _ Hc H).
  - intros Hc [df H]. exact (submissions_missing_submissions _ _ _ _ _ _ _ Hc H).
Qed.

Lemma null_subcollection_is_empty_witness :
  ~ exists df,
      students_df
        (VList ([VDict [("course_info", sample_course_info);
                        ("students", VList [VDict [("userId", VStr "u1")]]);
                        ("teachers", VList []);
                        ("assignments", VList [])]]
                ++ VDict [("course_info", VDict [("id", VStr "c2")]);
                          ("teachers", VList []);
                          ("assignments", VList [])] :: []))
      = Ok df.
Proof.
  apply (proj1 (proj2 (proj2 (proj2 (proj2 (proj2 (proj2 (proj2 (proj2
           (null_subcollection_is_empty
              [VDict [("course_info", sample_course_info);
                      ("students", VList [VDict [("userId", VStr "u1")]]);
                      ("teachers", VList []);
                      ("assignments", VList [])]]
              [] [] [] [] []
              [("course_info", VDict [("id", VStr "c2")]);
               ("teachers", VList []);
               ("assignments", VList [])])))))))))).
  reflexivity.
Defined.

(* ================================================================== *)
(** * Dependence on the host's time zone *)

(** ** What [to_dt] does with the zone *)

Lemma to_dt_dict_zone : forall l1 l2 d, to_dt l1 (VDict d) = to_dt l2 (VDict d).
Proof. reflexivity. Qed.

Lemma to_dt_zone : forall l1 l2 v,
  match v with VStr s => offsetless s = false | _ => True end ->
  to_dt l1 v = to_dt l2 v.
Proof.
  intros l1 l2 v H. destruct v; try reflexivity.
  unfold to_dt, offsetless in *.
  destruct (Datetime.fromisoformat (str_replace "Z" "+00:00" s)) as [[t [o|]]| |];
    [|discriminate| |]; cbn [bind try_except Datetime.astimezone_utc];
    reflexivity.
Qed.

Lemma to_dt_result : forall local v r,
  to_dt local v = Ok r -> r = VNone \/ exists t, r = VDatetime t.
Proof.
  intros local v r H. destruct v; try (injection H as <-; left; reflexivity).
  - destruct (to_dt_str_returns local s) as [E|[t E]]; rewrite E in H;
      injection H as <-; eauto.
  - unfold to_dt in H.
    repeat match type of H with
           | bind ?m _ = Ok _ => destruct m; cbn [bind] in H; try discriminate
           | (if ?c then _ else _) = Ok _ => destruct c
           end; injection H as <-; eauto.
Qed.

(** ** Values free of offset-less times *)

Lemma clean_list : forall l, clean (VList l) <-> Forall clean l.
Proof.
  intros l. unfold clean. cbn [has_offsetless].
  induction l as [|x l IH]; cbn [existsb].
  - split; auto.
  - rewrite orb_false_iff, IH. split.
    + intros [H1 H2]. constructor; assumption.
    + intros H. inversion H; subst. split; assumption.
Qed.

Lemma clean_dict_iff : forall d, clean (VDict d) <-> clean_dict d.
Proof.
  intros d. unfold clean, clean_dict. cbn [has_offsetless].
  induction d as [|x d IH]; cbn [existsb].
  - split; auto.
  - rewrite orb_false_iff, IH. split.
    + intros [H1 H2]. constructor; assumption.
    + intros H. inversion H; subst. split; assumption.
Qed.

Lemma clean_nan : clean nan.
Proof. reflexivity. Qed.

Lemma clean_dict_get : forall k (d : dict) v,
  clean_dict d -> dict_get k d = Some v -> clean v.
Proof.
  intros k d v Hd. induction Hd as [|[k' v'] d Hv Hd IH]; cbn; [discriminate|].
  destruct (String.eqb k k'); [|exact IH].
  intros E. injection E as <-. exact Hv.
Qed.

Lemma clean_dict_set : forall k v (d : dict),
  clean_dict d -> clean v -> clean_dict (dict_set k v d).
Proof.
  intros k v d Hd Hv. induction Hd as [|[k' v'] d Hv' Hd IH]; cbn.
  - constructor; [exact Hv|constructor].
  - destruct (String.eqb k k'); constructor; auto.
Qed.

Lemma clean_dict_del : forall k (d : dict),
  clean_dict d -> clean_dict (dict_del k d).
Proof.
  intros k d Hd. induction Hd as [|[k' v'] d Hv' Hd IH]; cbn.
  - constructor.
  - destruct (String.eqb k k'); [exact Hd|constructor; auto].
Qed.

Lemma clean_dict_app : forall d1 d2 : dict,
  clean_dict d1 -> clean_dict d2 -> clean_dict (d1 ++ d2).
Proof. intros. apply Forall_app. split; assumption. Qed.

Lemma clean_char : forall c, clean (VStr (String c "")).
Proof.
  intros c. unfold clean. cbn [has_offsetless]. unfold offsetless.
  cbn [str_replace]. destruct (Ascii.eqb "Z" c); reflexivity.
Qed.

(** ** Invariants of loops *)

Lemma foldM_invariant : forall (A S : Type) (I : S -> Prop)
  (f : S -> A -> outcome S) (xs : list A),
  (forall s x s', In x xs -> I s -> f s x = Ok s' -> I s') ->
  forall s s', I s -> foldM f xs s = Ok s' -> I s'.
Proof.
  intros A S I f xs. induction xs as [|x xs IH]; intros Hf s s' Hs H; cbn in H.
  - injection H as <-. exact Hs.
  - destruct (f s x) as [s1| |] eqn:E; try discriminate. cbn [bind] in H.
    apply (IH (fun s x s' Hin => Hf s x s' (or_intror Hin)) s1 s').
    + apply (Hf s x s1); [left; reflexivity|exact Hs|exact E].
    + exact H.
Qed.

Lemma mapM_invariant : forall (A B : Type) (P : A -> Prop) (Q : B -> Prop)
  (f : A -> outcome B) (xs : list A) (ys : list B),
  (forall x y, P x -> f x = Ok y -> Q y) ->
  Forall P xs -> mapM f xs = Ok ys -> Forall Q ys.
Proof.
  intros A B P Q f xs. induction xs as [|x xs IH]; intros ys Hf Hxs H; cbn in H.
  - injection H as <-. constructor.
  - inversion Hxs; subst.
    destruct (f x) as [y| |] eqn:E; try discriminate. cbn [bind] in H.
    destruct (mapM f xs) as [ys'| |] eqn:E'; try discriminate. cbn [bind] in H.
    injection H as <-. constructor; eauto.
Qed.

Lemma mapM_ext_Forall : forall (A B : Type) (P : A -> Prop)
  (f g : A -> outcome B) (xs : list A),
  (forall x, P x -> f x = g x) -> Forall P xs -> mapM f xs = mapM g xs.
Proof.
  intros A B P f g xs Hfg Hxs. induction Hxs as [|x xs Hx Hxs IH]; cbn.
  - reflexivity.
  - rewrite (Hfg x Hx), IH. reflexivity.
Qed.

(** ** Flattening keeps values clean *)

Lemma set_fresh_clean : forall k v (d d' : dict),
  clean_dict d -> clean v -> set_fresh k v d = Ok d' -> clean_dict d'.
Proof.
  intros k v d d' Hd Hv H. unfold set_fresh in H.
  destruct (dict_in k d); [discriminate|]. injection H as <-.
  apply clean_dict_app; [exact Hd|]. constructor; [exact Hv|constructor].
Qed.

Lemma update_fresh_clean : forall (sub d d' : dict),
  clean_dict d -> clean_dict sub -> update_fresh d sub = Ok d' -> clean_dict d'.
Proof.
  intros sub d d' Hd Hsub H. unfold update_fresh in H.
  revert H. apply foldM_invariant; [|exact Hd].
  intros s [k v] s' Hin Hs E. cbn [fst snd] in E.
  apply (set_fresh_clean k v s s' Hs); [|exact E].
  unfold clean_dict in Hsub. rewrite Forall_forall in Hsub.
  apply (Hsub (k, v) Hin).
Qed.

Lemma nested_to_record_clean : forall v prefix level d',
  clean v -> nested_to_record prefix level v = Ok d' -> clean_dict d'.
Proof.
  induction v as [| | | | |l IHl|d IHd|] using value_nested_ind;
    intros prefix level d' Hv H; try discriminate.
  cbn [nested_to_record] in H. apply clean_dict_iff in Hv.
  revert H.
  assert (Hnew : clean_dict d) by exact Hv.
  revert Hnew. generalize d at 1 3 as new_d.
  induction d as [|[k v] todo IHtodo]; intros new_d Hnew H.
  - injection H as <-. exact Hnew.
  - inversion IHd as [|? ? IHv IHrest]; subst.
    inversion Hv as [|? ? Hcv Hcrest]; subst. cbn [snd] in IHv, Hcv.
    destruct v;
      try (destruct (level =? 0)%nat;
           [apply (IHtodo IHrest Hcrest new_d Hnew H)|];
           match type of H with
           | bind ?m _ = Ok _ => destruct m as [nd| |] eqn:E; try discriminate
           end;
           cbn [bind] in H;
           apply (IHtodo IHrest Hcrest nd); [|exact H];
           apply (set_fresh_clean _ _ _ _ (clean_dict_del k _ Hnew) Hcv E)).
    match type of H with
    | bind ?m _ = Ok _ => destruct m as [sub| |] eqn:Esub; try discriminate
    end.
    cbn [bind] in H.
    match type of H with
    | bind ?m _ = Ok _ => destruct m as [nd| |] eqn:E; try discriminate
    end.
    cbn [bind] in H.
    apply (IHtodo IHrest Hcrest nd); [|exact H].
    apply (update_fresh_clean sub _ _ (clean_dict_del k _ Hnew)); [|exact E].
    apply (IHv _ _ _ Hcv Esub).
Qed.

Lemma flatten_record_clean : forall r r',
  clean r -> flatten_record r = Ok r' -> clean r'.
Proof.
  intros r r' Hr H. unfold flatten_record in H.
  destruct (is_dict r).
  - destruct (nested_to_record "" 0 r) as [d| |] eqn:E; try discriminate.
    injection H as <-. apply clean_dict_iff.
    apply (nested_to_record_clean r "" 0%nat d Hr E).
  - injection H as <-. exact Hr.
Qed.

Lemma normalise_json_clean : forall data key_string acc,
  clean data -> clean_dict acc -> clean_dict (normalise_json data key_string acc).
Proof.
  induction data as [| | | | |l IHl|d IHd|] using value_nested_ind;
    intros key_string acc Hdata Hacc;
    try (cbn [normalise_json]; apply clean_dict_set; assumption).
  cbn [normalise_json]. apply clean_dict_iff in Hdata.
  revert acc Hacc.
  induction d as [|[k v] todo IHtodo]; intros acc Hacc.
  - exact Hacc.
  - inversion IHd as [|? ? IHv IHrest]; subst.
    inversion Hdata as [|? ? Hcv Hcrest]; subst. cbn [snd] in IHv, Hcv.
    apply (IHtodo IHrest Hcrest). apply IHv; assumption.
Qed.

Lemma clean_dict_filter : forall (f : string * value -> bool) (d : dict),
  clean_dict d -> clean_dict (filter f d).
Proof.
  intros f d Hd. induction Hd as [|x d Hx Hd IH]; cbn.
  - constructor.
  - destruct (f x); [constructor; assumption|assumption].
Qed.

Lemma dict_merge_clean : forall (b a : dict),
  clean_dict a -> clean_dict b -> clean_dict (dict_merge a b).
Proof.
  unfold dict_merge. induction b as [|[k v] b IH]; intros a Ha Hb; cbn.
  - exact Ha.
  - inversion Hb; subst. apply IH; [|assumption].
    apply clean_dict_set; assumption.
Qed.

Lemma simple_json_normalize_clean : forall ds,
  clean ds -> clean (simple_json_normalize ds).
Proof.
  induction ds as [| | | | |l IHl|d IHd|] using value_nested_ind;
    intros Hds; try reflexivity.
  - cbn [simple_json_normalize]. apply clean_list. apply clean_list in Hds.
    induction l as [|x l IH]; cbn [map]; constructor;
      inversion IHl; inversion Hds; subst; auto.
  - cbn [simple_json_normalize]. apply clean_dict_iff. apply clean_dict_iff in Hds.
    unfold normalise_json_ordered. apply dict_merge_clean.
    + apply clean_dict_filter, Hds.
    + apply normalise_json_clean; [|constructor].
      apply clean_dict_iff. apply clean_dict_filter, Hds.
Qed.

(** ** Frames built from clean values are clean *)

Lemma as_dicts_clean : forall recs ds,
  Forall clean recs -> as_dicts recs = Some ds -> Forall clean_dict ds.
Proof.
  induction recs as [|r recs IH]; intros ds Hrecs H; cbn in H.
  - injection H as <-. constructor.
  - inversion Hrecs; subst. destruct r; try discriminate.
    destruct (as_dicts recs) as [ds'|]; [|discriminate].
    injection H as <-. constructor; [apply clean_dict_iff; assumption|auto].
Qed.

Lemma cell_clean : forall d c, clean_dict d -> clean (cell d c).
Proof.
  intros d c Hd. unfold cell. destruct (dict_get c d) eqn:E.
  - apply (clean_dict_get c d v Hd E).
  - apply clean_nan.
Qed.

Lemma DataFrame_of_records_clean : forall recs df,
  Forall clean recs -> DataFrame_of_records recs = Ok df -> clean_frame df.
Proof.
  intros recs df Hrecs H. unfold DataFrame_of_records in H.
  destruct (as_dicts recs) as [ds|] eqn:E; [|discriminate].
  injection H as <-. unfold clean_frame. cbn [rows].
  pose proof (as_dicts_clean recs ds Hrecs E) as Hds. clear E.
  generalize (union_keys ds) as cols. intros cols.
  induction Hds as [|d ds Hd Hds IH]; cbn [map]; [constructor|].
  constructor; [|exact IH].
  apply Forall_forall. intros x Hx. apply in_map_iff in Hx.
  destruct Hx as (c & <- & _). apply cell_clean, Hd.
Qed.

Lemma zip_with_clean : forall (f : list value -> value -> list value) rs vs,
  (forall r v, Forall clean r -> clean v -> Forall clean (f r v)) ->
  Forall (Forall clean) rs -> Forall clean vs ->
  Forall (Forall clean) (zip_with f rs vs).
Proof.
  intros f rs vs Hf Hrs. revert vs.
  induction Hrs as [|r rs Hr Hrs IH]; intros vs Hvs; cbn.
  - constructor.
  - destruct vs as [|v vs]; [constructor|].
    inversion Hvs; subst. constructor; auto.
Qed.

Lemma append_column_clean : forall df c vals,
  clean_frame df -> Forall clean vals -> clean_frame (append_column df c vals).
Proof.
  intros df c vals Hdf Hvals. unfold append_column, clean_frame in *.
  assert (Hgen : Forall (Forall clean)
                   (zip_with (fun r v => r ++ [v]) (rows df) vals)).
  { apply zip_with_clean; [|exact Hdf|exact Hvals].
    intros r v Hr Hv. apply Forall_app. split; [exact Hr|].
    constructor; [exact Hv|constructor]. }
  destruct (columns df); [destruct (rows df)|]; cbn [rows]; try exact Hgen.
  clear Hgen. induction Hvals; cbn [map]; constructor; auto.
Qed.

Lemma set_nth_clean : forall i v r,
  Forall clean r -> clean v -> Forall clean (set_nth i v r).
Proof.
  induction i as [|i IH]; intros v r Hr Hv; destruct r as [|x r]; cbn;
    try constructor; inversion Hr; subst; auto.
Qed.

Lemma setitem_clean : forall df c vals df',
  clean_frame df -> Forall clean vals -> setitem df c vals = Ok df' ->
  clean_frame df'.
Proof.
  intros df c vals df' Hdf Hvals H. unfold setitem in H.
  destruct (count_label c df) as [|[|n]].
  - injection H as <-. apply append_column_clean; assumption.
  - destruct (index_of c (columns df)) as [i|]; [|discriminate].
    injection H as <-. unfold clean_frame. cbn [rows].
    apply zip_with_clean; [|exact Hdf|exact Hvals].
    intros r v Hr Hv. apply set_nth_clean; assumption.
  - discriminate.
Qed.

Lemma getitem_clean : forall df c col,
  clean_frame df -> getitem df c = Ok col -> Forall clean col.
Proof.
  intros df c col Hdf H. unfold getitem in H.
  destruct (count_label c df) as [|[|n]]; try discriminate.
  destruct (index_of c (columns df)) as [i|]; [|discriminate].
  injection H as <-. unfold clean_frame in Hdf.
  induction Hdf as [|r rs Hr Hrs IH]; cbn [map]; [constructor|].
  constructor; [|exact IH].
  clear IH Hrs. revert i. induction Hr as [|x r Hx Hr IH]; intros [|i]; cbn;
    auto using clean_nan.
Qed.

Lemma rename_clean : forall mapping df, clean_frame df -> clean_frame (rename mapping df).
Proof. intros mapping df H. exact H. Qed.

(** ** Extraction keeps values clean *)

Lemma subscript_clean : forall o k v,
  clean o -> subscript o k = Ok v -> clean v.
Proof.
  intros o k v Ho H. destruct o; try discriminate. cbn in H.
  destruct (dict_get k d) eqn:E; [|discriminate]. injection H as <-.
  apply clean_dict_iff in Ho. apply (clean_dict_get k d _ Ho E).
Qed.

Lemma on_key_error_clean : forall errors extract m v,
  (forall w, m = Ok w -> clean w) ->
  on_key_error errors extract m = Ok v -> clean v.
Proof.
  intros errors extract m v Hm H. destruct m as [w|e|]; cbn in H.
  - apply Hm. exact H.
  - destruct e; try discriminate. destruct extract; [discriminate|].
    destruct errors; [discriminate|]. injection H as <-. apply clean_nan.
  - discriminate.
Qed.

Lemma walk_clean : forall spec js v,
  clean js -> walk js spec = Ok v -> clean v.
Proof.
  induction spec as [|f spec IH]; intros js v Hjs H; cbn in H.
  - injection H as <-. exact Hjs.
  - destruct js; try discriminate.
    cbn [subscript] in H. destruct (dict_get f d) as [r|] eqn:E; [|discriminate].
    cbn [bind] in H. apply (IH r v); [|exact H].
    apply clean_dict_iff in Hjs. apply (clean_dict_get f d r Hjs E).
Qed.

Lemma pull_field_clean : forall errors js spec v,
  clean js -> pull_field errors js spec = Ok v -> clean v.
Proof.
  intros errors js spec v Hjs. unfold pull_field. apply on_key_error_clean.
  intros w. apply walk_clean, Hjs.
Qed.

Lemma pull_field_str_clean : forall errors js spec extract v,
  clean js -> pull_field_str errors js spec extract = Ok v -> clean v.
Proof.
  intros errors js spec extract v Hjs. unfold pull_field_str.
  apply on_key_error_clean. intros w. apply subscript_clean, Hjs.
Qed.

Lemma pull_records_clean : forall errors js spec recs,
  clean js -> pull_records errors js spec = Ok recs -> Forall clean recs.
Proof.
  intros errors js spec recs Hjs H. unfold pull_records in H.
  destruct (pull_field_str errors js spec true) as [r| |] eqn:E; try discriminate.
  cbn [bind] in H. pose proof (pull_field_str_clean _ _ _ _ _ Hjs E) as Hr.
  destruct r; try (destruct (isnull _); [injection H as <-; constructor|discriminate]).
  injection H as <-. apply clean_list, Hr.
Qed.

Lemma objects_clean : forall data objs,
  clean data -> objects data = Ok objs -> Forall clean objs.
Proof.
  intros data objs Hd H. destruct data; try discriminate; injection H as <-.
  - apply Forall_forall. intros x Hx. apply in_map_iff in Hx.
    destruct Hx as (c & <- & _). apply clean_char.
  - apply clean_list, Hd.
  - constructor; [exact Hd|constructor].
Qed.

Lemma meta_append_clean : forall key v mv,
  clean_meta mv -> clean v -> clean_meta (meta_append key v mv).
Proof.
  intros key v mv Hmv Hv. induction Hmv as [|[k vs] mv Hvs Hmv IH]; cbn.
  - constructor; [|constructor]. cbn. constructor; [exact Hv|constructor].
  - destruct (String.eqb key k); constructor; auto.
    cbn in *. apply Forall_app. split; [exact Hvs|]. constructor; [exact Hv|constructor].
Qed.

Lemma recursive_extract_clean : forall errors meta path data seen level st seen' st',
  clean data -> clean_dict seen -> clean_extracted st ->
  recursive_extract errors meta path data seen level st = Ok (seen', st') ->
  clean_dict seen' /\ clean_extracted st'.
Proof.
  intros errors meta path. induction path as [|p path IH];
    intros data seen level st seen' st' Hdata Hseen Hst H.
  - cbn [recursive_extract] in H.
    destruct (objects data) as [objs| |]; try discriminate. cbn [bind] in H.
    destruct objs; [|discriminate]. injection H as <- <-. auto.
  - cbn [recursive_extract] in H.
    destruct (objects data) as [objs| |] eqn:Eo; try discriminate. cbn [bind] in H.
    pose proof (objects_clean data objs Hdata Eo) as Hobjs.
    rewrite Forall_forall in Hobjs.
    destruct path as [|q path].
    + revert H.
      apply (foldM_invariant _ _
               (fun s => clean_dict (fst s) /\ clean_extracted (snd s)));
        [|split; assumption].
      intros [s1 st1] obj [s2 st2] Hin [Hs1 [Hr1 Hm1]] E. cbn [fst snd] in *.
      destruct (pull_records errors obj p) as [recs| |] eqn:Er; try discriminate.
      cbn [bind] in E.
      destruct (mapM flatten_record recs) as [recs'| |] eqn:Ef; try discriminate.
      cbn [bind] in E.
      match type of E with
      | bind ?m _ = Ok _ => destruct m as [mv| |] eqn:Em; try discriminate
      end.
      cbn [bind] in E. injection E as <- <-.
      pose proof (pull_records_clean _ _ _ _ (Hobjs obj Hin) Er) as Hrecs.
      pose proof (mapM_invariant _ _ clean clean flatten_record recs recs'
                    flatten_record_clean Hrecs Ef) as Hrecs'.
      split; [exact Hs1|]. split; cbn [records meta_vals].
      * apply Forall_app. split; assumption.
      * revert Em. apply foldM_invariant; [|exact Hm1].
        intros mv0 val mv1 _ Hmv0 E.
        match type of E with
        | bind ?m _ = Ok _ => destruct m as [meta_val| |] eqn:Ev; try discriminate
        end.
        cbn [bind] in E. injection E as <-.
        apply meta_append_clean; [exact Hmv0|].
        destruct (_ <? _)%nat.
        -- apply (subscript_clean (VDict s1) (join val) meta_val); [|exact Ev].
           apply clean_dict_iff, Hs1.
        -- apply (pull_field_clean _ _ _ _ (Hobjs obj Hin) Ev).
    + revert H.
      apply (foldM_invariant _ _
               (fun s => clean_dict (fst s) /\ clean_extracted (snd s)));
        [|split; assumption].
      intros [s1 st1] obj [s2 st2] Hin [Hs1 Hst1] E. cbn [fst snd] in *.
      match type of E with
      | bind ?m _ = Ok _ => destruct m as [s1'| |] eqn:Es; try discriminate
      end.
      cbn [bind] in E.
      destruct (subscript obj p) as [sub| |] eqn:Esub; try discriminate.
      cbn [bind] in E.
      apply (IH sub s1' (S level) st1 s2 st2); auto.
      * apply (subscript_clean obj p sub (Hobjs obj Hin) Esub).
      * revert Es. apply foldM_invariant; [|exact Hs1].
        intros sa val sb _ Hsa E'.
        match type of E' with (if ?c then _ else _) = _ => destruct c end.
        -- destruct (pull_field_str _ _ _ _) as [v| |] eqn:Ev in E'; try discriminate.
           cbn [bind] in E'. injection E' as <-.
           apply clean_dict_set; [exact Hsa|].
           apply (pull_field_str_clean _ _ _ _ _ (Hobjs obj Hin) Ev).
        -- injection E' as <-. exact Hsa.
Qed.

Lemma repeat_each_clean : forall vals lens,
  Forall clean vals -> Forall clean (repeat_each vals lens).
Proof.
  intros vals lens Hvals. unfold repeat_each. revert lens.
  induction Hvals as [|v vals Hv Hvals IH]; intros [|n lens]; cbn;
    try constructor.
  apply Forall_app. split; [|apply IH].
  clear IH. induction n; cbn; constructor; auto.
Qed.

Lemma normalize_records_clean : forall data record_path meta errors df,
  clean data -> normalize_records data record_path meta errors = Ok df ->
  clean_frame df.
Proof.
  intros data record_path meta errors df Hdata H. unfold normalize_records in H.
  destruct (recursive_extract _ _ _ _ _ _ _) as [[seen st]| |] eqn:E;
    try discriminate.
  cbn [bind] in H.
  assert (Hinit : clean_extracted (mkExtracted [] [] []))
    by (split; constructor).
  destruct (recursive_extract_clean _ _ _ _ _ _ _ _ _ Hdata
              (Forall_nil _) Hinit E)
    as [_ [Hrecs Hmeta]].
  destruct (DataFrame_of_records (records st)) as [df0| |] eqn:E0;
    try discriminate.
  cbn [bind] in H. revert H.
  apply foldM_invariant; [|apply (DataFrame_of_records_clean _ _ Hrecs E0)].
  intros r [k vs] r' Hin Hr E1. cbn [fst snd] in E1.
  destruct (contains r k); [discriminate|]. injection E1 as <-.
  apply append_column_clean; [exact Hr|]. apply repeat_each_clean.
  unfold clean_meta in Hmeta. rewrite Forall_forall in Hmeta.
  apply (Hmeta (k, vs) Hin).
Qed.

Lemma json_normalize_clean : forall data record_path meta errors df,
  clean data -> json_normalize data record_path meta errors = Ok df ->
  clean_frame df.
Proof.
  intros data record_path meta errors df Hdata H.
  destruct data as [| | | | |[|x l]| |]; try discriminate.
  - injection H as <-. constructor.
  - apply (normalize_records_clean _ _ _ _ _ Hdata H).
  - apply (normalize_records_clean _ _ _ _ _ Hdata H).
Qed.

Lemma json_normalize_simple_clean : forall data df,
  clean data -> json_normalize_simple data = Ok df -> clean_frame df.
Proof.
  intros data df Hdata H.
  destruct data as [| | | | |l| |]; try discriminate; cbn [json_normalize_simple] in H;
    apply (DataFrame_of_records_clean _ _) in H; auto.
  - apply clean_list in Hdata. apply Forall_forall. intros x Hx.
    apply in_map_iff in Hx. destruct Hx as (y & <- & Hy).
    apply simple_json_normalize_clean. rewrite Forall_forall in Hdata. auto.
  - constructor; [|constructor]. apply simple_json_normalize_clean, Hdata.
Qed.

(** ** The statements that call [to_dt] *)

Lemma clean_to_dt_input : forall v,
  clean v -> match v with VStr s => offsetless s = false | _ => True end.
Proof. intros v H. destruct v; auto. Qed.

Lemma Series_map_zone : forall l1 l2 col,
  Forall clean col -> Series_map (to_dt l1) col = Series_map (to_dt l2) col.
Proof.
  intros l1 l2 col H. unfold Series_map.
  apply (mapM_ext_Forall _ _ clean); [|exact H].
  intros x Hx. apply to_dt_zone, clean_to_dt_input, Hx.
Qed.

Lemma to_dt_clean : forall local v r, to_dt local v = Ok r -> clean r.
Proof.
  intros local v r H. destruct (to_dt_result local v r H) as [->|[t ->]];
    reflexivity.
Qed.

Lemma Series_map_clean : forall local col col',
  Series_map (to_dt local) col = Ok col' -> Forall clean col'.
Proof.
  intros local col col' H. unfold Series_map in H.
  apply (mapM_invariant _ _ (fun _ => True) clean (to_dt local) col col');
    [| |exact H].
  - intros x y _. apply to_dt_clean.
  - apply Forall_forall. auto.
Qed.

Lemma map_to_dt_zone : forall l1 l2 df c,
  clean_frame df -> map_to_dt l1 df c = map_to_dt l2 df c.
Proof.
  intros l1 l2 df c Hdf. unfold map_to_dt.
  destruct (getitem df c) as [col| |] eqn:E; try reflexivity. cbn [bind].
  rewrite (Series_map_zone l1 l2 col (getitem_clean df c col Hdf E)).
  reflexivity.
Qed.

Lemma map_to_dt_clean : forall local df c df',
  clean_frame df -> map_to_dt local df c = Ok df' -> clean_frame df'.
Proof.
  intros local df c df' Hdf H. unfold map_to_dt in H.
  destruct (getitem df c) as [col| |]; try discriminate. cbn [bind] in H.
  destruct (Series_map (to_dt local) col) as [col'| |] eqn:E; try discriminate.
  cbn [bind] in H.
  apply (setitem_clean df c col' df' Hdf (Series_map_clean local col col' E) H).
Qed.

Lemma bind_zone : forall (A B : Type) (m1 m2 : outcome A) (k1 k2 : A -> outcome B)
  (P : A -> Prop),
  m1 = m2 -> (forall a, m1 = Ok a -> P a) -> (forall a, P a -> k1 a = k2 a) ->
  bind m1 k1 = bind m2 k2.
Proof.
  intros A B m1 m2 k1 k2 P <- HP Hk. destruct m1; cbn; auto.
Qed.

Lemma courses_df_zone : forall l1 l2 raw,
  clean raw -> courses_df l1 raw = courses_df l2 raw.
Proof.
  intros l1 l2 raw Hraw. unfold courses_df.
  destruct (json_normalize_simple raw) as [df| |] eqn:E; try reflexivity.
  cbn [bind].
  pose proof (json_normalize_simple_clean raw df Hraw E) as Hdf.
  destruct (getitem df "course_info") as [col| |] eqn:Ec; try reflexivity.
  cbn [bind].
  pose proof (getitem_clean df _ col Hdf Ec) as Hcol.
  destruct (json_normalize_simple (VList col)) as [df2| |] eqn:E2; try reflexivity.
  cbn [bind].
  pose proof (json_normalize_simple_clean _ df2 (proj2 (clean_list col) Hcol) E2)
    as Hdf2.
  apply (bind_zone _ _ _ _ _ _ clean_frame).
  - apply map_to_dt_zone, rename_clean, Hdf2.
  - intros a. apply map_to_dt_clean, rename_clean, Hdf2.
  - intros a Ha. apply map_to_dt_zone, Ha.
Qed.

Lemma due_of_row_zone : forall l1 l2 r, due_of_row l1 r = due_of_row l2 r.
Proof. reflexivity. Qed.

Lemma mapM_ext : forall (A B : Type) (f g : A -> outcome B) (xs : list A),
  (forall x, f x = g x) -> mapM f xs = mapM g xs.
Proof.
  intros A B f g xs H. induction xs as [|x xs IH]; cbn; [reflexivity|].
  rewrite H, IH. reflexivity.
Qed.

Lemma apply_rows_due_zone : forall l1 l2 df,
  apply_rows (due_of_row l1) df = apply_rows (due_of_row l2) df.
Proof.
  intros l1 l2 df. unfold apply_rows.
  rewrite (due_of_row_zone l1 l2).
  rewrite (mapM_ext _ _ (fun r => due_of_row l1 (combine (columns df) r))
             (fun r => due_of_row l2 (combine (columns df) r)));
    [reflexivity|].
  intros x. apply due_of_row_zone.
Qed.

Lemma apply_rows_due_clean : forall local df due,
  apply_rows (due_of_row local) df = Ok due -> Forall clean due.
Proof.
  intros local df due H. unfold apply_rows in H.
  destruct (rows df).
  - destruct (due_of_row local _); try discriminate. injection H as <-. constructor.
  - apply (mapM_invariant _ _ (fun _ => True) clean _ _ _) in H; auto.
    + intros x y _. apply to_dt_clean.
    + apply Forall_forall. auto.
Qed.

Lemma assignments_df_dated_zone : forall l1 l2 raw,
  clean raw -> assignments_df_dated l1 raw = assignments_df_dated l2 raw.
Proof.
  intros l1 l2 raw Hraw. unfold assignments_df_dated.
  destruct (assignments_df raw) as [df| |] eqn:E; try reflexivity. cbn [bind].
  assert (Hdf : clean_frame df).
  { unfold assignments_df in E.
    destruct (json_normalize raw _ _ _) as [df0| |] eqn:E0; try discriminate.
    injection E as <-. apply rename_clean.
    apply (json_normalize_clean _ _ _ _ _ Hraw E0). }
  rewrite (apply_rows_due_zone l1 l2).
  destruct (apply_rows (due_of_row l2) df) as [due| |] eqn:Ed; try reflexivity.
  cbn [bind].
  destruct (setitem df "dueDateTime" due) as [df1| |] eqn:E1; try reflexivity.
  cbn [bind].
  pose proof (setitem_clean _ _ _ _ Hdf (apply_rows_due_clean _ _ _ Ed) E1) as Hdf1.
  apply (bind_zone _ _ _ _ _ _ clean_frame).
  - apply map_to_dt_zone, Hdf1.
  - intros a. apply map_to_dt_clean, Hdf1.
  - intros a Ha. apply map_to_dt_zone, Ha.
Qed.

Lemma parse_timestamps_zone : forall l1 l2 df,
  clean_frame df -> parse_timestamps l1 df = parse_timestamps l2 df.
Proof.
  intros l1 l2 df Hdf. unfold parse_timestamps. cbn [foldM].
  apply (bind_zone _ _ _ _ _ _ clean_frame).
  - case_if; [apply map_to_dt_zone, Hdf|reflexivity].
  - intros a. case_if; [apply map_to_dt_clean, Hdf|].
    intros E. injection E as <-. exact Hdf.
  - intros a Ha. f_equal. case_if; [apply map_to_dt_zone, Ha|reflexivity].
Qed.

Lemma submissions_df_final_zone : forall l1 l2 raw,
  clean raw -> submissions_df_final l1 raw = submissions_df_final l2 raw.
Proof.
  intros l1 l2 raw Hraw. unfold submissions_df_final.
  destruct (submissions_df raw) as [df| |] eqn:E; try reflexivity. cbn [bind].
  assert (Hdf : clean_frame df).
  { unfold submissions_df in E.
    destruct (json_normalize raw _ _ _) as [df0| |] eqn:E0; try discriminate.
    injection E as <-. apply rename_clean.
    apply (json_normalize_clean _ _ _ _ _ Hraw E0). }
  rewrite (parse_timestamps_zone l1 l2 df Hdf). reflexivity.
Qed.

(** A timestamp string without UTC offset is read as local time of the host:
    the submission records that lines 88-153, taken on their own, build from
    one snapshot differ between a host on UTC and a host two hours east of
    it. *)
Lemma flatten_depends_on_zone :
  flatten zone_utc snapshot_offsetless <> flatten zone_plus_two snapshot_offsetless
  /\ emitted "creationTime" (submissions_df_final zone_utc snapshot_offsetless)
     = Ok [Some (VDatetime (mkDatetime 2025 8 30 19 27 44 0))]
  /\ emitted "creationTime" (submissions_df_final zone_plus_two snapshot_offsetless)
     = Ok [Some (VDatetime (mkDatetime 2025 8 30 17 27 44 0))].
Proof.
  split; [|split; vm_compute; reflexivity].
  intros H. apply (f_equal submissions) in H. vm_compute in H. discriminate.
Qed.

(** X29. Built block by block, each collection by the statements that build
    it, the five collections do not depend on the host's time zone when no
    string of the snapshot is a timestamp without UTC offset: any two hosts
    build the same records, converted timestamps included. *)
Theorem flatten_zone_independent : forall l1 l2 raw,
  has_offsetless raw = false ->
  flatten l1 raw = flatten l2 raw.
Proof.
  intros l1 l2 raw H. unfold flatten.
  rewrite (courses_df_zone l1 l2 raw H), (assignments_df_dated_zone l1 l2 raw H),
    (submissions_df_final_zone l1 l2 raw H).
  reflexivity.
Qed.

Lemma flatten_zone_independent_witness :
  flatten zone_utc snapshot_graded = flatten zone_plus_two snapshot_graded.
Proof.
  apply (flatten_zone_independent zone_utc zone_plus_two snapshot_graded).
  vm_compute. reflexivity.
Defined.

(* ================================================================== *)
(** * The course records are never built *)

Lemma flat_dict_set : forall k v (d : dict),
  flat_dict d -> is_dict v = false -> flat_dict (dict_set k v d).
Proof.
  intros k v d Hd Hv. induction Hd as [|[k' v'] d Hv' Hd IH]; cbn.
  - constructor; [exact Hv|constructor].
  - destruct (String.eqb k k'); constructor; auto.
Qed.

Lemma normalise_json_flat : forall data key_string acc,
  flat_dict acc -> flat_dict (normalise_json data key_string acc).
Proof.
  induction data as [| | | | |l IHl|d IHd|] using value_nested_ind;
    intros key_string acc Hacc;
    try (cbn [normalise_json]; apply flat_dict_set; [assumption|reflexivity]).
  cbn [normalise_json]. revert acc Hacc.
  induction d as [|[k v] todo IHtodo]; intros acc Hacc.
  - exact Hacc.
  - inversion IHd as [|? ? IHv IHrest]; subst. cbn [snd] in IHv.
    apply (IHtodo IHrest). apply IHv. exact Hacc.
Qed.

Lemma normalise_json_ordered_flat : forall d, flat_dict (normalise_json_ordered d).
Proof.
  intros d. unfold normalise_json_ordered, dict_merge.
  assert (Htop : flat_dict (filter (fun kv => negb (is_dict (snd kv))) d)).
  { apply Forall_forall. intros x Hx. apply filter_In in Hx.
    destruct Hx as [_ Hx]. apply negb_true_iff in Hx. exact Hx. }
  assert (Hnested : flat_dict
            (normalise_json (VDict (filter (fun kv => is_dict (snd kv)) d)) "" []))
    by (apply normalise_json_flat; constructor).
  revert Htop. generalize (filter (fun kv => negb (is_dict (snd kv))) d) as top.
  induction Hnested as [|[k v] nested Hv Hnested IH]; intros top Htop; cbn.
  - exact Htop.
  - apply IH. apply flat_dict_set; assumption.
Qed.

Lemma as_dicts_simple_flat : forall l ds,
  as_dicts (map simple_json_normalize l) = Some ds -> Forall flat_dict ds.
Proof.
  induction l as [|x l IH]; intros ds H; cbn in H.
  - injection H as <-. constructor.
  - destruct (simple_json_normalize x) as [| | | | | |d|] eqn:E; try discriminate.
    destruct (as_dicts (map simple_json_normalize l)) as [ds'|]; [|discriminate].
    injection H as <-. constructor; [|apply IH; reflexivity].
    destruct x; cbn in E; try discriminate; injection E as <-;
      try (constructor; fail).
    apply normalise_json_ordered_flat.
Qed.

Lemma cell_flat : forall d c, flat_dict d -> is_dict (cell d c) = false.
Proof.
  intros d c Hd. unfold cell.
  induction Hd as [|[k v] d Hv Hd IH]; cbn; [reflexivity|].
  destruct (String.eqb c k); [exact Hv|exact IH].
Qed.

Lemma frame_of_flat_dicts : forall ds cols,
  Forall flat_dict ds ->
  flat_frame (mkDataFrame cols (map (fun d => map (cell d) cols) ds)).
Proof.
  intros ds cols Hds. unfold flat_frame. cbn [rows].
  induction Hds as [|d ds Hd Hds IH]; cbn [map]; [constructor|].
  constructor; [|exact IH].
  apply Forall_forall. intros x Hx. apply in_map_iff in Hx.
  destruct Hx as (c & <- & _). apply cell_flat, Hd.
Qed.

Lemma json_normalize_simple_flat : forall data df,
  json_normalize_simple data = Ok df -> flat_frame df.
Proof.
  intros data df H.
  assert (Hgen : forall l, DataFrame_of_records (map simple_json_normalize l) = Ok df ->
                           flat_frame df).
  { intros l Hl. unfold DataFrame_of_records in Hl.
    destruct (as_dicts (map simple_json_normalize l)) as [ds|] eqn:E; [|discriminate].
    injection Hl as <-. apply frame_of_flat_dicts.
    apply (as_dicts_simple_flat l ds E). }
  destruct data as [| | | | |l| |]; try discriminate; cbn [json_normalize_simple] in H.
  - apply (Hgen l H).
  - apply (Hgen [VDict d] H).
Qed.

Lemma getitem_flat : forall df c col,
  flat_frame df -> getitem df c = Ok col -> Forall (fun v => is_dict v = false) col.
Proof.
  intros df c col Hdf H. unfold getitem in H.
  destruct (count_label c df) as [|[|n]]; try discriminate.
  destruct (index_of c (columns df)) as [i|]; [|discriminate].
  injection H as <-. unfold flat_frame in Hdf.
  induction Hdf as [|r rs Hr Hrs IH]; cbn [map]; [constructor|].
  constructor; [|exact IH].
  clear IH Hrs. revert i. induction Hr as [|x r Hx Hr IH]; intros [|i]; cbn; auto.
Qed.

Lemma union_keys_empty : forall ds,
  Forall (fun d : dict => d = []) ds -> union_keys ds = [].
Proof.
  intros ds Hds. unfold union_keys. generalize (@nil string) as acc.
  induction Hds as [|d ds Hd Hds IH]; intros acc; cbn [fold_left].
  - reflexivity.
  - subst d. cbn [fold_left]. apply IH.
Qed.

Lemma as_dicts_scalars : forall col ds,
  Forall (fun v => is_dict v = false) col ->
  as_dicts (map simple_json_normalize col) = Some ds ->
  Forall (fun d : dict => d = []) ds.
Proof.
  intros col ds Hcol. revert ds.
  induction Hcol as [|x col Hx Hcol IH]; intros ds E; cbn [map as_dicts] in E.
  - injection E as <-. constructor.
  - destruct x; try discriminate; cbn [simple_json_normalize] in E;
      (destruct (as_dicts (map simple_json_normalize col)) as [ds'|];
       [|discriminate]);
      injection E as <-; (constructor; [reflexivity|apply IH; reflexivity]).
Qed.

(** Normalising a column without dicts yields a frame without columns. *)
Lemma json_normalize_simple_scalars : forall col df,
  Forall (fun v => is_dict v = false) col ->
  json_normalize_simple (VList col) = Ok df -> columns df = [].
Proof.
  intros col df Hcol H. cbn [json_normalize_simple] in H.
  unfold DataFrame_of_records in H.
  destruct (as_dicts (map simple_json_normalize col)) as [ds|] eqn:E; [|discriminate].
  injection H as <-. cbn [columns].
  apply union_keys_empty. apply (as_dicts_scalars col ds Hcol E).
Qed.

Lemma getitem_without_columns : forall df c,
  columns df = [] -> getitem df c = Raise KeyError.
Proof. intros df c H. unfold getitem, count_label. rewrite H. reflexivity. Qed.

(** Line 48 asks for a column that line 47 has flattened away, and when a
    column [course_info] does exist it holds no dict, so that line 50 finds no
    column [creationTime]: on no snapshot do lines 47-51 yield a frame. *)
Theorem courses_df_never_built : forall local courses_raw df,
  courses_df local courses_raw <> Ok df.
Proof.
  intros local raw df H. unfold courses_df in H.
  destruct (json_normalize_simple raw) as [df1| |] eqn:E1; try discriminate.
  cbn [bind] in H.
  destruct (getitem df1 "course_info") as [col| |] eqn:Ec; try discriminate.
  cbn [bind] in H.
  destruct (json_normalize_simple (VList col)) as [df2| |] eqn:E2; try discriminate.
  cbn [bind] in H.
  pose proof (json_normalize_simple_scalars col df2
                (getitem_flat df1 _ col (json_normalize_simple_flat raw df1 E1) Ec)
                E2) as Hcols.
  unfold map_to_dt at 1 in H.
  rewrite getitem_without_columns in H; [discriminate|].
  unfold rename. cbn [columns]. rewrite Hcols. reflexivity.
Qed.

(** X7. Lines 47-51 never yield a course frame, so that the script, run
    statement by statement, never reaches its end, whatever the snapshot and
    the host. *)
Corollary run_never_completes : forall local courses_raw r,
  run local courses_raw <> Ok r.
Proof.
  intros local raw r H. unfold run in H.
  destruct (courses_df local raw) as [c| |] eqn:E; try discriminate.
  exact (courses_df_never_built local raw c E).
Qed.

(* ================================================================== *)
(** * Two runs on one snapshot *)



(* ================================================================== *)
(** * The foreign keys of student, teacher and assignment records *)

Lemma mapM_length : forall (A B : Type) (f : A -> outcome B) xs ys,
  mapM f xs = Ok ys -> List.length ys = List.length xs.
Proof.
  intros A B f xs. induction xs as [|x xs IH]; intros ys H; cbn in H.
  - injection H as <-. reflexivity.
  - destruct (f x); try discriminate. cbn [bind] in H.
    destruct (mapM f xs) as [ys'| |]; try discriminate. cbn [bind] in H.
    injection H as <-. cbn. rewrite (IH ys' eq_refl). reflexivity.
Qed.

(** The extraction over the blocks, for a record path of one level and the
    meta path [course_info.id]: per block its id and its flattened records. *)
Lemma extract_one_level : forall errors p blocks seen st seen' st',
  recursive_extract errors [["course_info"; "id"]] [p] (VList blocks) seen 0 st
    = Ok (seen', st') ->
  exists parts : list (value * list value),
    Forall2 (fun blk part =>
               pull_field errors blk ["course_info"; "id"] = Ok (fst part)
               /\ exists recs, pull_records errors blk p = Ok recs
                               /\ List.length recs = List.length (snd part))
            blocks parts
    /\ records st' = records st ++ flat_map snd parts
    /\ lengths st' = lengths st ++ map (fun part => List.length (snd part)) parts
    /\ meta_vals st'
       = fold_left (fun mv part => meta_append "course_info.id" (fst part) mv)
           parts (meta_vals st).
Proof.
  intros errors p blocks seen st seen' st' H.
  cbn [recursive_extract objects bind] in H.
  revert seen st H. induction blocks as [|blk blocks IH]; intros seen st H.
  - cbn [foldM] in H. injection H as <- <-. exists [].
    split; [constructor|]. cbn. rewrite !app_nil_r. auto.
  - cbn [foldM] in H.
    destruct (pull_records errors blk p) as [recs| |] eqn:Er; try discriminate.
    cbn [bind] in H.
    destruct (mapM flatten_record recs) as [recs'| |] eqn:Ef; try discriminate.
    cbn [bind foldM join List.length Nat.ltb Nat.leb Nat.add skipn] in H.
    destruct (pull_field errors blk ["course_info"; "id"]) as [cid| |] eqn:Ec;
      try discriminate.
    cbn [bind] in H.
    destruct (IH _ _ H) as (parts & HF & Hr & Hl & Hm).
    cbn [records lengths meta_vals] in Hr, Hl, Hm.
    exists ((cid, recs') :: parts). split; [|split; [|split]].
    + constructor; [|exact HF]. cbn [fst snd]. split; [exact Ec|].
      exists recs. split; [exact Er|]. symmetry. apply (mapM_length _ _ _ _ _ Ef).
    + rewrite Hr. cbn [flat_map snd]. rewrite app_assoc. reflexivity.
    + rewrite Hl. cbn [map snd]. rewrite <- app_assoc. reflexivity.
    + rewrite Hm. reflexivity.
Qed.

Lemma meta_append_fold : forall key (parts : list (value * list value)) vs,
  fold_left (fun mv part => meta_append key (fst part) mv) parts [(key, vs)]
  = [(key, vs ++ map fst parts)].
Proof.
  intros key parts. induction parts as [|part parts IH]; intros vs; cbn.
  - rewrite app_nil_r. reflexivity.
  - rewrite String.eqb_refl. rewrite IH, <- app_assoc. reflexivity.
Qed.

Lemma repeat_each_parts : forall (parts : list (value * list value)),
  repeat_each (map fst parts) (map (fun part => List.length (snd part)) parts)
  = flat_map (fun part => repeat (fst part) (List.length (snd part))) parts.
Proof.
  induction parts as [|part parts IH]; [reflexivity|].
  unfold repeat_each in *. cbn. rewrite IH. reflexivity.
Qed.

Lemma DataFrame_of_records_shape : forall recs df,
  DataFrame_of_records recs = Ok df ->
  rectangular df /\ List.length (rows df) = List.length recs.
Proof.
  intros recs df H. unfold DataFrame_of_records in H.
  destruct (as_dicts recs) as [ds|] eqn:E; [|discriminate].
  injection H as <-. unfold rectangular. cbn [rows columns]. split.
  - apply Forall_forall. intros r Hr. apply in_map_iff in Hr.
    destruct Hr as (d & <- & _). apply length_map.
  - rewrite length_map. revert ds E.
    induction recs as [|r recs IH]; intros ds E; cbn in E.
    + injection E as <-. reflexivity.
    + destruct r; try discriminate.
      destruct (as_dicts recs) as [ds'|]; [|discriminate].
      injection E as <-. cbn. rewrite (IH ds' eq_refl). reflexivity.
Qed.

Lemma append_column_shape : forall df c vals,
  List.length (rows df) = List.length vals ->
  columns (append_column df c vals) = columns df ++ [c]
  /\ rows (append_column df c vals) = zip_with (fun r v => r ++ [v]) (rows df) vals.
Proof.
  intros df c vals Hlen. unfold append_column.
  destruct (columns df) as [|c0 cs]; [destruct (rows df) as [|r rs]|];
    cbn [columns rows]; auto.
  destruct vals; [auto|discriminate].
Qed.

Lemma dict_of_pairs_app : forall ps qs acc,
  fold_left (fun d p => dict_set (fst p) (snd p) d) (ps ++ qs) acc
  = fold_left (fun d p => dict_set (fst p) (snd p) d) qs
      (fold_left (fun d p => dict_set (fst p) (snd p) d) ps acc).
Proof. intros. apply fold_left_app. Qed.

Lemma combine_snoc : forall (A B : Type) (xs : list A) (ys : list B) x y,
  List.length xs = List.length ys ->
  combine (xs ++ [x]) (ys ++ [y]) = combine xs ys ++ [(x, y)].
Proof.
  intros A B xs. induction xs as [|a xs IH]; intros [|b ys] x y H; cbn in *;
    try discriminate; [reflexivity|].
  rewrite IH by (injection H; auto). reflexivity.
Qed.

(** In [dict(zip(columns, row))] the last column decides the value of its
    label. *)
Lemma to_dict_last_column : forall (cols : list string) (r : list value) c v,
  List.length cols = List.length r ->
  dict_get c (dict_of_pairs (combine (cols ++ [c]) (r ++ [v]))) = Some v.
Proof.
  intros cols r c v H. rewrite combine_snoc by exact H.
  unfold dict_of_pairs. rewrite dict_of_pairs_app. cbn [fold_left fst snd].
  apply dict_get_set_same.
Qed.

Lemma field_last_column : forall cols c rows0 vals,
  Forall (fun r => List.length r = List.length cols) rows0 ->
  List.length rows0 = List.length vals ->
  field c (df_to_docs (mkDataFrame (cols ++ [c])
                         (zip_with (fun r v => r ++ [v]) rows0 vals)))
  = map (fun v => Some (none_for_nan v)) vals.
Proof.
  intros cols c rows0 vals Hrect Hlen. unfold df_to_docs, empty.
  cbn [columns rows].
  destruct (cols ++ [c]) as [|c0 cs] eqn:Ecols;
    [destruct cols; discriminate|]. rewrite <- Ecols. clear c0 cs Ecols.
  assert (Hgen : field c (to_dict_records
                    (replace_nan (mkDataFrame (cols ++ [c])
                       (zip_with (fun r v => r ++ [v]) rows0 vals))))
                 = map (fun v => Some (none_for_nan v)) vals).
  { unfold field, to_dict_records, replace_nan. cbn [columns rows].
    revert vals Hlen. induction Hrect as [|r rows0 Hr Hrect IH];
      intros [|v vals] Hlen; cbn in Hlen; try discriminate; [reflexivity|].
    cbn [zip_with map]. f_equal.
    - rewrite map_app. cbn [map]. apply to_dict_last_column.
      rewrite length_map. symmetry. exact Hr.
    - apply IH. injection Hlen. auto. }
  destruct (zip_with (fun r v => r ++ [v]) rows0 vals) eqn:Ez.
  - destruct rows0; destruct vals; cbn in *; try discriminate. reflexivity.
  - exact Hgen.
Qed.

Lemma meta_vals_of_parts : forall (parts : list (value * list value)),
  parts <> [] ->
  fold_left (fun mv part => meta_append "course_info.id" (fst part) mv) parts []
  = [("course_info.id", map fst parts)].
Proof.
  intros [|part parts] H; [contradiction|]. cbn [fold_left meta_append].
  rewrite meta_append_fold. reflexivity.
Qed.

Lemma length_vals_of_parts : forall (parts : list (value * list value)),
  List.length (flat_map (fun part => repeat (fst part) (List.length (snd part))) parts)
  = List.length (flat_map snd parts).
Proof.
  induction parts as [|part parts IH]; [reflexivity|].
  cbn [flat_map]. rewrite !length_app, repeat_length, IH. reflexivity.
Qed.

Lemma expected_of_parts : forall (parts : list (value * list value)),
  map (fun v => Some (none_for_nan v))
    (flat_map (fun part => repeat (fst part) (List.length (snd part))) parts)
  = expected_courseIds (map (fun part => (fst part, List.length (snd part))) parts).
Proof.
  induction parts as [|part parts IH]; [reflexivity|].
  unfold expected_courseIds in *. cbn [flat_map map fst snd].
  rewrite map_app, IH. f_equal.
  induction (List.length (snd part)) as [|n IHn]; [reflexivity|].
  cbn. rewrite IHn. reflexivity.
Qed.

(** A frame of one sub-collection: every record carries its block's course
    id, once per entry of the block, in the order of the input. *)
Lemma one_level_courseIds : forall p mapping blocks df,
  List.find (fun kv => String.eqb "course_info.id" (fst kv)) mapping
    = Some ("course_info.id", "courseId") ->
  (df0 <- json_normalize (VList blocks) [p] [["course_info"; "id"]] errors_raise ;;
   Ok (rename mapping df0)) = Ok df ->
  exists parts, Forall2 (block_part p) blocks parts
                /\ field "courseId" (df_to_docs df) = expected_courseIds parts.
Proof.
  intros p mapping blocks df Hmap H.
  destruct blocks as [|b bs].
  { cbn in H. injection H as <-. exists []. split; [constructor|reflexivity]. }
  change (json_normalize (VList (b :: bs)) [p] [["course_info"; "id"]] errors_raise)
    with (normalize_records (VList (b :: bs)) [p] [["course_info"; "id"]]
            errors_raise) in H.
  unfold normalize_records in H.
  destruct (recursive_extract _ _ _ _ _ _ _) as [[seen st]| |] eqn:E;
    try discriminate.
  cbn [bind] in H.
  destruct (extract_one_level _ _ _ _ _ _ _ E) as (parts & HF & Hr & Hl & Hm).
  cbn [records lengths meta_vals app] in Hr, Hl, Hm.
  assert (Hne : parts <> []) by (inversion HF; discriminate).
  rewrite (meta_vals_of_parts parts Hne) in Hm.
  destruct (DataFrame_of_records (records st)) as [df0| |] eqn:E0;
    try discriminate.
  cbn [bind] in H. rewrite Hm in H. cbn [foldM fst snd bind] in H.
  destruct (contains df0 "course_info.id"); [discriminate|]. cbn [bind] in H.
  injection H as <-.
  destruct (DataFrame_of_records_shape _ _ E0) as [Hrect Hlen].
  rewrite Hl, repeat_each_parts.
  destruct (append_column_shape df0 "course_info.id"
              (flat_map (fun part => repeat (fst part) (List.length (snd part)))
                 parts)) as [Hc Hrows].
  { rewrite Hlen, Hr. symmetry. apply length_vals_of_parts. }
  exists (map (fun part => (fst part, List.length (snd part))) parts). split.
  - clear - HF. induction HF as [|blk part blocks parts [H1 [recs [H2 H3]]] HF IH];
      cbn [map]; constructor; [|exact IH].
    split; [exact H1|]. exists recs. split; [exact H2|exact H3].
  - rewrite <- expected_of_parts.
    match goal with |- field _ (df_to_docs ?d) = _ =>
      replace d with
        (mkDataFrame
           (map (fun c => match List.find (fun kv => String.eqb c (fst kv)) mapping with
                          | Some kv => snd kv
                          | None => c
                          end) (columns df0) ++ ["courseId"])
           (zip_with (fun r v => r ++ [v]) (rows df0)
              (flat_map (fun part => repeat (fst part) (List.length (snd part)))
                 parts)))
    end.
    + apply field_last_column.
      * unfold rectangular in Hrect. rewrite length_map. exact Hrect.
      * rewrite Hlen, Hr. symmetry. apply length_vals_of_parts.
    + unfold rename. rewrite Hc, Hrows, map_app. cbn [map]. rewrite Hmap.
      reflexivity.
Qed.

(** X8. Whatever the snapshot, every student, teacher and assignment record
    carries the id of its parent block's [course_info] as [courseId], one
    record per entry of the block, in input order. *)
Theorem roster_courseIds : forall blocks,
  (forall df, students_df (VList blocks) = Ok df ->
     exists parts, Forall2 (block_part "students") blocks parts
                   /\ field "courseId" (df_to_docs df) = expected_courseIds parts)
  /\ (forall df, teachers_df (VList blocks) = Ok df ->
     exists parts, Forall2 (block_part "teachers") blocks parts
                   /\ field "courseId" (df_to_docs df) = expected_courseIds parts)
  /\ (forall df, assignments_df (VList blocks) = Ok df ->
     exists parts, Forall2 (block_part "assignments") blocks parts
                   /\ field "courseId" (df_to_docs df) = expected_courseIds parts).
Proof.
  intros blocks. repeat split; intros df H.
  - apply (one_level_courseIds "students" [("course_info.id", "courseId")]);
      [reflexivity|exact H].
  - apply (one_level_courseIds "teachers" [("course_info.id", "courseId")]);
      [reflexivity|exact H].
  - apply (one_level_courseIds "assignments"
             [("course_info.id", "courseId"); ("id", "assignmentId")]);
      [reflexivity|exact H].
Qed.

(* ================================================================== *)
(** * The foreign keys of submission records *)

Lemma df_to_docs_with_columns : forall df,
  columns df <> [] -> df_to_docs df = to_dict_records (replace_nan df).
Proof.
  intros df H. unfold df_to_docs, empty.
  destruct (columns df) as [|c cs]; [contradiction|].
  destruct (rows df) eqn:E; [|reflexivity].
  unfold to_dict_records, replace_nan. cbn [rows]. rewrite E. reflexivity.
Qed.

Lemma zip_snoc_shape : forall cols (c : string) rows0 (vals : list value),
  Forall (fun r => List.length r = List.length cols) rows0 ->
  List.length rows0 = List.length vals ->
  Forall (fun r => List.length r = List.length (cols ++ [c]))
    (zip_with (fun r v => r ++ [v]) rows0 vals)
  /\ List.length (zip_with (fun r v => r ++ [v]) rows0 vals) = List.length vals.
Proof.
  intros cols c rows0 vals Hrect. revert vals.
  induction Hrect as [|r rows0 Hr Hrect IH]; intros [|v vals] Hlen;
    cbn in Hlen; try discriminate; cbn [zip_with].
  - split; [constructor|reflexivity].
  - destruct (IH vals) as [H1 H2]; [injection Hlen; auto|].
    split; [|cbn; rewrite H2; reflexivity].
    constructor; [|exact H1]. rewrite !length_app, Hr. reflexivity.
Qed.

Lemma field_snoc_same : forall cols c rows0 vals,
  Forall (fun r => List.length r = List.length cols) rows0 ->
  List.length rows0 = List.length vals ->
  field c (to_dict_records (replace_nan
             (mkDataFrame (cols ++ [c]) (zip_with (fun r v => r ++ [v]) rows0 vals))))
  = map (fun v => Some (none_for_nan v)) vals.
Proof.
  intros cols c rows0 vals Hrect.
  unfold field, to_dict_records, replace_nan. cbn [columns rows].
  revert vals. induction Hrect as [|r rows0 Hr Hrect IH];
    intros [|v vals] Hlen; cbn in Hlen; try discriminate; [reflexivity|].
  cbn [zip_with map]. f_equal.
  - rewrite map_app. cbn [map]. apply to_dict_last_column.
    rewrite length_map. symmetry. exact Hr.
  - apply IH. injection Hlen. auto.
Qed.

Lemma field_snoc_other : forall cols c c' rows0 vals,
  String.eqb c c' = false ->
  Forall (fun r => List.length r = List.length cols) rows0 ->
  List.length rows0 = List.length vals ->
  field c (to_dict_records (replace_nan
             (mkDataFrame (cols ++ [c']) (zip_with (fun r v => r ++ [v]) rows0 vals))))
  = field c (to_dict_records (replace_nan (mkDataFrame cols rows0))).
Proof.
  intros cols c c' rows0 vals Hcc Hrect.
  unfold field, to_dict_records, replace_nan. cbn [columns rows].
  revert vals. induction Hrect as [|r rows0 Hr Hrect IH];
    intros [|v vals] Hlen; cbn in Hlen; try discriminate; [reflexivity|].
  cbn [zip_with map]. f_equal.
  - rewrite map_app. cbn [map]. rewrite combine_snoc
      by (rewrite length_map; symmetry; exact Hr).
    unfold dict_of_pairs. rewrite dict_of_pairs_app. cbn [fold_left fst snd].
    apply dict_get_set_other. exact Hcc.
  - apply IH. injection Hlen. auto.
Qed.

Lemma meta_step_triple : forall l1 l2 l3 aid title,
  meta_step [("course_info.id", l1); ("assignments.id", l2);
             ("assignments.title", l3)] aid title
  = [("course_info.id", l1 ++ [aid]); ("assignments.id", l2 ++ [aid]);
     ("assignments.title", l3 ++ [title])].
Proof. reflexivity. Qed.

Lemma meta_step_fold : forall (parts : list (value * value * list value)) l1 l2 l3,
  fold_left (fun mv part => meta_step mv (fst (fst part)) (snd (fst part))) parts
    [("course_info.id", l1); ("assignments.id", l2); ("assignments.title", l3)]
  = [("course_info.id", l1 ++ map (fun part => fst (fst part)) parts);
     ("assignments.id", l2 ++ map (fun part => fst (fst part)) parts);
     ("assignments.title", l3 ++ map (fun part => snd (fst part)) parts)].
Proof.
  induction parts as [|part parts IH]; intros l1 l2 l3; cbn [fold_left map].
  - rewrite !app_nil_r. reflexivity.
  - rewrite meta_step_triple, IH, <- !app_assoc. reflexivity.
Qed.

Lemma meta_step_fold_nil : forall (parts : list (value * value * list value)),
  parts <> [] ->
  fold_left (fun mv part => meta_step mv (fst (fst part)) (snd (fst part))) parts []
  = [("course_info.id", map (fun part => fst (fst part)) parts);
     ("assignments.id", map (fun part => fst (fst part)) parts);
     ("assignments.title", map (fun part => snd (fst part)) parts)].
Proof.
  intros [|part parts] H; [contradiction|]. cbn [fold_left].
  change (meta_step [] (fst (fst part)) (snd (fst part)))
    with [("course_info.id", [fst (fst part)]); ("assignments.id", [fst (fst part)]);
          ("assignments.title", [snd (fst part)])].
  rewrite meta_step_fold. reflexivity.
Qed.

(** The extraction over the assignments of one block: per assignment its id,
    its title and its flattened submissions; the id is recorded under both
    [course_info.id] and [assignments.id]. *)
Lemma extract_assignments : forall items seen st seen' st',
  foldM
    (fun '(seen, st) obj =>
       recs <- pull_records errors_ignore obj "submissions" ;;
       recs <- mapM flatten_record recs ;;
       mv <- foldM
               (fun mv val =>
                  let key := join val in
                  meta_val <-
                    (if (List.length val <? 1 + 1)%nat
                     then subscript (VDict seen) key
                     else pull_field errors_ignore obj (skipn 1 val)) ;;
                  Ok (meta_append key meta_val mv))
               submission_meta (meta_vals st) ;;
       Ok (seen,
           mkExtracted (records st ++ recs)
                       (lengths st ++ [List.length recs]) mv))
    items (seen, st) = Ok (seen', st') ->
  exists parts : list (value * value * list value),
    Forall2 (fun a part =>
               pull_field errors_ignore a ["id"] = Ok (fst (fst part))
               /\ exists recs, pull_records errors_ignore a "submissions" = Ok recs
                               /\ List.length recs = List.length (snd part))
            items parts
    /\ seen' = seen
    /\ records st' = records st ++ flat_map snd parts
    /\ lengths st' = lengths st ++ map (fun part => List.length (snd part)) parts
    /\ meta_vals st'
       = fold_left (fun mv part => meta_step mv (fst (fst part)) (snd (fst part)))
           parts (meta_vals st).
Proof.
  induction items as [|a items IH]; intros seen st seen' st' H.
  - cbn [foldM] in H. injection H as <- <-. exists [].
    split; [constructor|]. cbn. rewrite !app_nil_r. auto.
  - cbn [foldM] in H.
    destruct (pull_records errors_ignore a "submissions") as [recs| |] eqn:Er;
      try discriminate.
    cbn [bind] in H.
    destruct (mapM flatten_record recs) as [recs'| |] eqn:Ef; try discriminate.
    unfold submission_meta in H at 1.
    cbn [bind foldM join List.length Nat.ltb Nat.leb Nat.add skipn] in H.
    destruct (pull_field errors_ignore a ["id"]) as [aid| |] eqn:Ea;
      try discriminate.
    cbn [bind] in H.
    destruct (pull_field errors_ignore a ["title"]) as [title| |] eqn:Et;
      try discriminate.
    cbn [bind] in H.
    destruct (IH _ _ _ _ H) as (parts & HF & Hs & Hr & Hl & Hm).
    cbn [records lengths meta_vals] in Hr, Hl, Hm.
    exists ((aid, title, recs') :: parts). split; [|split; [|split; [|split]]].
    + constructor; [|exact HF]. cbn [fst snd]. split; [exact Ea|].
      exists recs. split; [exact Er|]. symmetry. apply (mapM_length _ _ _ _ _ Ef).
    + exact Hs.
    + rewrite Hr. cbn [flat_map snd]. rewrite app_assoc. reflexivity.
    + rewrite Hl. cbn [map snd]. rewrite <- app_assoc. reflexivity.
    + rewrite Hm. reflexivity.
Qed.

(** The extraction of the submissions over the blocks. *)
Lemma extract_submissions : forall blocks seen st seen' st',
  recursive_extract errors_ignore submission_meta ["assignments"; "submissions"]
    (VList blocks) seen 0 st = Ok (seen', st') ->
  exists (per_block : list (list value))
         (parts : list (value * value * list value)),
    Forall2 block_assignments blocks per_block
    /\ Forall2 (fun a part =>
                  pull_field errors_ignore a ["id"] = Ok (fst (fst part))
                  /\ exists recs, pull_records errors_ignore a "submissions" = Ok recs
                                  /\ List.length recs = List.length (snd part))
               (List.concat per_block) parts
    /\ records st' = records st ++ flat_map snd parts
    /\ lengths st' = lengths st ++ map (fun part => List.length (snd part)) parts
    /\ meta_vals st'
       = fold_left (fun mv part => meta_step mv (fst (fst part)) (snd (fst part)))
           parts (meta_vals st).
Proof.
  intros blocks seen st seen' st' H.
  cbn [recursive_extract objects bind] in H.
  revert seen st H. induction blocks as [|blk blocks IH]; intros seen st H.
  - cbn [foldM] in H. injection H as <- <-. exists [], [].
    split; [constructor|]. split; [constructor|]. cbn. rewrite !app_nil_r. auto.
  - cbn [foldM] in H.
    unfold submission_meta in H at 1.
    cbn [foldM bind List.length Nat.eqb Nat.add] in H.
    destruct (subscript blk "assignments") as [sub| |] eqn:Esub; try discriminate.
    cbn [bind] in H.
    destruct (objects sub) as [objs| |] eqn:Eobjs; try discriminate.
    cbn [bind] in H.
    match type of H with
    | bind ?m _ = Ok _ => destruct m as [[seen1 st1]| |] eqn:Eleaf; try discriminate
    end.
    cbn [bind] in H.
    destruct (extract_assignments objs seen st seen1 st1 Eleaf)
      as (parts1 & HF1 & Hs1 & Hr1 & Hl1 & Hm1).
    destruct (IH _ _ H) as (per_block & parts & HB & HF & Hr & Hl & Hm).
    exists (objs :: per_block), (parts1 ++ parts).
    split; [|split; [|split; [|split]]].
    + constructor; [|exact HB]. exists sub. split; assumption.
    + cbn [List.concat]. apply Forall2_app; assumption.
    + rewrite Hr, Hr1, flat_map_app, app_assoc. reflexivity.
    + rewrite Hl, Hl1, map_app, app_assoc. reflexivity.
    + rewrite Hm, Hm1, fold_left_app. reflexivity.
Qed.

Lemma repeat_each_parts3 : forall (g : value * value * list value -> value)
  (parts : list (value * value * list value)),
  repeat_each (map g parts) (map (fun part => List.length (snd part)) parts)
  = flat_map (fun part => repeat (g part) (List.length (snd part))) parts.
Proof.
  intros g. induction parts as [|part parts IH]; [reflexivity|].
  unfold repeat_each in *. cbn. rewrite IH. reflexivity.
Qed.

Lemma expected_of_parts3 : forall (parts : list (value * value * list value)),
  map (fun v => Some (none_for_nan v))
    (flat_map (fun part => repeat (fst (fst part)) (List.length (snd part))) parts)
  = expected_courseIds
      (map (fun part => (fst (fst part), List.length (snd part))) parts).
Proof.
  induction parts as [|part parts IH]; [reflexivity|].
  unfold expected_courseIds in *. cbn [flat_map map fst snd].
  rewrite map_app, IH. f_equal.
  induction (List.length (snd part)) as [|n IHn]; [reflexivity|].
  cbn. rewrite IHn. reflexivity.
Qed.

(** X12. Whatever the snapshot, in every submission record both
    [assignmentId] and [courseId] hold the id of the parent assignment, one
    record per submission in input order; the id of the parent course is not
    consulted. *)
Theorem submission_courseId_is_assignment_id : forall blocks df,
  submissions_df (VList blocks) = Ok df ->
  exists (per_block : list (list value)) (parts : list (value * nat)),
    Forall2 block_assignments blocks per_block
    /\ Forall2 assignment_part (List.concat per_block) parts
    /\ field "assignmentId" (df_to_docs df) = expected_courseIds parts
    /\ field "courseId" (df_to_docs df) = expected_courseIds parts.
Proof.
  intros blocks df H. unfold submissions_df in H.
  destruct blocks as [|b bs].
  { cbn in H. injection H as <-. exists [], [].
    repeat split; constructor. }
  change (json_normalize (VList (b :: bs)) ["assignments"; "submissions"]
            [["course_info"; "id"]; ["assignments"; "id"]; ["assignments"; "title"]]
            errors_ignore)
    with (normalize_records (VList (b :: bs)) ["assignments"; "submissions"]
            submission_meta errors_ignore) in H.
  unfold normalize_records in H.
  destruct (recursive_extract _ _ _ _ _ _ _) as [[seen st]| |] eqn:E;
    try discriminate.
  cbn [bind] in H.
  destruct (extract_submissions _ _ _ _ _ E)
    as (per_block & parts & HB & HF & Hr & Hl & Hm).
  cbn [records lengths meta_vals app] in Hr, Hl, Hm.
  exists per_block, (map (fun part => (fst (fst part), List.length (snd part))) parts).
  split; [exact HB|]. split.
  { clear - HF. induction HF as [|a part items parts [H1 [recs [H2 H3]]] HF IH];
      cbn [map]; constructor; [|exact IH].
    split; [exact H1|]. exists recs. split; [exact H2|exact H3]. }
  destruct (DataFrame_of_records (records st)) as [df0| |] eqn:E0;
    try discriminate.
  cbn [bind] in H.
  destruct (DataFrame_of_records_shape _ _ E0) as [Hrect Hlen].
  destruct parts as [|part0 parts0] eqn:Eparts.
  { (* no assignment at all: a frame without columns *)
    cbn [fold_left] in Hm. rewrite Hm in H. cbn [foldM] in H.
    injection H as <-. cbn [flat_map app] in Hr. rewrite Hr in E0.
    cbn in E0. injection E0 as <-. split; reflexivity. }
  rewrite <- Eparts in *. assert (Hne : parts <> []) by (rewrite Eparts; discriminate).
  clear Eparts part0 parts0.
  rewrite (meta_step_fold_nil parts Hne) in Hm. rewrite Hm, Hl in H.
  cbn [foldM fst snd bind] in H.
  rewrite !repeat_each_parts3 in H.
  set (ids := flat_map (fun part => repeat (fst (fst part)) (List.length (snd part)))
                parts) in *.
  set (titles := flat_map (fun part => repeat (snd (fst part))
                                         (List.length (snd part))) parts) in *.
  assert (Hids : List.length ids = List.length (rows df0)).
  { subst ids. rewrite Hlen, Hr. clear.
    induction parts as [|part parts IH]; [reflexivity|].
    cbn [flat_map]. rewrite !length_app, repeat_length, IH. reflexivity. }
  assert (Htitles : List.length titles = List.length (rows df0)).
  { subst titles. rewrite Hlen, Hr. clear.
    induction parts as [|part parts IH]; [reflexivity|].
    cbn [flat_map]. rewrite !length_app, repeat_length, IH. reflexivity. }
  destruct (contains df0 "course_info.id"); [discriminate|]. cbn [bind] in H.
  destruct (append_column_shape df0 "course_info.id" ids (eq_sym Hids)) as [Hc1 Hr1].
  destruct (zip_snoc_shape (columns df0) "course_info.id" (rows df0) ids Hrect
              (eq_sym Hids)) as [Hrect1 Hlen1].
  set (df1 := append_column df0 "course_info.id" ids) in *.
  destruct (contains df1 "assignments.id"); [discriminate|]. cbn [bind] in H.
  assert (Hlen1' : List.length (rows df1) = List.length ids)
    by (rewrite Hr1; exact Hlen1).
  destruct (append_column_shape df1 "assignments.id" ids Hlen1') as [Hc2 Hr2].
  assert (Hrect1' : Forall (fun r => List.length r = List.length (columns df1))
                      (rows df1)) by (rewrite Hr1, Hc1; exact Hrect1).
  destruct (zip_snoc_shape (columns df1) "assignments.id" (rows df1) ids Hrect1'
              Hlen1') as [Hrect2 Hlen2].
  set (df2 := append_column df1 "assignments.id" ids) in *.
  destruct (contains df2 "assignments.title"); [discriminate|]. cbn [bind] in H.
  assert (Hlen2' : List.length (rows df2) = List.length titles)
    by (rewrite Hr2, Hlen2, Htitles; exact Hids).
  destruct (append_column_shape df2 "assignments.title" titles Hlen2') as [Hc3 Hr3].
  assert (Hrect2' : Forall (fun r => List.length r = List.length (columns df2))
                      (rows df2)) by (rewrite Hr2, Hc2; exact Hrect2).
  injection H as <-.
  set (new := fun c : string =>
         match List.find (fun kv => String.eqb c (fst kv))
                 [("course_info.id", "courseId"); ("assignments.id", "assignmentId");
                  ("assignments.title", "assignmentTitle"); ("id", "submissionId")]
         with Some kv => snd kv | None => c end).
  set (cols := map new (columns df0)).
  assert (Hfinal :
    rename [("course_info.id", "courseId"); ("assignments.id", "assignmentId");
            ("assignments.title", "assignmentTitle"); ("id", "submissionId")]
      (append_column df2 "assignments.title" titles)
    = mkDataFrame (((cols ++ ["courseId"]) ++ ["assignmentId"]) ++ ["assignmentTitle"])
        (zip_with (fun r v => r ++ [v])
           (zip_with (fun r v => r ++ [v])
              (zip_with (fun r v => r ++ [v]) (rows df0) ids) ids) titles)).
  { unfold rename. fold new. rewrite Hc3, Hr3, Hc2, Hr2, Hc1, Hr1.
    rewrite !map_app. reflexivity. }
  rewrite Hfinal.
  rewrite df_to_docs_with_columns
    by (cbn [columns]; intros Hnil; apply app_eq_nil in Hnil;
        destruct Hnil; discriminate).
  rewrite <- expected_of_parts3. fold ids.
  assert (Hrc : Forall (fun r => List.length r = List.length cols) (rows df0))
    by (subst cols; rewrite length_map; exact Hrect).
  destruct (zip_snoc_shape cols "courseId" (rows df0) ids Hrc (eq_sym Hids))
    as [Hz1 Hz1l].
  destruct (zip_snoc_shape (cols ++ ["courseId"]) "assignmentId" _ ids Hz1 Hz1l)
    as [Hz2 Hz2l].
  split.
  - rewrite field_snoc_other; [|reflexivity|exact Hz2|
      rewrite Hz2l, Htitles; exact Hids].
    apply field_snoc_same; assumption.
  - rewrite field_snoc_other; [|reflexivity|exact Hz2|
      rewrite Hz2l, Htitles; exact Hids].
    rewrite field_snoc_other; [|reflexivity|exact Hz1|exact Hz1l].
    apply field_snoc_same; [exact Hrc|symmetry; exact Hids].
Qed.

(* ================================================================== *)
(** * The due dates of assignments *)

Lemma Row_get_absent : forall cols (r : list value) c default,
  existsb (String.eqb c) cols = false ->
  Row_get (combine cols r) c default = default.
Proof.
  intros cols r c default H. unfold Row_get.
  replace (dict_get c (combine cols r)) with (@None value); [reflexivity|].
  symmetry. revert r. induction cols as [|c' cols IH]; intros r; [reflexivity|].
  cbn [existsb] in H. apply orb_false_iff in H. destruct H as [H1 H2].
  destruct r as [|v r]; [reflexivity|]. cbn [combine dict_get]. rewrite H1.
  apply IH, H2.
Qed.

(** With the due date of every assignment flattened into the columns
    [dueDate.year], [dueDate.month] and [dueDate.day], the frame has no column
    [dueDate]; line 82 then passes [{"dueDate": None, "dueTime": ...}] to
    [to_dt] for the first row and the statement raises AttributeError. *)
Theorem assignments_due_raises : forall local courses_raw df,
  assignments_df courses_raw = Ok df ->
  contains df "dueDate" = false ->
  rows df <> [] ->
  assignments_df_dated local courses_raw = Raise AttributeError.
Proof.
  intros local raw df H Hcol Hrows. unfold assignments_df_dated.
  rewrite H. cbn [bind]. unfold apply_rows.
  destruct (rows df) as [|r rs]; [contradiction|].
  cbn [mapM]. rewrite due_of_row_raises; [reflexivity|].
  rewrite Row_get_absent; [reflexivity|exact Hcol].
Qed.

Lemma assignments_due_raises_witness : forall local,
  assignments_df_dated local sample_snapshot = Raise AttributeError.
Proof.
  intros local.
  apply (assignments_due_raises local sample_snapshot
           (mkDataFrame
              ["assignmentId"; "title"; "creationTime"; "updateTime";
               "submissions"; "courseId"]
              [[VStr "a1"; VStr "Essay"; VStr "2025-08-30T19:27:44.005Z";
                VStr "2025-08-30T19:27:44.005Z";
                VList [sample_submission "s1" "u1"; sample_submission "s2" "u2";
                       sample_submission "s3" "u3"];
                VStr "c1"]])).
  - vm_compute. reflexivity.
  - reflexivity.
  - discriminate.
Qed.

(* ================================================================== *)
(** * What [to_dt] accepts *)

(** X1. [to_dt] raises on dicts only: whatever else it is given (None, a
    string that parses or not, a number, a list, a datetime), it returns a UTC
    instant or absent. *)
Theorem to_dt_raises_only_on_dicts : forall local v,
  is_dict v = false ->
  to_dt local v = Ok VNone \/ exists t, to_dt local v = Ok (VDatetime t).
Proof.
  intros local v H. destruct v; try (left; reflexivity).
  - apply to_dt_str_returns.
  - discriminate.
Qed.

Lemma to_dt_raises_only_on_dicts_witness :
  to_dt zone_plus_two (VStr "2025-08-30T19:27:44")
    = Ok VNone
  \/ exists t, to_dt zone_plus_two (VStr "2025-08-30T19:27:44") = Ok (VDatetime t).
Proof.
  apply (to_dt_raises_only_on_dicts zone_plus_two (VStr "2025-08-30T19:27:44")).
  reflexivity.
Defined.

(** X2. [to_dt] does not accept its own results: applied to a value it has
    returned, instant or absent, it returns absent. *)
Theorem to_dt_twice_absent : forall local v r,
  to_dt local v = Ok r -> to_dt local r = Ok VNone.
Proof.
  intros local v r H. destruct (to_dt_result local v r H) as [->|[t ->]]; reflexivity.
Qed.

Lemma to_dt_twice_absent_witness :
  to_dt zone_utc (VDatetime (mkDatetime 2025 8 30 19 27 44 5000)) = Ok VNone.
Proof.
  apply (to_dt_twice_absent zone_utc (VStr "2025-08-30T19:27:44.005Z")).
  vm_compute. reflexivity.
Defined.

Lemma fits_c_int_range : forall n lo hi,
  -2147483648 <= lo -> hi <= 2147483647 -> lo <= n <= hi ->
  Datetime.fits_c_int n = true.
Proof.
  intros n lo hi Hlo Hhi Hn. unfold Datetime.fits_c_int.
  apply andb_true_iff; split; apply Z.leb_le; lia.
Qed.

Lemma days_in_month_le_31 : forall y m, Datetime.days_in_month y m <= 31.
Proof.
  intros y m. unfold Datetime.days_in_month.
  destruct ((m =? 2) && Datetime.is_leap y); [lia|].
  unfold Datetime.DAYS_IN_MONTH.
  destruct m as [|p|p]; try lia.
  do 4 (destruct p as [p|p|]; try lia).
Qed.

Lemma leb_range : forall lo n hi, lo <= n <= hi -> (lo <=? n) && (n <=? hi) = true.
Proof. intros. apply andb_true_iff; split; apply Z.leb_le; lia. Qed.

(** X3. The structured form in general: a [dueDate] dict with integer year,
    month and day that form a calendar date, and a [dueTime] dict (or none)
    whose hours and minutes, 0 where missing, are in range, yields that date
    and time with seconds and microseconds 0. *)
Theorem to_dt_structured : forall local (s d t : dict) (y m dd hh mm : Z),
  dict_get "dueDate" s = Some (VDict d) ->
  match dict_get "dueTime" s with Some v => v | None => VDict [] end = VDict t ->
  dict_get "year" d = Some (VInt y) ->
  dict_get "month" d = Some (VInt m) ->
  dict_get "day" d = Some (VInt dd) ->
  match dict_get "hours" t with Some v => v | None => VInt 0 end = VInt hh ->
  match dict_get "minutes" t with Some v => v | None => VInt 0 end = VInt mm ->
  1 <= y <= 9999 -> 1 <= m <= 12 -> 1 <= dd <= Datetime.days_in_month y m ->
  0 <= hh <= 23 -> 0 <= mm <= 59 ->
  to_dt local (VDict s) = Ok (VDatetime (mkDatetime y m dd hh mm 0 0)).
Proof.
  intros local s d t y m dd hh mm Hd Ht Hy Hm Hdd Hhh Hmm Ry Rm Rd Rh Rmi.
  pose proof (days_in_month_le_31 y m) as Hdim.
  unfold to_dt, meth_get. rewrite Hd, Ht. cbn [bind meth_keys].
  unfold subset. cbn [forallb].
  rewrite (dict_get_in_keys _ _ _ Hy), (dict_get_in_keys _ _ _ Hm),
    (dict_get_in_keys _ _ _ Hdd).
  cbn [andb bind]. rewrite Hhh, Hmm. cbn [bind int].
  unfold subscript. rewrite Hy, Hm, Hdd. cbn [bind int].
  unfold Datetime.new. cbn [forallb].
  rewrite (fits_c_int_range y 1 9999), (fits_c_int_range m 1 12),
    (fits_c_int_range dd 1 31), (fits_c_int_range hh 0 23),
    (fits_c_int_range mm 0 59) by lia.
  cbn [andb]. unfold Datetime.check_fields, Datetime.MINYEAR, Datetime.MAXYEAR.
  rewrite (leb_range 1 y 9999), (leb_range 1 m 12),
    (leb_range 1 dd (Datetime.days_in_month y m)), (leb_range 0 hh 23),
    (leb_range 0 mm 59) by lia.
  reflexivity.
Qed.

Lemma to_dt_structured_witness :
  to_dt zone_plus_two
    (VDict [("dueDate", VDict [("year", VInt 2024); ("month", VInt 2); ("day", VInt 29)]);
            ("dueTime", VDict [("hours", VInt 23)])])
  = Ok (VDatetime (mkDatetime 2024 2 29 23 0 0 0)).
Proof.
  apply (to_dt_structured zone_plus_two
           [("dueDate", VDict [("year", VInt 2024); ("month", VInt 2); ("day", VInt 29)]);
            ("dueTime", VDict [("hours", VInt 23)])]
           [("year", VInt 2024); ("month", VInt 2); ("day", VInt 29)]
           [("hours", VInt 23)] 2024 2 29 23 0);
    try reflexivity; vm_compute; split; discriminate.
Defined.

(** X4. A structured date whose integer year, month and day are no calendar
    date (year outside 1..9999, month outside 1..12, or a day the month does
    not have) is not answered with absent, whatever integer hours and minutes
    come with it: the constructor's exception leaves [to_dt], whose [try]
    covers the string form only.  The exception is ValueError when the five
    numbers fit a C int and OverflowError when one of them does not. *)
Theorem to_dt_invalid_date_raises : forall local (s d t : dict)
  (y m dd hh mm : Z),
  dict_get "dueDate" s = Some (VDict d) ->
  match dict_get "dueTime" s with Some v => v | None => VDict [] end = VDict t ->
  dict_get "year" d = Some (VInt y) ->
  dict_get "month" d = Some (VInt m) ->
  dict_get "day" d = Some (VInt dd) ->
  match dict_get "hours" t with Some v => v | None => VInt 0 end = VInt hh ->
  match dict_get "minutes" t with Some v => v | None => VInt 0 end = VInt mm ->
  ~ (1 <= y <= 9999 /\ 1 <= m <= 12 /\ 1 <= dd <= Datetime.days_in_month y m) ->
  to_dt local (VDict s)
  = Raise (if forallb Datetime.fits_c_int [y; m; dd; hh; mm]
           then ValueError else OverflowError).
Proof.
  intros local s d t y m dd hh mm Hd Ht Hy Hm Hdd Hhh Hmm Hbad.
  remember (forallb Datetime.fits_c_int [y; m; dd; hh; mm]) as fits eqn:Efits.
  unfold to_dt, meth_get. rewrite Hd, Ht. cbn [bind meth_keys].
  unfold subset. cbn [forallb].
  rewrite (dict_get_in_keys _ _ _ Hy), (dict_get_in_keys _ _ _ Hm),
    (dict_get_in_keys _ _ _ Hdd).
  cbn [andb bind]. rewrite Hhh, Hmm. cbn [bind int].
  unfold subscript. rewrite Hy, Hm, Hdd. cbn [bind int].
  unfold Datetime.new. rewrite <- Efits.
  destruct fits; cbn [bind]; [|reflexivity].
  unfold Datetime.check_fields, Datetime.MINYEAR, Datetime.MAXYEAR.
  destruct ((1 <=? y) && (y <=? 9999)) eqn:Ey; [|reflexivity].
  destruct ((1 <=? m) && (m <=? 12)) eqn:Em; [|reflexivity].
  destruct ((1 <=? dd) && (dd <=? Datetime.days_in_month y m)) eqn:Ed; [|reflexivity].
  exfalso. apply Hbad.
  apply andb_true_iff in Ey, Em, Ed.
  destruct Ey as [Ey1 Ey2], Em as [Em1 Em2], Ed as [Ed1 Ed2].
  apply Z.leb_le in Ey1, Ey2, Em1, Em2, Ed1, Ed2. lia.
Qed.

Lemma to_dt_invalid_date_raises_witness :
  to_dt zone_utc
    (VDict [("dueDate", VDict [("year", VInt 2025); ("month", VInt 2); ("day", VInt 30)]);
            ("dueTime", VDict [("hours", VInt 14)])])
  = Raise ValueError
  /\ to_dt zone_utc
       (VDict [("dueDate", VDict [("year", VInt 2147483648); ("month", VInt 2);
                                  ("day", VInt 1)])])
     = Raise OverflowError.
Proof.
  split.
  - apply (to_dt_invalid_date_raises zone_utc
             [("dueDate", VDict [("year", VInt 2025); ("month", VInt 2); ("day", VInt 30)]);
              ("dueTime", VDict [("hours", VInt 14)])]
             [("year", VInt 2025); ("month", VInt 2); ("day", VInt 30)]
             [("hours", VInt 14)] 2025 2 30 14 0);
      try reflexivity.
    vm_compute. intros [_ [_ [_ H]]]. apply H. reflexivity.
  - apply (to_dt_invalid_date_raises zone_utc
             [("dueDate", VDict [("year", VInt 2147483648); ("month", VInt 2);
                                 ("day", VInt 1)])]
             [("year", VInt 2147483648); ("month", VInt 2); ("day", VInt 1)]
             [] 2147483648 2 1 0 0);
      try reflexivity.
    intros [[_ H] _]. lia.
Defined.

(* ================================================================== *)
(** * The records [df_to_docs] emits *)

Lemma dict_set_values : forall k v (d : dict) k' v',
  dict_get k' (dict_set k v d) = Some v' -> v' = v \/ dict_get k' d = Some v'.
Proof.
  intros k v d k' v'. induction d as [|[k0 v0] d IH]; cbn.
  - destruct (String.eqb k' k); [intros H; injection H; auto|discriminate].
  - destruct (String.eqb k k0) eqn:E; cbn.
    + destruct (String.eqb k' k) eqn:E1.
      * intros H. injection H. auto.
      * apply String.eqb_eq in E. subst k0. rewrite E1. auto.
    + destruct (String.eqb k' k0); [auto|exact IH].
Qed.

Lemma dict_of_pairs_values : forall ps acc k v,
  dict_get k (fold_left (fun d p => dict_set (fst p) (snd p) d) ps acc) = Some v ->
  In v (map snd ps) \/ dict_get k acc = Some v.
Proof.
  induction ps as [|[k0 v0] ps IH]; intros acc k v H; cbn in *; [auto|].
  destruct (IH _ _ _ H) as [Hin|Hacc]; [auto|].
  destruct (dict_set_values _ _ _ _ _ Hacc) as [->|H']; auto.
Qed.

Lemma in_combine_snd : forall (A B : Type) (xs : list A) (ys : list B) y,
  In y (map snd (combine xs ys)) -> In y ys.
Proof.
  intros A B xs ys y H. apply in_map_iff in H. destruct H as ([a b] & <- & Hin).
  apply in_combine_r in Hin. exact Hin.
Qed.

(** X5. No field of a record that [df_to_docs] emits is NaN: every NaN cell
    has become None.  (Values inside a list cell are not looked at.) *)
Theorem df_to_docs_no_nan : forall df doc k,
  In doc (df_to_docs df) -> dict_get k doc <> Some nan.
Proof.
  intros df doc k Hin Hk. unfold df_to_docs in Hin.
  destruct (empty df); [contradiction|].
  unfold to_dict_records, replace_nan in Hin. cbn [columns rows] in Hin.
  apply in_map_iff in Hin. destruct Hin as (r' & <- & Hr').
  apply in_map_iff in Hr'. destruct Hr' as (r & <- & _).
  unfold dict_of_pairs in Hk.
  destruct (dict_of_pairs_values _ _ _ _ Hk) as [Hv|Hv]; [|discriminate].
  apply in_combine_snd in Hv. apply in_map_iff in Hv.
  destruct Hv as (o & Ho & _). destruct o as [| | |[| |]| | | |]; discriminate.
Qed.

Lemma df_to_docs_no_nan_witness :
  dict_get "draftGrade" [("userId", VStr "u1"); ("draftGrade", VNone)] <> Some nan.
Proof.
  apply (df_to_docs_no_nan
           (mkDataFrame ["userId"; "draftGrade"]
              [[VStr "u1"; nan]; [VStr "u2"; VInt 7]])).
  left. reflexivity.
Defined.

Lemma dict_set_fresh : forall k v (d : dict),
  dict_get k d = None -> dict_set k v d = d ++ [(k, v)].
Proof.
  intros k v d. induction d as [|[k0 v0] d IH]; cbn; [reflexivity|].
  destruct (String.eqb k k0); [discriminate|]. intros H. rewrite IH by exact H.
  reflexivity.
Qed.

Lemma dict_get_app_none : forall k (d1 d2 : dict),
  dict_get k d1 = None -> dict_get k (d1 ++ d2) = dict_get k d2.
Proof.
  intros k d1 d2. induction d1 as [|[k0 v0] d1 IH]; cbn; [reflexivity|].
  destruct (String.eqb k k0); [discriminate|exact IH].
Qed.

Lemma dict_of_pairs_nodup : forall (ps acc : dict),
  NoDup (map fst ps) ->
  (forall k, In k (map fst ps) -> dict_get k acc = None) ->
  fold_left (fun d p => dict_set (fst p) (snd p) d) ps acc = acc ++ ps.
Proof.
  induction ps as [|[k v] ps IH]; intros acc Hnd Hacc; cbn.
  - rewrite app_nil_r. reflexivity.
  - inversion Hnd as [|? ? Hk Hnd']; subst.
    rewrite dict_set_fresh by (apply Hacc; left; reflexivity).
    rewrite IH; [rewrite <- app_assoc; reflexivity|exact Hnd'|].
    intros k' Hk'. rewrite dict_get_app_none by (apply Hacc; right; exact Hk').
    cbn. destruct (String.eqb k' k) eqn:E; [|reflexivity].
    apply String.eqb_eq in E. subst. contradiction.
Qed.

Lemma combine_fst_nodup : forall (A B : Type) (xs : list A) (ys : list B),
  NoDup xs -> NoDup (map fst (combine xs ys)).
Proof.
  intros A B xs. induction xs as [|x xs IH]; intros ys H; [constructor|].
  destruct ys as [|y ys]; [constructor|]. cbn. inversion H; subst.
  constructor; [|apply IH; assumption].
  intros Hin. apply in_map_iff in Hin. destruct Hin as ([a b] & Ha & Hin).
  cbn in Ha. subst a. apply in_combine_l in Hin. contradiction.
Qed.

(** X6. For a frame with at least one column and distinct labels,
    [df_to_docs] emits one record per row, in row order; the record binds the
    labels in column order to the cells of the row, NaN cells to None. *)
Theorem df_to_docs_records : forall df,
  columns df <> [] ->
  NoDup (columns df) ->
  df_to_docs df
  = map (fun r => combine (columns df) (map none_for_nan r)) (rows df).
Proof.
  intros df Hne Hnd. rewrite df_to_docs_with_columns by exact Hne.
  unfold to_dict_records, replace_nan. cbn [columns rows]. rewrite map_map.
  apply map_ext. intros r. unfold dict_of_pairs.
  rewrite dict_of_pairs_nodup; [reflexivity| |reflexivity].
  apply combine_fst_nodup, Hnd.
Qed.

Lemma df_to_docs_records_witness :
  df_to_docs (mkDataFrame ["userId"; "draftGrade"]
                [[VStr "u1"; nan]; [VStr "u2"; VInt 7]])
  = [[("userId", VStr "u1"); ("draftGrade", VNone)];
     [("userId", VStr "u2"); ("draftGrade", VInt 7)]].
Proof.
  apply (df_to_docs_records
           (mkDataFrame ["userId"; "draftGrade"]
              [[VStr "u1"; nan]; [VStr "u2"; VInt 7]])).
  - discriminate.
  - repeat constructor; cbn; intuition discriminate.
Defined.

(* ================================================================== *)
(** * The operations [upsert] hands over *)

Lemma dict_get_set : forall k k' v (d : dict),
  dict_get k (dict_set k' v d) = if String.eqb k k' then Some v else dict_get k d.
Proof.
  intros k k' v d. destruct (String.eqb k k') eqn:E.
  - apply String.eqb_eq in E. subst. apply dict_get_set_same.
  - apply dict_get_set_other, E.
Qed.

Lemma key_filter_loop : forall (d : dict) keys done acc,
  (forall k, In k keys -> dict_get k d <> None) ->
  (forall k, dict_get k acc
             = if existsb (String.eqb k) done then dict_get k d else None) ->
  exists filt,
    foldM (fun filt k => v <- subscript (VDict d) k ;; Ok (dict_set k v filt))
      keys acc = Ok filt
    /\ forall k, dict_get k filt
                 = if existsb (String.eqb k) (done ++ keys) then dict_get k d else None.
Proof.
  intros d keys. induction keys as [|k0 keys IH]; intros done acc Hkeys Hacc.
  - exists acc. split; [reflexivity|]. rewrite app_nil_r. exact Hacc.
  - cbn [foldM]. unfold subscript at 1.
    destruct (dict_get k0 d) as [v0|] eqn:E0;
      [|exfalso; apply (Hkeys k0); [left; reflexivity|exact E0]].
    cbn [bind].
    destruct (IH (done ++ [k0]) (dict_set k0 v0 acc)) as (filt & Hf & Hget).
    + intros k Hk. apply Hkeys. right. exact Hk.
    + intros k. rewrite dict_get_set, existsb_app. cbn [existsb].
      rewrite orb_false_r. rewrite Hacc.
      destruct (String.eqb k k0) eqn:E.
      * apply String.eqb_eq in E. subst k. rewrite orb_true_r. symmetry. exact E0.
      * rewrite orb_false_r. reflexivity.
    + exists filt. split; [exact Hf|]. intros k. rewrite Hget, <- app_assoc.
      reflexivity.
Qed.

Lemma key_filter_ok : forall (d : dict) keys,
  (forall k, In k keys -> dict_get k d <> None) ->
  exists filt,
    key_filter keys d = Ok filt
    /\ forall k, dict_get k filt
                 = if existsb (String.eqb k) keys then dict_get k d else None.
Proof.
  intros d keys H. apply (key_filter_loop d keys [] [] H). reflexivity.
Qed.

Lemma dict_of_pairs_keys : forall ps (acc : dict) k,
  In k (map fst ps) ->
  dict_get k (fold_left (fun d p => dict_set (fst p) (snd p) d) ps acc) <> None.
Proof.
  induction ps as [|[k0 v0] ps IH]; intros acc k Hin; cbn in *; [contradiction|].
  destruct (in_dec string_dec k (map fst ps)) as [Hps|Hps]; [apply IH, Hps|].
  destruct Hin as [->|Hin]; [|contradiction].
  intros Hnone.
  assert (Hgen : forall qs (a : dict),
            ~ In k (map fst qs) ->
            dict_get k (fold_left (fun d p => dict_set (fst p) (snd p) d) qs a)
            = dict_get k a).
  { induction qs as [|[k1 v1] qs IHq]; intros a Hq; cbn in *; [reflexivity|].
    rewrite IHq by tauto. apply dict_get_set_other.
    apply String.eqb_neq. intros ->. apply Hq. left. reflexivity. }
  rewrite Hgen in Hnone by exact Hps. rewrite dict_get_set_same in Hnone.
  discriminate.
Qed.

Lemma combine_fst_rect : forall (A B : Type) (xs : list A) (ys : list B),
  List.length ys = List.length xs -> map fst (combine xs ys) = xs.
Proof.
  intros A B xs. induction xs as [|x xs IH]; intros [|y ys] H; cbn in *;
    try discriminate; [reflexivity|].
  rewrite IH by (injection H; auto). reflexivity.
Qed.

Lemma contains_In : forall df c, contains df c = true <-> In c (columns df).
Proof.
  intros df c. unfold contains. rewrite existsb_exists. split.
  - intros (x & Hx & E). apply String.eqb_eq in E. subst. exact Hx.
  - intros H. exists c. split; [exact H|apply String.eqb_refl].
Qed.

Lemma upsert_loop : forall key_fields docs acc,
  Forall (fun d => forall k, In k key_fields -> dict_get k d <> None) docs ->
  exists ops,
    foldM (fun ops d =>
             filt <- key_filter key_fields d ;;
             Ok (ops ++ [mkUpdateOne filt d true])) docs acc = Ok (acc ++ ops)
    /\ map op_set ops = docs
    /\ Forall (fun op =>
                 op_upsert op = true
                 /\ forall k, dict_get k (op_filter op)
                              = if existsb (String.eqb k) key_fields
                                then dict_get k (op_set op) else None) ops.
Proof.
  intros keys docs. induction docs as [|d docs IH]; intros acc H.
  - exists []. rewrite app_nil_r. repeat split. constructor.
  - inversion H as [|? ? Hd Hrest]; subst.
    destruct (key_filter_ok d keys Hd) as (filt & Hf & Hget).
    destruct (IH (acc ++ [mkUpdateOne filt d true]) Hrest) as (ops & Ho & Hs & Hall).
    exists (mkUpdateOne filt d true :: ops). cbn [foldM]. rewrite Hf. cbn [bind].
    rewrite Ho, <- app_assoc. split; [reflexivity|]. split.
    + cbn [map op_set]. rewrite Hs. reflexivity.
    + constructor; [|exact Hall]. split; [reflexivity|exact Hget].
Qed.

Lemma df_to_docs_keys : forall df doc k,
  rectangular df -> In doc (df_to_docs df) -> In k (columns df) ->
  dict_get k doc <> None.
Proof.
  intros df doc k Hrect Hin Hk. unfold df_to_docs in Hin.
  destruct (empty df); [contradiction|].
  unfold to_dict_records, replace_nan in Hin. cbn [columns rows] in Hin.
  apply in_map_iff in Hin. destruct Hin as (r' & <- & Hr').
  apply in_map_iff in Hr'. destruct Hr' as (r & <- & Hr).
  unfold dict_of_pairs. apply dict_of_pairs_keys.
  rewrite combine_fst_rect; [exact Hk|].
  rewrite length_map. unfold rectangular in Hrect.
  rewrite Forall_forall in Hrect. apply Hrect, Hr.
Qed.

(** X23. For a frame that is not empty and has all key fields among its
    columns, [upsert] hands [bulk_write] one upserting [UpdateOne] per record,
    in order; its [$set] document is the record and its filter is the record
    restricted to the key fields. *)
Theorem upsert_operations : forall df key_fields,
  empty df = false ->
  rectangular df ->
  Forall (fun k => contains df k = true) key_fields ->
  exists ops,
    upsert df key_fields = Ok (Some ops)
    /\ map op_set ops = df_to_docs df
    /\ Forall (fun op =>
                 op_upsert op = true
                 /\ forall k, dict_get k (op_filter op)
                              = if existsb (String.eqb k) key_fields
                                then dict_get k (op_set op) else None) ops.
Proof.
  intros df keys Hne Hrect Hkeys.
  destruct (upsert_loop keys (df_to_docs df) []) as (ops & Ho & Hs & Hall).
  { apply Forall_forall. intros d Hd k Hk.
    apply (df_to_docs_keys df d k Hrect Hd).
    rewrite Forall_forall in Hkeys. apply contains_In, Hkeys, Hk. }
  exists ops. split; [|split; assumption].
  unfold upsert. destruct (df_to_docs df) as [|d docs] eqn:E.
  - exfalso. unfold df_to_docs in E. rewrite Hne in E.
    unfold to_dict_records, replace_nan, empty in *. cbn [rows columns] in *.
    destruct (columns df); [discriminate|]. destruct (rows df); discriminate.
  - rewrite Ho. reflexivity.
Qed.

Lemma upsert_operations_witness :
  exists ops,
    upsert (frame_of (students_df sample_snapshot)) ["courseId"; "userId"]
      = Ok (Some ops)
    /\ map op_set ops = df_to_docs (frame_of (students_df sample_snapshot))
    /\ Forall (fun op =>
                 op_upsert op = true
                 /\ forall k, dict_get k (op_filter op)
                              = if existsb (String.eqb k) ["courseId"; "userId"]
                                then dict_get k (op_set op) else None) ops.
Proof.
  apply (upsert_operations (frame_of (students_df sample_snapshot))
           ["courseId"; "userId"]).
  - reflexivity.
  - vm_compute. repeat constructor.
  - repeat constructor.
Defined.

(** X24. When a key field is not a column of a non-empty frame, [upsert]
    raises KeyError before anything is written. *)
Theorem upsert_missing_key_field : forall df key_fields k,
  empty df = false ->
  In k key_fields ->
  contains df k = false ->
  upsert df key_fields = Raise KeyError.
Proof.
  intros df keys k Hne Hk Hc. unfold upsert.
  destruct (df_to_docs df) as [|d docs] eqn:E.
  - exfalso. unfold df_to_docs in E. rewrite Hne in E.
    unfold to_dict_records, replace_nan, empty in *. cbn [rows columns] in *.
    destruct (columns df); [discriminate|]. destruct (rows df); discriminate.
  - assert (Hd : dict_get k d = None).
    { assert (Hin : In d (df_to_docs df)) by (rewrite E; left; reflexivity).
      unfold df_to_docs in Hin. rewrite Hne in Hin.
      unfold to_dict_records, replace_nan in Hin. cbn [columns rows] in Hin.
      apply in_map_iff in Hin. destruct Hin as (r' & <- & _).
      destruct (dict_get k (dict_of_pairs (combine (columns df) r'))) as [v|] eqn:Ev;
        [|reflexivity].
      exfalso. unfold dict_of_pairs in Ev.
      assert (Hkeys : forall ps (acc : dict) v,
                dict_get k (fold_left (fun d p => dict_set (fst p) (snd p) d) ps acc)
                = Some v -> In k (map fst ps) \/ dict_get k acc <> None).
      { induction ps as [|[k0 v0] ps IH]; intros acc w Hw; cbn in *.
        - right. congruence.
        - destruct (IH _ _ Hw) as [H|H]; [auto|].
          rewrite dict_get_set in H. destruct (String.eqb k k0) eqn:Ek.
          + apply String.eqb_eq in Ek. auto.
          + auto. }
      destruct (Hkeys _ _ _ Ev) as [H|H]; [|apply H; reflexivity].
      apply in_map_iff in H. destruct H as ([a b] & Ha & Hab). cbn in Ha. subst a.
      apply in_combine_l in Hab.
      assert (contains df k = true) by (apply contains_In; exact Hab).
      congruence. }
    assert (Hf : key_filter keys d = Raise KeyError).
    { unfold key_filter. generalize (@nil (string * value)) as acc.
      induction keys as [|k0 keys IH]; intros acc; [contradiction|].
      cbn [foldM]. unfold subscript at 1.
      destruct (dict_get k0 d) as [v0|] eqn:E0; [|reflexivity]. cbn [bind].
      apply IH. destruct Hk as [->|Hk]; [congruence|exact Hk]. }
    cbn [foldM]. rewrite Hf. reflexivity.
Qed.

Lemma upsert_missing_key_field_witness :
  upsert (frame_of (students_df sample_snapshot)) ["courseId"; "emailAddress"]
  = Raise KeyError.
Proof.
  apply (upsert_missing_key_field (frame_of (students_df sample_snapshot))
           ["courseId"; "emailAddress"] "emailAddress").
  - reflexivity.
  - right. left. reflexivity.
  - reflexivity.
Defined.

Lemma foldM_length_snoc : forall (A B : Type) (f : list B -> A -> outcome (list B)) xs,
  (forall acc x acc', f acc x = Ok acc' -> exists y, acc' = acc ++ [y]) ->
  forall acc acc', foldM f xs acc = Ok acc' ->
  List.length acc' = (List.length acc + List.length xs)%nat.
Proof.
  intros A B f xs Hf. induction xs as [|x xs IH]; intros acc acc' H; cbn in H.
  - injection H as <-. cbn. lia.
  - destruct (f acc x) as [a| |] eqn:E; try discriminate. cbn [bind] in H.
    apply IH in H. destruct (Hf _ _ _ E) as [y ->].
    rewrite H, length_app. cbn. lia.
Qed.

(** X25. [upsert] never hands [bulk_write] an empty batch: when it writes,
    the batch has one operation per row of the frame. *)
Theorem upsert_batch_size : forall df key_fields ops,
  upsert df key_fields = Ok (Some ops) ->
  ops <> [] /\ List.length ops = List.length (rows df).
Proof.
  intros df keys ops H. unfold upsert in H.
  destruct (df_to_docs df) as [|d docs] eqn:E; [discriminate|].
  match type of H with
  | bind ?m _ = _ => destruct m as [ops'| |] eqn:Ef; try discriminate
  end.
  cbn [bind] in H. injection H as <-.
  apply foldM_length_snoc in Ef.
  2:{ intros acc x acc' Hx. destruct (key_filter keys x); try discriminate.
      cbn [bind] in Hx. injection Hx as <-. eexists. reflexivity. }
  cbn [List.length] in Ef.
  assert (Hlen : List.length (df_to_docs df) = List.length (rows df)).
  { unfold df_to_docs in *. destruct (empty df); [discriminate|].
    unfold to_dict_records, replace_nan. cbn [rows]. rewrite !length_map.
    reflexivity. }
  rewrite E in Hlen. cbn [List.length] in Hlen.
  split; [destruct ops'; [discriminate|discriminate]|].
  rewrite Ef, <- Hlen. reflexivity.
Qed.

Lemma upsert_batch_size_witness :
  [mkUpdateOne [("courseId", VStr "c1")] [("userId", VStr "t1"); ("courseId", VStr "c1")]
     true] <> []
  /\ List.length
       [mkUpdateOne [("courseId", VStr "c1")]
          [("userId", VStr "t1"); ("courseId", VStr "c1")] true]
     = List.length (rows (frame_of (teachers_df sample_snapshot))).
Proof.
  apply (upsert_batch_size (frame_of (teachers_df sample_snapshot)) ["courseId"]).
  vm_compute. reflexivity.
Defined.

(* ================================================================== *)
(** * The attachment extractor, entry by entry *)

Lemma extract_attachment_outcome : forall out att,
  extract_attachment out att = Raise AttributeError
  \/ exists a b c d,
       extract_attachment out att
       = Ok (out ++ [VDict [("id", a); ("title", b); ("link", c); ("thumb", d)]]).
Proof.
  intros out att. unfold extract_attachment.
  destruct att; try (left; reflexivity). cbn [meth_get bind].
  set (got := match dict_get "driveFile" d with Some v => v | None => VNone end).
  set (df := if truthy got then got else VDict []).
  assert (Hdf : (exists e, df = VDict e)
                \/ meth_get df "driveFile" VNone = Raise AttributeError).
  { subst df. destruct (truthy got); [|left; eexists; reflexivity].
    destruct got; try (right; reflexivity). left. eexists. reflexivity. }
  destruct Hdf as [[e He]|Hr]; [|rewrite Hr; left; reflexivity].
  rewrite He. cbn [meth_get bind].
  destruct (dict_get "driveFile" e) as [v|]; cbn [is_dict bind].
  - destruct v; cbn [is_dict bind meth_get]; right; do 4 eexists; reflexivity.
  - right. do 4 eexists. reflexivity.
Qed.

Lemma extract_loop_outcome : forall l out,
  foldM extract_attachment l out = Raise AttributeError
  \/ exists descs,
       foldM extract_attachment l out = Ok (out ++ descs)
       /\ List.length descs = List.length l
       /\ Forall (fun v => exists a b c d,
                    v = VDict [("id", a); ("title", b); ("link", c); ("thumb", d)])
            descs.
Proof.
  induction l as [|att l IH]; intros out; cbn [foldM].
  - right. exists []. rewrite app_nil_r. repeat split. constructor.
  - destruct (extract_attachment_outcome out att) as [E|(a & b & c & d & E)];
      rewrite E; cbn [bind]; [left; reflexivity|].
    destruct (IH (out ++ [VDict [("id", a); ("title", b); ("link", c); ("thumb", d)]]))
      as [E'|(descs & E' & Hl & Hall)]; [left; exact E'|].
    right. exists (VDict [("id", a); ("title", b); ("link", c); ("thumb", d)] :: descs).
    rewrite E', <- app_assoc. split; [reflexivity|]. split; [cbn; rewrite Hl; reflexivity|].
    constructor; [|exact Hall]. do 4 eexists. reflexivity.
Qed.

(** X14. On a non-empty attachment list, [extract_attachments], when it
    returns, returns a list with exactly one descriptor per entry, each with
    the four keys id, title, link and thumb in this order; never absent. *)
Theorem extract_attachments_one_per_entry : forall (row : Row) l r,
  Row_get row "assignmentSubmission.attachments" VNone = VList l ->
  l <> [] ->
  extract_attachments row = Ok r ->
  exists descs,
    r = VList descs
    /\ List.length descs = List.length l
    /\ Forall (fun v => exists a b c d,
                 v = VDict [("id", a); ("title", b); ("link", c); ("thumb", d)])
         descs.
Proof.
  intros row l r Hrow Hne H. unfold extract_attachments in H. rewrite Hrow in H.
  destruct (extract_loop_outcome l []) as [E|(descs & E & Hl & Hall)];
    rewrite E in H; [discriminate|].
  cbn [bind app] in H. exists descs. split; [|split; assumption].
  destruct descs as [|x descs]; [destruct l; [contradiction|discriminate]|].
  cbn [truthy] in H. injection H as <-. reflexivity.
Qed.

Lemma extract_attachments_one_per_entry_witness :
  exists descs,
    VList [VDict [("id", VNone); ("title", VNone); ("link", VNone); ("thumb", VNone)];
           descriptor_a1] = VList descs
    /\ List.length descs
       = List.length [link_attachment; VDict [("driveFile", drive_file_a1)]]
    /\ Forall (fun v => exists a b c d,
                 v = VDict [("id", a); ("title", b); ("link", c); ("thumb", d)])
         descs.
Proof.
  apply (extract_attachments_one_per_entry
           (attachments_row [link_attachment; VDict [("driveFile", drive_file_a1)]])).
  - reflexivity.
  - discriminate.
  - reflexivity.
Defined.

(** X15. An attachment entry that is no dict (null, a string, a list) makes
    [extract_attachments] raise AttributeError, wherever in the list it
    stands. *)
Theorem extract_attachments_entry_not_dict : forall (row : Row) l att,
  Row_get row "assignmentSubmission.attachments" VNone = VList l ->
  In att l ->
  is_dict att = false ->
  extract_attachments row = Raise AttributeError.
Proof.
  intros row l att Hrow Hin Hatt. unfold extract_attachments. rewrite Hrow.
  assert (H : foldM extract_attachment l [] = Raise AttributeError).
  { clear Hrow. generalize (@nil value) as out.
    induction l as [|x l IH]; intros out; [contradiction|]. cbn [foldM].
    destruct (extract_attachment_outcome out x) as [E|(a & b & c & d & E)];
      rewrite E; cbn [bind]; [reflexivity|].
    destruct Hin as [->|Hin]; [|apply IH, Hin].
    exfalso. unfold extract_attachment in E.
    destruct att; cbn in Hatt, E; discriminate. }
  rewrite H. reflexivity.
Qed.

Lemma extract_attachments_entry_not_dict_witness :
  extract_attachments
    (attachments_row [VDict [("driveFile", drive_file_a1)]; VNone])
  = Raise AttributeError.
Proof.
  apply (extract_attachments_entry_not_dict
           (attachments_row [VDict [("driveFile", drive_file_a1)]; VNone])
           [VDict [("driveFile", drive_file_a1)]; VNone] VNone).
  - reflexivity.
  - right. left. reflexivity.
  - reflexivity.
Defined.

(** X16. For a non-empty list whose entries all carry a drive file, directly
    under [driveFile] or nested a second time under that key, the result is
    the list of the descriptors of these drive files, in order. *)
Theorem extract_attachments_drive_files : forall (row : Row) l ds,
  Row_get row "assignmentSubmission.attachments" VNone = VList l ->
  l <> [] ->
  Forall2 drive_file_of l ds ->
  extract_attachments row = Ok (VList (map descriptor ds)).
Proof.
  intros row l ds Hrow Hne HF. unfold extract_attachments. rewrite Hrow.
  assert (H : forall out,
            foldM extract_attachment l out = Ok (out ++ map descriptor ds)).
  { clear Hrow Hne. induction HF as [|att d l ds Hd HF IH]; intros out; cbn [foldM map].
    - rewrite app_nil_r. reflexivity.
    - assert (E : extract_attachment out att = Ok (out ++ [descriptor d])).
      { destruct Hd as [a e H1 H2 H3|a w e H1 H2].
        - apply extract_attachment_direct; assumption.
        - apply (extract_attachment_nested out a w e); assumption. }
      rewrite E. cbn [bind]. rewrite IH, <- app_assoc. reflexivity. }
  rewrite H. cbn [bind app].
  destruct HF; [contradiction|]. reflexivity.
Qed.

Lemma extract_attachments_drive_files_witness :
  extract_attachments
    (attachments_row [VDict [("driveFile", VDict [("driveFile", drive_file_a1)])];
                      VDict [("driveFile", drive_file_a1)]])
  = Ok (VList [descriptor_a1; descriptor_a1]).
Proof.
  apply (extract_attachments_drive_files
           (attachments_row [VDict [("driveFile", VDict [("driveFile", drive_file_a1)])];
                             VDict [("driveFile", drive_file_a1)]])
           [VDict [("driveFile", VDict [("driveFile", drive_file_a1)])];
            VDict [("driveFile", drive_file_a1)]]
           [[("id", VStr "a1"); ("title", VStr "t"); ("alternateLink", VStr "l");
             ("thumbnailUrl", VStr "th")];
            [("id", VStr "a1"); ("title", VStr "t"); ("alternateLink", VStr "l");
             ("thumbnailUrl", VStr "th")]]).
  - reflexivity.
  - discriminate.
  - constructor; [|constructor; [|constructor]].
    + apply (drive_file_nested _ [("driveFile", drive_file_a1)]); reflexivity.
    + apply drive_file_direct; [reflexivity|discriminate|reflexivity].
Defined.

(* ================================================================== *)
(** * Setting and selecting columns *)

Lemma zip_with_length : forall (A B C : Type) (f : A -> B -> C) xs ys,
  List.length xs = List.length ys ->
  List.length (zip_with f xs ys) = List.length xs.
Proof.
  intros A B C f xs. induction xs as [|x xs IH]; intros [|y ys] H; cbn in *;
    try discriminate; [reflexivity|].
  rewrite IH by (injection H; auto). reflexivity.
Qed.

Lemma zip_with_Forall : forall (A B C : Type) (f : A -> B -> C) (P : A -> Prop)
  (Q : C -> Prop) xs ys,
  (forall x y, P x -> Q (f x y)) -> Forall P xs -> Forall Q (zip_with f xs ys).
Proof.
  intros A B C f P Q xs ys Hf Hxs. revert ys.
  induction Hxs as [|x xs Hx Hxs IH]; intros [|y ys]; cbn; constructor; auto.
Qed.

Lemma zip_with_map_l : forall (A B C D : Type) (f : A -> B -> C) (g : C -> D)
  (h : A -> D) xs ys,
  List.length xs = List.length ys ->
  (forall x y, In x xs -> g (f x y) = h x) ->
  map g (zip_with f xs ys) = map h xs.
Proof.
  intros A B C D f g h xs. induction xs as [|x xs IH]; intros [|y ys] Hl Hg;
    cbn in *; try discriminate; [reflexivity|].
  rewrite Hg by (left; reflexivity). rewrite IH; [reflexivity|injection Hl; auto|].
  intros x' y' Hin. apply Hg. right. exact Hin.
Qed.

Lemma zip_with_map_r : forall (A B C D : Type) (f : A -> B -> C) (g : C -> D)
  xs (ys : list B) (h : B -> D),
  List.length xs = List.length ys ->
  (forall x y, In x xs -> g (f x y) = h y) ->
  map g (zip_with f xs ys) = map h ys.
Proof.
  intros A B C D f g xs. induction xs as [|x xs IH]; intros [|y ys] h Hl Hg;
    cbn in *; try discriminate; [reflexivity|].
  rewrite Hg by (left; reflexivity). rewrite (IH ys h); [reflexivity|injection Hl; auto|].
  intros x' y' Hin. apply Hg. right. exact Hin.
Qed.

Lemma set_nth_length : forall i v r, List.length (set_nth i v r) = List.length r.
Proof.
  induction i as [|i IH]; intros v [|x r]; cbn; try reflexivity.
  rewrite IH. reflexivity.
Qed.

Lemma nth_set_nth_other : forall i j v r,
  i <> j -> nth i (set_nth j v r) nan = nth i r nan.
Proof.
  induction i as [|i IH]; intros [|j] v [|x r] H; cbn; try reflexivity;
    try contradiction.
  apply IH. intros ->. apply H. reflexivity.
Qed.

Lemma nth_set_nth_same : forall i v r,
  (i < List.length r)%nat -> nth i (set_nth i v r) nan = v.
Proof.
  induction i as [|i IH]; intros v [|x r] H; cbn in *; try lia; [reflexivity|].
  apply IH. lia.
Qed.

Lemma index_of_spec : forall c cols i,
  index_of c cols = Some i -> nth_error cols i = Some c /\ (i < List.length cols)%nat.
Proof.
  intros c cols. induction cols as [|c0 cols IH]; intros i H; cbn in H;
    [discriminate|].
  destruct (String.eqb c c0) eqn:E.
  - injection H as <-. apply String.eqb_eq in E. subst. cbn. split; [reflexivity|lia].
  - destruct (index_of c cols) as [j|]; [|discriminate]. injection H as <-.
    destruct (IH j eq_refl) as [H1 H2]. cbn. split; [exact H1|lia].
Qed.

Lemma index_of_app : forall c cols c',
  String.eqb c c' = false ->
  index_of c (cols ++ [c']) = index_of c cols.
Proof.
  intros c cols c' H. induction cols as [|c0 cols IH]; cbn.
  - rewrite H. reflexivity.
  - destruct (String.eqb c c0); [reflexivity|]. rewrite IH. reflexivity.
Qed.

Lemma neq_eqb : forall c c' : string, c <> c' -> String.eqb c c' = false.
Proof. intros. apply String.eqb_neq. assumption. Qed.

Lemma rectangular_append_column : forall df c vals,
  rectangular df -> rectangular (append_column df c vals).
Proof.
  intros df c vals H. unfold append_column, rectangular in *.
  destruct (columns df) as [|c0 cs] eqn:Ec.
  - destruct (rows df) as [|r rs] eqn:Er; cbn [columns rows].
    + apply Forall_forall. intros r Hr. apply in_map_iff in Hr.
      destruct Hr as (v & <- & _). reflexivity.
    + apply (zip_with_Forall _ _ _ _ (fun r => List.length r = 0%nat)); [|exact H].
      intros x y Hx. rewrite length_app, Hx. reflexivity.
  - cbn [columns rows].
    apply (zip_with_Forall _ _ _ _ (fun r => List.length r = List.length (c0 :: cs)));
      [|exact H].
    intros x y Hx. rewrite !length_app, Hx. reflexivity.
Qed.

Lemma getitem_length : forall df c s,
  getitem df c = Ok s -> List.length s = List.length (rows df).
Proof.
  intros df c s H. unfold getitem in H.
  destruct (count_label c df) as [|[|n]]; try discriminate.
  destruct (index_of c (columns df)); [|discriminate].
  injection H as <-. apply length_map.
Qed.

Lemma count_label_In : forall c df,
  (count_label c df = 0)%nat <-> ~ In c (columns df).
Proof.
  intros c df. unfold count_label. induction (columns df) as [|c0 cols IH]; cbn.
  - tauto.
  - destruct (String.eqb c c0) eqn:E; cbn.
    + apply String.eqb_eq in E. subst. split; [discriminate|]. intros H.
      exfalso. apply H. left. reflexivity.
    + apply String.eqb_neq in E. rewrite IH. split.
      * intros H [H'|H']; [congruence|contradiction].
      * tauto.
Qed.

(** [df[c] = vals] with one value per row. *)
Lemma setitem_sets_column : forall df c vals df',
  rectangular df ->
  List.length vals = List.length (rows df) ->
  setitem df c vals = Ok df' ->
  sets_column c df df' /\ getitem df' c = Ok vals.
Proof.
  intros df c vals df' Hrect Hlen H. unfold setitem in H.
  destruct (count_label c df) as [|[|n]] eqn:Ecnt.
  - (* a new column *)
    injection H as <-.
    assert (Hshape : columns (append_column df c vals) = columns df ++ [c]
                     /\ rows (append_column df c vals)
                        = zip_with (fun r v => r ++ [v]) (rows df) vals)
      by (apply append_column_shape; symmetry; exact Hlen).
    destruct Hshape as [Hc Hr].
    assert (Hnot : ~ In c (columns df)) by (apply count_label_In; exact Ecnt).
    split; [split; [|split; [|split]]|].
    + apply rectangular_append_column, Hrect.
    + rewrite Hr. apply zip_with_length. symmetry. exact Hlen.
    + intros c' Hc'. unfold getitem.
      replace (count_label c' (append_column df c vals)) with (count_label c' df).
      2:{ unfold count_label. rewrite Hc, filter_app, length_app. cbn.
          rewrite (neq_eqb _ _ Hc'). cbn. lia. }
      rewrite Hc, index_of_app by (apply neq_eqb, Hc').
      destruct (count_label c' df) as [|[|m]]; try reflexivity.
      destruct (index_of c' (columns df)) as [i|] eqn:Ei; [|reflexivity].
      f_equal. rewrite Hr.
      apply zip_with_map_l; [symmetry; exact Hlen|].
      intros r v Hin. apply app_nth1.
      destruct (index_of_spec _ _ _ Ei) as [_ Hi].
      unfold rectangular in Hrect. rewrite Forall_forall in Hrect.
      rewrite (Hrect r Hin). exact Hi.
    + intros c'. rewrite Hc, in_app_iff. cbn. intuition congruence.
    + unfold getitem.
      replace (count_label c (append_column df c vals)) with 1%nat.
      2:{ unfold count_label in *. rewrite Hc, filter_app, length_app. cbn.
          rewrite String.eqb_refl. cbn. lia. }
      assert (Hidx : index_of c (columns df ++ [c]) = Some (List.length (columns df))).
      { clear - Hnot. induction (columns df) as [|c0 cols IH]; cbn.
        - rewrite String.eqb_refl. reflexivity.
        - destruct (String.eqb c c0) eqn:E.
          + apply String.eqb_eq in E. subst. exfalso. apply Hnot. left. reflexivity.
          + rewrite IH; [reflexivity|]. intros H. apply Hnot. right. exact H. }
      rewrite Hc, Hidx. f_equal. rewrite Hr.
      rewrite (zip_with_map_r _ _ _ _ _ _ (rows df) vals (fun v => v));
        [apply map_id|symmetry; exact Hlen|].
      intros r v Hin. unfold rectangular in Hrect. rewrite Forall_forall in Hrect.
      rewrite <- (Hrect r Hin). rewrite app_nth2 by lia.
      rewrite Nat.sub_diag. reflexivity.
  - (* an existing column *)
    destruct (index_of c (columns df)) as [i|] eqn:Ei; [|discriminate].
    injection H as <-. destruct (index_of_spec _ _ _ Ei) as [Hnth Hi].
    split; [split; [|split; [|split]]|]; cbn [columns rows].
    + unfold rectangular in *. cbn [columns rows].
      apply (zip_with_Forall _ _ _ _ (fun r => List.length r = List.length (columns df)));
        [|exact Hrect].
      intros x y Hx. rewrite set_nth_length. exact Hx.
    + apply zip_with_length. symmetry. exact Hlen.
    + intros c' Hc'. unfold getitem, count_label. cbn [columns rows].
      destruct (List.length (filter (String.eqb c') (columns df))) as [|[|m]];
        try reflexivity.
      destruct (index_of c' (columns df)) as [j|] eqn:Ej; [|reflexivity].
      f_equal. apply zip_with_map_l; [symmetry; exact Hlen|].
      intros r v Hin. apply nth_set_nth_other.
      intros ->. destruct (index_of_spec _ _ _ Ej) as [Hnth' _]. congruence.
    + intros c'. split; [auto|]. intros [->|H]; [|exact H].
      apply nth_error_In in Hnth. exact Hnth.
    + unfold getitem, count_label in *. cbn [columns rows]. rewrite Ecnt, Ei.
      f_equal.
      rewrite (zip_with_map_r _ _ _ _ _ _ (rows df) vals (fun v => v));
        [apply map_id|symmetry; exact Hlen|].
      intros r v Hin. apply nth_set_nth_same.
      unfold rectangular in Hrect. rewrite Forall_forall in Hrect.
      rewrite (Hrect r Hin). exact Hi.
  - discriminate.
Qed.

Lemma rectangular_rename : forall mapping df,
  rectangular df -> rectangular (rename mapping df).
Proof.
  intros mapping df H. unfold rectangular, rename in *. cbn [columns rows].
  rewrite length_map. exact H.
Qed.

Lemma rectangular_normalize_records : forall data path meta errors df,
  normalize_records data path meta errors = Ok df -> rectangular df.
Proof.
  intros data path meta errors df H. unfold normalize_records in H.
  destruct (recursive_extract _ _ _ _ _ _ _) as [[seen st]| |]; try discriminate.
  cbn [bind] in H.
  destruct (DataFrame_of_records (records st)) as [df0| |] eqn:E0; try discriminate.
  cbn [bind] in H.
  revert H. apply foldM_invariant.
  - intros s x s' _ Hs Hx.
    destruct (contains s (fst x)); [discriminate|]. injection Hx as <-.
    apply rectangular_append_column, Hs.
  - apply (DataFrame_of_records_shape _ _ E0).
Qed.

Lemma rectangular_json_normalize : forall data path meta errors df,
  json_normalize data path meta errors = Ok df -> rectangular df.
Proof.
  intros data path meta errors df H. unfold json_normalize in H.
  destruct data as [| | | | |[|x l]|d|]; try discriminate.
  - injection H as <-. constructor.
  - apply (rectangular_normalize_records _ _ _ _ _ H).
  - apply (rectangular_normalize_records _ _ _ _ _ H).
Qed.

Lemma rectangular_submissions_df : forall raw df,
  submissions_df raw = Ok df -> rectangular df.
Proof.
  intros raw df H. unfold submissions_df in H.
  destruct (json_normalize raw _ _ _) as [df0| |] eqn:E; try discriminate.
  injection H as <-. apply rectangular_rename, (rectangular_json_normalize _ _ _ _ _ E).
Qed.

Lemma positions_labels : forall c cols pre,
  map (fun i => nth i (pre ++ cols) "") (positions c cols (List.length pre))
  = repeat c (List.length (filter (String.eqb c) cols)).
Proof.
  intros c cols. induction cols as [|c0 cols IH]; intros pre; [reflexivity|].
  cbn [positions filter].
  assert (Hshift : map (fun i => nth i (pre ++ c0 :: cols) "")
                     (positions c cols (S (List.length pre)))
                   = repeat c (List.length (filter (String.eqb c) cols))).
  { specialize (IH (pre ++ [c0])). rewrite <- app_assoc in IH. cbn [app] in IH.
    rewrite length_app in IH. cbn [List.length] in IH.
    rewrite Nat.add_1_r in IH. exact IH. }
  destruct (String.eqb c c0) eqn:E.
  - apply String.eqb_eq in E. subst c0. cbn [map List.length repeat].
    rewrite Hshift. f_equal. rewrite app_nth2 by lia. rewrite Nat.sub_diag.
    reflexivity.
  - exact Hshift.
Qed.

Lemma positions_head : forall c cols k i,
  index_of c cols = Some i ->
  exists rest, positions c cols k = (k + i)%nat :: rest.
Proof.
  intros c cols. induction cols as [|c0 cols IH]; intros k i H; cbn in H;
    [discriminate|]. cbn [positions].
  destruct (String.eqb c c0).
  - injection H as <-. rewrite Nat.add_0_r. eexists. reflexivity.
  - destruct (index_of c cols) as [j|]; [|discriminate]. injection H as <-.
    destruct (IH (S k) j eq_refl) as [rest Hr]. exists rest. rewrite Hr.
    f_equal. lia.
Qed.

Lemma positions_length : forall c cols k,
  List.length (positions c cols k) = List.length (filter (String.eqb c) cols).
Proof.
  intros c cols. induction cols as [|c0 cols IH]; intros k; [reflexivity|].
  cbn [positions filter]. destruct (String.eqb c c0); cbn; rewrite IH; reflexivity.
Qed.

Lemma select_columns : forall df labels,
  columns (select df labels)
  = flat_map (fun c => repeat c (count_label c df)) labels.
Proof.
  intros df labels. unfold select. cbn [columns].
  induction labels as [|c labels IH]; [reflexivity|].
  cbn [flat_map]. rewrite map_app, IH. f_equal.
  apply (positions_labels c (columns df) []).
Qed.

Lemma filter_repeat_other : forall (c c' : string) n,
  String.eqb c c' = false -> filter (String.eqb c) (repeat c' n) = [].
Proof.
  intros c c' n H. induction n as [|n IH]; [reflexivity|]. cbn. rewrite H. exact IH.
Qed.

Lemma filter_repeat_same : forall (c : string) n,
  filter (String.eqb c) (repeat c n) = repeat c n.
Proof.
  intros c n. induction n as [|n IH]; [reflexivity|]. cbn.
  rewrite String.eqb_refl, IH. reflexivity.
Qed.

Lemma filter_labels_other : forall (c : string) (f : string -> nat) labels,
  ~ In c labels ->
  filter (String.eqb c) (flat_map (fun c' => repeat c' (f c')) labels) = [].
Proof.
  intros c f labels H. induction labels as [|c0 labels IH]; [reflexivity|].
  cbn [flat_map]. rewrite filter_app, filter_repeat_other, IH; [reflexivity| |].
  - intros Hin. apply H. right. exact Hin.
  - apply String.eqb_neq. intros ->. apply H. left. reflexivity.
Qed.

Lemma index_of_skip : forall c (pre post : list string),
  ~ In c pre -> index_of c (pre ++ c :: post) = Some (List.length pre).
Proof.
  intros c pre post H. induction pre as [|c0 pre IH]; cbn.
  - rewrite String.eqb_refl. reflexivity.
  - destruct (String.eqb c c0) eqn:E.
    + apply String.eqb_eq in E. subst. exfalso. apply H. left. reflexivity.
    + rewrite IH; [reflexivity|]. intros Hin. apply H. right. exact Hin.
Qed.

Lemma in_labels_flat : forall (c : string) (f : string -> nat) labels,
  In c (flat_map (fun c' => repeat c' (f c')) labels) -> In c labels.
Proof.
  intros c f labels H. apply in_flat_map in H. destruct H as (c' & Hc' & Hin).
  apply repeat_spec in Hin. subst. exact Hc'.
Qed.

(** Selecting columns by distinct labels leaves each selected column as it
    was. *)
Lemma select_getitem : forall df labels c,
  NoDup labels ->
  (In c labels \/ ~ In c (columns df)) ->
  getitem (select df labels) c = getitem df c.
Proof.
  intros df labels c Hnd Hc.
  destruct (in_dec string_dec c labels) as [Hin|Hnot].
  - apply in_split in Hin. destruct Hin as (L1 & L2 & ->).
    apply NoDup_remove_2 in Hnd.
    assert (H1 : ~ In c L1) by (intros H; apply Hnd, in_or_app; auto).
    assert (H2 : ~ In c L2) by (intros H; apply Hnd, in_or_app; auto).
    unfold getitem.
    assert (Hcnt : count_label c (select df (L1 ++ c :: L2)) = count_label c df).
    { unfold count_label at 1. rewrite select_columns, flat_map_app.
      cbn [flat_map]. rewrite !filter_app, !length_app.
      rewrite !filter_labels_other by assumption.
      rewrite filter_repeat_same, repeat_length. cbn. lia. }
    rewrite Hcnt.
    destruct (count_label c df) as [|[|n]] eqn:E; try reflexivity.
    destruct (index_of c (columns df)) as [i|] eqn:Ei.
    2:{ exfalso. unfold count_label in E. clear - E Ei.
        induction (columns df) as [|c0 cols IH]; [discriminate|].
        cbn in *. destruct (String.eqb c c0); [discriminate|].
        destruct (index_of c cols); [discriminate|]. apply IH; auto. }
    rewrite select_columns, flat_map_app. cbn [flat_map]. rewrite E.
    cbn [repeat app].
    rewrite index_of_skip by (intros H; apply in_labels_flat in H; contradiction).
    f_equal. unfold select. cbn [rows]. rewrite map_map. apply map_ext. intros r.
    rewrite flat_map_app. cbn [flat_map].
    destruct (positions_head c (columns df) 0 i Ei) as [rest Hrest].
    assert (Hlen : List.length (positions c (columns df) 0) = 1%nat)
      by (rewrite positions_length; exact E).
    rewrite Hrest in Hlen. destruct rest; [|discriminate].
    rewrite Hrest. cbn [Nat.add app]. rewrite map_app. cbn [map].
    assert (Hl : List.length (flat_map (fun c0 => repeat c0 (count_label c0 df)) L1)
                 = List.length
                     (map (fun i0 => nth i0 r nan)
                        (flat_map (fun c0 => positions c0 (columns df) 0) L1))).
    { rewrite length_map. clear. induction L1 as [|c0 L1 IH]; [reflexivity|].
      cbn [flat_map]. rewrite !length_app, IH, repeat_length, positions_length.
      reflexivity. }
    rewrite Hl. apply nth_middle.
  - destruct Hc as [Hc|Hc]; [contradiction|].
    unfold getitem.
    assert (E0 : count_label c df = 0%nat) by (apply count_label_In; exact Hc).
    assert (E1 : count_label c (select df labels) = 0%nat).
    { unfold count_label. rewrite select_columns, filter_labels_other by exact Hnot.
      reflexivity. }
    rewrite E0, E1. reflexivity.
Qed.

Lemma NoDup_filter : forall (A : Type) (f : A -> bool) (l : list A),
  NoDup l -> NoDup (filter f l).
Proof.
  intros A f l H. induction H as [|x l Hx H IH]; cbn; [constructor|].
  destruct (f x); [|exact IH]. constructor; [|exact IH].
  intros Hin. apply filter_In in Hin. apply Hx, Hin.
Qed.

Lemma NoDup_keep_sub_cols : NoDup keep_sub_cols.
Proof.
  unfold keep_sub_cols.
  repeat (constructor; [cbn; intuition discriminate|]). constructor.
Qed.

(** Line 153 keeps each column of the allow-list as it is. *)
Lemma keep_columns_getitem : forall df c,
  In c keep_sub_cols -> getitem (keep_columns df) c = getitem df c.
Proof.
  intros df c Hc. unfold keep_columns. apply select_getitem.
  - apply NoDup_filter, NoDup_keep_sub_cols.
  - destruct (contains df c) eqn:E.
    + left. apply filter_In. split; assumption.
    + right. intros H. apply contains_In in H. congruence.
Qed.

Lemma keep_columns_columns : forall df c,
  In c (columns (keep_columns df)) <-> In c keep_sub_cols /\ In c (columns df).
Proof.
  intros df c. unfold keep_columns. rewrite select_columns. split.
  - intros H. apply in_flat_map in H. destruct H as (c' & Hc' & Hin).
    apply repeat_spec in Hin. subst c'. apply filter_In in Hc'.
    destruct Hc' as [H1 H2]. split; [exact H1|apply contains_In, H2].
  - intros [H1 H2]. apply in_flat_map. exists c. split.
    + apply filter_In. split; [exact H1|apply contains_In, H2].
    + destruct (count_label c df) as [|n] eqn:E.
      * apply count_label_In in E. contradiction.
      * left. reflexivity.
Qed.

(* ================================================================== *)
(** * Lines 107-153, step by step *)

Lemma map_to_dt_sets_column : forall local df c df',
  rectangular df ->
  map_to_dt local df c = Ok df' ->
  sets_column c df df'
  /\ exists col, getitem df' c = Ok col /\ Forall converted col.
Proof.
  intros local df c df' Hrect H. unfold map_to_dt in H.
  destruct (getitem df c) as [col| |] eqn:Eg; try discriminate. cbn [bind] in H.
  destruct (Series_map (to_dt local) col) as [col'| |] eqn:Em; try discriminate.
  cbn [bind] in H.
  assert (Hlen : List.length col' = List.length (rows df)).
  { unfold Series_map in Em. rewrite (mapM_length _ _ _ _ _ Em).
    apply (getitem_length _ _ _ Eg). }
  destruct (setitem_sets_column df c col' df' Hrect Hlen H) as [Hs Hg].
  split; [exact Hs|]. exists col'. split; [exact Hg|].
  apply (mapM_invariant _ _ (fun _ => True) converted (to_dt local) col col');
    [|apply Forall_forall; auto|exact Em].
  intros x y _ Hxy. apply (to_dt_result local x y Hxy).
Qed.

(** Lines 107-109. *)
Lemma parse_timestamps_spec : forall local df df',
  rectangular df ->
  parse_timestamps local df = Ok df' ->
  rectangular df'
  /\ List.length (rows df') = List.length (rows df)
  /\ (forall c, c <> "creationTime" -> c <> "updateTime" ->
                getitem df' c = getitem df c)
  /\ (forall c, In c (columns df') <-> In c (columns df))
  /\ (forall c, (c = "creationTime" \/ c = "updateTime") ->
                In c (columns df') ->
                exists col, getitem df' c = Ok col /\ Forall converted col).
Proof.
  intros local df df' Hrect H. unfold parse_timestamps in H. cbn [foldM] in H.
  destruct (contains df "creationTime") eqn:E1.
  - destruct (map_to_dt local df "creationTime") as [df1| |] eqn:M1; try discriminate.
    cbn [bind] in H.
    destruct (map_to_dt_sets_column _ _ _ _ Hrect M1)
      as [(R1 & L1 & G1 & C1) (col1 & Hg1 & Hc1)].
    assert (Hin1 : forall c, In c (columns df1) <-> In c (columns df)).
    { intros c. rewrite C1. split; [|auto]. intros [->|Hc]; [|exact Hc].
      apply contains_In, E1. }
    destruct (contains df1 "updateTime") eqn:E2.
    + destruct (map_to_dt local df1 "updateTime") as [df2| |] eqn:M2; try discriminate.
      cbn [bind] in H. injection H as <-.
      destruct (map_to_dt_sets_column _ _ _ _ R1 M2)
        as [(R2 & L2 & G2 & C2) (col2 & Hg2 & Hc2)].
      split; [exact R2|]. split; [congruence|]. split; [|split].
      * intros c Hn1 Hn2. rewrite G2, G1 by assumption. reflexivity.
      * intros c. rewrite C2, Hin1. split; [|auto]. intros [->|Hc]; [|exact Hc].
        apply Hin1, contains_In, E2.
      * intros c [->| ->] _.
        -- exists col1. rewrite G2 by discriminate. split; assumption.
        -- exists col2. split; assumption.
    + cbn [bind] in H. injection H as <-.
      split; [exact R1|]. split; [exact L1|]. split; [|split].
      * intros c Hn1 Hn2. apply G1, Hn1.
      * exact Hin1.
      * intros c [->| ->] Hin.
        -- exists col1. split; assumption.
        -- apply contains_In in Hin. congruence.
  - cbn [bind] in H.
    destruct (contains df "updateTime") eqn:E2.
    + destruct (map_to_dt local df "updateTime") as [df2| |] eqn:M2; try discriminate.
      cbn [bind] in H. injection H as <-.
      destruct (map_to_dt_sets_column _ _ _ _ Hrect M2)
        as [(R2 & L2 & G2 & C2) (col2 & Hg2 & Hc2)].
      split; [exact R2|]. split; [exact L2|]. split; [|split].
      * intros c Hn1 Hn2. apply G2, Hn2.
      * intros c. rewrite C2. split; [|auto]. intros [->|Hc]; [|exact Hc].
        apply contains_In, E2.
      * intros c [->| ->] Hin.
        -- apply C2 in Hin. destruct Hin as [Hin|Hin]; [discriminate|].
           apply contains_In in Hin. congruence.
        -- exists col2. split; assumption.
    + injection H as <-.
      split; [exact Hrect|]. split; [reflexivity|]. split; [|split]; try tauto.
      intros c Hc Hin. apply contains_In in Hin. destruct Hc as [->| ->]; congruence.
Qed.

Lemma apply_rows_length : forall f df s,
  apply_rows f df = Ok s -> List.length s = List.length (rows df).
Proof.
  intros f df s H. unfold apply_rows in H.
  destruct (rows df) as [|r rs] eqn:E.
  - destruct (f _); try discriminate. injection H as <-. reflexivity.
  - rewrite <- E in *. apply (mapM_length _ _ _ _ _ H).
Qed.

(** Line 130. *)
Lemma add_attachments_spec : forall df df',
  rectangular df -> add_attachments df = Ok df' ->
  sets_column "attachments" df df'.
Proof.
  intros df df' Hrect H. unfold add_attachments in H.
  destruct (apply_rows extract_attachments df) as [s| |] eqn:E; try discriminate.
  cbn [bind] in H.
  apply (setitem_sets_column df "attachments" s df' Hrect
           (apply_rows_length _ _ _ E) H).
Qed.

(** Line 144. *)
Lemma add_latest_points_spec : forall df df',
  rectangular df -> add_latest_points df = Ok df' ->
  sets_column "pointsEarned_latest" df df'
  /\ exists hist, getitem df "submissionHistory" = Ok hist
                  /\ getitem df' "pointsEarned_latest"
                     = Ok (map pick_latest_points hist).
Proof.
  intros df df' Hrect H. unfold add_latest_points in H.
  destruct (getitem df "submissionHistory") as [s| |] eqn:E; try discriminate.
  cbn [bind] in H.
  assert (Hlen : List.length (map pick_latest_points s) = List.length (rows df))
    by (rewrite length_map; apply (getitem_length _ _ _ E)).
  destruct (setitem_sets_column df _ _ df' Hrect Hlen H) as [Hs Hg].
  split; [exact Hs|]. exists s. split; [reflexivity|exact Hg].
Qed.

(** Line 145. *)
Lemma fill_late_spec : forall df df',
  rectangular df -> fill_late df = Ok df' ->
  sets_column "late" df df'
  /\ exists late, getitem df "late" = Ok late
                  /\ getitem df' "late"
                     = Ok (map (fun o => if isnull o then VBool false else o) late).
Proof.
  intros df df' Hrect H. unfold fill_late, get in H.
  destruct (getitem df "late") as [s|e|] eqn:E; try discriminate.
  2:{ destruct e; discriminate. }
  cbn [bind fillna] in H.
  assert (Hlen : List.length (map (fun o => if isnull o then VBool false else o) s)
                 = List.length (rows df))
    by (rewrite length_map; apply (getitem_length _ _ _ E)).
  destruct (setitem_sets_column df _ _ df' Hrect Hlen H) as [Hs Hg].
  split; [exact Hs|]. exists s. split; [reflexivity|exact Hg].
Qed.

(** The frames lines 107-145 pass through. *)
Lemma submissions_pipeline : forall local raw df,
  submissions_df_final local raw = Ok df ->
  exists df0 df1 df2 df3 df4,
    submissions_df raw = Ok df0
    /\ parse_timestamps local df0 = Ok df1
    /\ add_attachments df1 = Ok df2
    /\ add_latest_points df2 = Ok df3
    /\ fill_late df3 = Ok df4
    /\ df = keep_columns df4.
Proof.
  intros local raw df H. unfold submissions_df_final in H.
  destruct (submissions_df raw) as [df0| |] eqn:E0; try discriminate.
  cbn [bind] in H.
  destruct (parse_timestamps local df0) as [df1| |] eqn:E1; try discriminate.
  cbn [bind] in H.
  destruct (add_attachments df1) as [df2| |] eqn:E2; try discriminate.
  cbn [bind] in H.
  destruct (add_latest_points df2) as [df3| |] eqn:E3; try discriminate.
  cbn [bind] in H.
  destruct (fill_late df3) as [df4| |] eqn:E4; try discriminate. cbn [bind] in H.
  injection H as <-. exists df0, df1, df2, df3, df4. repeat split; assumption.
Qed.

(** What lines 107-145 leave of the frame of lines 88-104. *)
Lemma submissions_frames : forall local raw df,
  submissions_df_final local raw = Ok df ->
  exists df0 df4,
    submissions_df raw = Ok df0
    /\ df = keep_columns df4
    /\ rectangular df4
    /\ List.length (rows df4) = List.length (rows df0)
    /\ (forall c, c <> "creationTime" -> c <> "updateTime" -> c <> "attachments" ->
                  c <> "pointsEarned_latest" -> c <> "late" ->
                  getitem df4 c = getitem df0 c)
    /\ (forall c, In c (columns df4)
                  <-> (c = "late" \/ c = "pointsEarned_latest" \/ c = "attachments"
                       \/ In c (columns df0)))
    /\ (forall c, (c = "creationTime" \/ c = "updateTime") ->
                  In c (columns df4) ->
                  exists col, getitem df4 c = Ok col /\ Forall converted col)
    /\ (exists late,
          getitem df0 "late" = Ok late
          /\ getitem df4 "late"
             = Ok (map (fun o => if isnull o then VBool false else o) late))
    /\ (exists hist,
          getitem df0 "submissionHistory" = Ok hist
          /\ getitem df4 "pointsEarned_latest" = Ok (map pick_latest_points hist)).
Proof.
  intros local raw df H.
  destruct (submissions_pipeline _ _ _ H)
    as (df0 & df1 & df2 & df3 & df4 & E0 & E1 & E2 & E3 & E4 & ->).
  pose proof (rectangular_submissions_df _ _ E0) as R0.
  destruct (parse_timestamps_spec _ _ _ R0 E1) as (R1 & L1 & G1 & C1 & T1).
  destruct (add_attachments_spec _ _ R1 E2) as (R2 & L2 & G2 & C2).
  destruct (add_latest_points_spec _ _ R2 E3)
    as [(R3 & L3 & G3 & C3) (hist & Hh & Hp)].
  destruct (fill_late_spec _ _ R3 E4) as [(R4 & L4 & G4 & C4) (late & Hl & Hf)].
  exists df0, df4. split; [exact E0|]. split; [reflexivity|]. split; [exact R4|].
  split; [congruence|]. split; [|split; [|split; [|split]]].
  - intros c H1 H2 H3 H4' H5. rewrite G4, G3, G2, G1 by assumption. reflexivity.
  - intros c. rewrite C4, C3, C2, C1. tauto.
  - intros c Hc Hin.
    assert (Hin1 : In c (columns df1)).
    { apply C4 in Hin. destruct Hin as [->|Hin]; [destruct Hc; discriminate|].
      apply C3 in Hin. destruct Hin as [->|Hin]; [destruct Hc; discriminate|].
      apply C2 in Hin. destruct Hin as [->|Hin]; [destruct Hc; discriminate|].
      exact Hin. }
    destruct (T1 c Hc Hin1) as (col & Hg & Hcol). exists col. split; [|exact Hcol].
    rewrite G4, G3, G2 by (destruct Hc as [->| ->]; discriminate). exact Hg.
  - exists late. split; [|exact Hf].
    rewrite <- Hl, G3, G2, G1 by discriminate. reflexivity.
  - exists hist. split.
    + rewrite <- Hh, G2, G1 by discriminate. reflexivity.
    + rewrite G4 by discriminate. exact Hp.
Qed.

(* ================================================================== *)
(** * The final submission records *)

Lemma dict_of_pairs_get_in : forall ps (acc : dict) k v,
  dict_get k (fold_left (fun d p => dict_set (fst p) (snd p) d) ps acc) = Some v ->
  In (k, v) ps \/ dict_get k acc = Some v.
Proof.
  induction ps as [|[k0 v0] ps IH]; intros acc k v H; cbn in *; [auto|].
  destruct (IH _ _ _ H) as [Hin|Hacc]; [auto|].
  rewrite dict_get_set in Hacc. destruct (String.eqb k k0) eqn:E; [|auto].
  apply String.eqb_eq in E. subst. injection Hacc as <-. auto.
Qed.

Lemma in_combine_nth : forall (xs : list string) (ys : list value) k v,
  In (k, v) (combine xs ys) ->
  exists j, nth_error xs j = Some k /\ nth_error ys j = Some v.
Proof.
  induction xs as [|x xs IH]; intros [|y ys] k v H; cbn in H; try contradiction.
  destruct H as [H|H].
  - injection H as -> ->. exists 0%nat. split; reflexivity.
  - destruct (IH ys k v H) as (j & H1 & H2). exists (S j). split; assumption.
Qed.

Lemma count_one_index : forall c cols j,
  List.length (filter (String.eqb c) cols) = 1%nat ->
  nth_error cols j = Some c -> index_of c cols = Some j.
Proof.
  intros c cols. induction cols as [|c0 cols IH]; intros j Hc Hj.
  - destruct j; discriminate.
  - cbn in Hc |- *. destruct (String.eqb c c0) eqn:E.
    + destruct j as [|j]; [reflexivity|]. exfalso. cbn in Hc, Hj.
      apply nth_error_In in Hj.
      assert (Hin : In c (filter (String.eqb c) cols))
        by (apply filter_In; split; [exact Hj|apply String.eqb_refl]).
      destruct (filter (String.eqb c) cols); [contradiction|discriminate].
    + destruct j as [|j].
      * cbn in Hj. injection Hj as ->. rewrite String.eqb_refl in E. discriminate.
      * cbn in Hj. rewrite (IH j Hc Hj). reflexivity.
Qed.

(** A field of an emitted record is the cell of the column of that name. *)
Lemma doc_value_of_column : forall df doc c v col,
  In doc (df_to_docs df) ->
  dict_get c doc = Some v ->
  getitem df c = Ok col ->
  In v (map none_for_nan col).
Proof.
  intros df doc c v col Hin Hv Hg. unfold df_to_docs in Hin.
  destruct (empty df); [contradiction|].
  unfold to_dict_records, replace_nan in Hin. cbn [columns rows] in Hin.
  apply in_map_iff in Hin. destruct Hin as (r' & <- & Hr').
  apply in_map_iff in Hr'. destruct Hr' as (r & <- & Hr).
  unfold dict_of_pairs in Hv.
  destruct (dict_of_pairs_get_in _ _ _ _ Hv) as [Hp|Hp]; [|discriminate].
  destruct (in_combine_nth _ _ _ _ Hp) as (j & Hj & Hnth).
  unfold getitem in Hg.
  destruct (count_label c df) as [|[|n]] eqn:Ecnt; try discriminate.
  rewrite (count_one_index c (columns df) j Ecnt Hj) in Hg. injection Hg as <-.
  rewrite map_map. apply in_map_iff. exists r. split; [|exact Hr].
  rewrite nth_error_map in Hnth.
  destruct (nth_error r j) as [x|] eqn:Ex; [|discriminate].
  cbn in Hnth. injection Hnth as <-.
  rewrite (nth_error_nth _ _ nan Ex). reflexivity.
Qed.

Lemma doc_keys_columns : forall df doc c,
  In doc (df_to_docs df) -> dict_get c doc <> None -> In c (columns df).
Proof.
  intros df doc c Hin Hv. unfold df_to_docs in Hin.
  destruct (empty df); [contradiction|].
  unfold to_dict_records, replace_nan in Hin. cbn [columns rows] in Hin.
  apply in_map_iff in Hin. destruct Hin as (r' & <- & _).
  destruct (dict_get c (dict_of_pairs (combine (columns df) r'))) as [v|] eqn:E;
    [|contradiction].
  unfold dict_of_pairs in E.
  destruct (dict_of_pairs_get_in _ _ _ _ E) as [Hp|Hp]; [|discriminate].
  apply in_combine_l in Hp. exact Hp.
Qed.

Lemma converted_none_for_nan : forall v, converted v -> converted (none_for_nan v).
Proof. intros v [->|[t ->]]; [left|right; exists t]; reflexivity. Qed.

(** X20. The final submission frame has only columns of [keep_sub_cols], and
    among them always [late], [pointsEarned_latest] and [attachments]; the
    emitted records have no field outside the allow-list. *)
Theorem final_columns_allow_list : forall local raw df,
  submissions_df_final local raw = Ok df ->
  incl (columns df) keep_sub_cols
  /\ In "late" (columns df)
  /\ In "pointsEarned_latest" (columns df)
  /\ In "attachments" (columns df)
  /\ forall doc k, In doc (df_to_docs df) -> dict_get k doc <> None ->
                   In k keep_sub_cols.
Proof.
  intros local raw df H.
  destruct (submissions_frames _ _ _ H)
    as (df0 & df4 & E0 & -> & R4 & L4 & G & C & T & _ & _).
  assert (Hsub : incl (columns (keep_columns df4)) keep_sub_cols).
  { intros c Hc. apply keep_columns_columns in Hc. apply Hc. }
  split; [exact Hsub|].
  split; [apply keep_columns_columns; split; [cbn; tauto|apply C; tauto]|].
  split; [apply keep_columns_columns; split; [cbn; tauto|apply C; tauto]|].
  split; [apply keep_columns_columns; split; [cbn; tauto|apply C; tauto]|].
  intros doc k Hd Hk. apply Hsub. apply (doc_keys_columns _ _ _ Hd Hk).
Qed.

Lemma final_columns_allow_list_witness :
  incl (columns (frame_of (submissions_df_final zone_utc snapshot_graded)))
    keep_sub_cols
  /\ In "late" (columns (frame_of (submissions_df_final zone_utc snapshot_graded)))
  /\ In "pointsEarned_latest"
       (columns (frame_of (submissions_df_final zone_utc snapshot_graded)))
  /\ In "attachments"
       (columns (frame_of (submissions_df_final zone_utc snapshot_graded)))
  /\ forall doc k,
       In doc (df_to_docs (frame_of (submissions_df_final zone_utc snapshot_graded))) ->
       dict_get k doc <> None -> In k keep_sub_cols.
Proof.
  apply (final_columns_allow_list zone_utc snapshot_graded).
  vm_compute. reflexivity.
Defined.

(** X22. Lines 107-153 neither drop nor add a submission: the records
    emitted from the final frame are as many as the rows of the frame of
    lines 88-104. *)
Theorem final_one_record_per_row : forall local raw df0 df,
  submissions_df raw = Ok df0 ->
  submissions_df_final local raw = Ok df ->
  List.length (df_to_docs df) = List.length (rows df0).
Proof.
  intros local raw df0 df E0 H.
  destruct (submissions_frames _ _ _ H)
    as (df0' & df4 & E0' & -> & R4 & L4 & _ & C & _).
  rewrite E0 in E0'. injection E0' as <-.
  assert (Hlate : In "late" (columns (keep_columns df4)))
    by (apply keep_columns_columns; split; [cbn; tauto|apply C; tauto]).
  rewrite df_to_docs_with_columns
    by (intros Hnil; rewrite Hnil in Hlate; contradiction).
  unfold to_dict_records, replace_nan, keep_columns, select. cbn [rows columns].
  rewrite !length_map. exact L4.
Qed.

Lemma final_one_record_per_row_witness :
  List.length (df_to_docs (frame_of (submissions_df_final zone_utc sample_snapshot)))
  = List.length (rows (frame_of (submissions_df sample_snapshot))).
Proof.
  apply (final_one_record_per_row zone_utc sample_snapshot); vm_compute; reflexivity.
Defined.

(** X21. Lines 107-153 leave the identifying columns of a submission alone:
    [submissionId], [courseId], [assignmentId], [assignmentTitle], [userId],
    [state], [draftGrade] and [alternateLink] are in the final frame what they
    were after line 104, present or not. *)
Theorem final_carried_columns : forall local raw df0 df c,
  submissions_df raw = Ok df0 ->
  submissions_df_final local raw = Ok df ->
  In c carried_columns ->
  getitem df c = getitem df0 c.
Proof.
  intros local raw df0 df c E0 H Hc.
  destruct (submissions_frames _ _ _ H)
    as (df0' & df4 & E0' & -> & R4 & L4 & G & _).
  rewrite E0 in E0'. injection E0' as <-.
  rewrite keep_columns_getitem.
  - apply G; intros ->; cbn in Hc; intuition discriminate.
  - cbn in Hc |- *. intuition.
Qed.

Lemma final_carried_columns_witness :
  getitem (frame_of (submissions_df_final zone_utc snapshot_graded)) "userId"
  = getitem (frame_of (submissions_df snapshot_graded)) "userId".
Proof.
  apply (final_carried_columns zone_utc snapshot_graded);
    [vm_compute; reflexivity|vm_compute; reflexivity|].
  cbn. tauto.
Defined.

(** X13. In the submission records, [creationTime] and [updateTime] are
    never left as strings: where a record has the field, it holds a UTC
    instant or None. *)
Theorem final_timestamps_converted : forall local raw df doc c v,
  submissions_df_final local raw = Ok df ->
  In doc (df_to_docs df) ->
  c = "creationTime" \/ c = "updateTime" ->
  dict_get c doc = Some v ->
  v = VNone \/ exists t, v = VDatetime t.
Proof.
  intros local raw df doc c v H Hdoc Hc Hv.
  assert (Hin : In c (columns df))
    by (apply (doc_keys_columns _ _ _ Hdoc); congruence).
  destruct (submissions_frames _ _ _ H)
    as (df0 & df4 & E0 & -> & R4 & L4 & G & C & T & _).
  assert (Hkeep : In c keep_sub_cols) by (destruct Hc as [->| ->]; cbn; tauto).
  apply keep_columns_columns in Hin. destruct Hin as [_ Hin4].
  destruct (T c Hc Hin4) as (col & Hg & Hcol).
  rewrite <- (keep_columns_getitem df4 c Hkeep) in Hg.
  pose proof (doc_value_of_column _ _ _ _ _ Hdoc Hv Hg) as Hmem.
  apply in_map_iff in Hmem. destruct Hmem as (x & <- & Hx).
  rewrite Forall_forall in Hcol. apply converted_none_for_nan, Hcol, Hx.
Qed.

Lemma final_timestamps_converted_witness :
  VNone = VNone \/ exists t, VNone = VDatetime t.
Proof.
  apply (final_timestamps_converted zone_utc snapshot_graded
           (frame_of (submissions_df_final zone_utc snapshot_graded))
           [("submissionId", VStr "s1"); ("courseId", VStr "a1");
            ("assignmentId", VStr "a1"); ("assignmentTitle", VStr "Essay");
            ("userId", VStr "u1");
            ("creationTime", VDatetime (mkDatetime 2025 8 30 19 27 44 5000));
            ("updateTime", VNone); ("late", VBool true);
            ("pointsEarned_latest", VInt 9);
            ("attachments", VList [descriptor_a1])]
           "updateTime").
  - vm_compute. reflexivity.
  - vm_compute. left. reflexivity.
  - right. reflexivity.
  - reflexivity.
Defined.

(** X18. When the submission frame has a column [late], the final [late]
    column holds False where the raw cell is missing or null and the raw cell
    itself everywhere else. *)
Theorem final_late_filled : forall local raw df0 df late,
  submissions_df raw = Ok df0 ->
  submissions_df_final local raw = Ok df ->
  getitem df0 "late" = Ok late ->
  getitem df "late" = Ok (map (fun o => if isnull o then VBool false else o) late).
Proof.
  intros local raw df0 df late E0 H Hl.
  destruct (submissions_frames _ _ _ H)
    as (df0' & df4 & E0' & -> & R4 & L4 & G & C & T & (late' & Hl' & Hf) & _).
  rewrite E0 in E0'. injection E0' as <-.
  rewrite keep_columns_getitem by (cbn; tauto).
  rewrite Hl in Hl'. injection Hl' as <-. exact Hf.
Qed.

Lemma final_late_filled_witness :
  getitem (frame_of (submissions_df_final zone_utc snapshot_graded)) "late"
  = Ok (map (fun o => if isnull o then VBool false else o) [VBool true; nan]).
Proof.
  apply (final_late_filled zone_utc snapshot_graded
           (frame_of (submissions_df snapshot_graded)));
    vm_compute; reflexivity.
Defined.

(** X17. [pointsEarned_latest] of the submission frame follows
    [pick_latest_points] of the raw [submissionHistory] column row by row: a
    cell is missing exactly where the history yields no grade (None or NaN),
    and when every history yields an integer grade (one that fits 64 bits)
    the column holds these grades.  (An integer grade in a column with a
    missing or fractional one is stored by pandas as a float.) *)
Theorem final_points_from_history : forall local raw df0 df hist,
  submissions_df raw = Ok df0 ->
  submissions_df_final local raw = Ok df ->
  getitem df0 "submissionHistory" = Ok hist ->
  exists points,
    getitem df "pointsEarned_latest" = Ok points
    /\ map isnull points = map (fun h => isnull (pick_latest_points h)) hist
    /\ (Forall (fun h => integer_grade (pick_latest_points h)) hist ->
        points = map pick_latest_points hist).
Proof.
  intros local raw df0 df hist E0 H Hh.
  destruct (submissions_frames _ _ _ H)
    as (df0' & df4 & E0' & -> & R4 & L4 & G & C & T & _ & (hist' & Hh' & Hp)).
  rewrite E0 in E0'. injection E0' as <-.
  rewrite Hh in Hh'. injection Hh' as <-.
  exists (map pick_latest_points hist). split; [|split].
  - rewrite keep_columns_getitem by (cbn; tauto). exact Hp.
  - rewrite map_map. reflexivity.
  - reflexivity.
Qed.

Lemma final_points_from_history_witness :
  (exists points,
     getitem (frame_of (submissions_df_final zone_utc snapshot_graded))
       "pointsEarned_latest" = Ok points
     /\ map isnull points = [false; true])
  /\ getitem (frame_of (submissions_df_final zone_utc snapshot_all_graded))
       "pointsEarned_latest" = Ok [VInt 9; VInt 7].
Proof.
  split.
  - destruct (final_points_from_history zone_utc snapshot_graded
                (frame_of (submissions_df snapshot_graded))
                (frame_of (submissions_df_final zone_utc snapshot_graded))
                [VList [VDict [("gradeHistory", VDict [("pointsEarned", VInt 5)])];
                        VDict [("gradeHistory", VDict [("pointsEarned", VInt 9)])]];
                 VList []])
      as (points & Hg & Hnull & _);
      [vm_compute; reflexivity|vm_compute; reflexivity|vm_compute; reflexivity|].
    exists points. split; [exact Hg|exact Hnull].
  - destruct (final_points_from_history zone_utc snapshot_all_graded
                (frame_of (submissions_df snapshot_all_graded))
                (frame_of (submissions_df_final zone_utc snapshot_all_graded))
                [VList [VDict [("gradeHistory", VDict [("pointsEarned", VInt 5)])];
                        VDict [("gradeHistory", VDict [("pointsEarned", VInt 9)])]];
                 VList [VDict [("gradeHistory", VDict [("pointsEarned", VInt 7)])]]])
      as (points & Hg & _ & Hall);
      [vm_compute; reflexivity|vm_compute; reflexivity|vm_compute; reflexivity|].
    rewrite Hg. f_equal. apply Hall.
    constructor; [exists 9; split; reflexivity|].
    constructor; [exists 7; split; reflexivity|constructor].
Defined.

(** X19. Lines 144 and 145 read the columns [submissionHistory] and [late]
    unguarded: when the frame of lines 88-104 lacks one of them, which
    includes the snapshot without any submission, the submission frame is not
    built. *)
Theorem submissions_need_history_and_late : forall local raw df0,
  submissions_df raw = Ok df0 ->
  contains df0 "submissionHistory" = false \/ contains df0 "late" = false ->
  ~ exists df, submissions_df_final local raw = Ok df.
Proof.
  intros local raw df0 E0 Hc [df H].
  destruct (submissions_frames _ _ _ H)
    as (df0' & df4 & E0' & _ & _ & _ & _ & _ & _ & (late & Hl & _) & (hist & Hh & _)).
  rewrite E0 in E0'. injection E0' as <-.
  assert (Hcount : forall c col, contains df0 c = false -> getitem df0 c <> Ok col).
  { intros c col Hcont Hg. unfold getitem in Hg.
    assert (E : count_label c df0 = 0%nat).
    { apply count_label_In. intros Hin. apply contains_In in Hin. congruence. }
    rewrite E in Hg. discriminate. }
  destruct Hc as [Hc|Hc]; [apply (Hcount _ _ Hc Hh)|apply (Hcount _ _ Hc Hl)].
Qed.

Lemma submissions_need_history_and_late_witness :
  ~ exists df, submissions_df_final zone_utc (VList []) = Ok df.
Proof.
  apply (submissions_need_history_and_late zone_utc (VList []) empty_frame);
    [reflexivity|left; reflexivity].
Defined.

(* ================================================================== *)
(** * Blocks that lack a sub-collection *)

(** X10. One block without the key [students], [teachers] or [assignments],
    or one assignment without the key [submissions], keeps the whole frame of
    that kind from being built, whatever the other blocks hold;
    [errors="ignore"] on line 97 does not cover the record path. *)
Theorem missing_key_fails_snapshot : forall (pre post apre apost : list value)
  (a b : dict),
  (dict_get "students" b = None ->
   ~ exists df, students_df (VList (pre ++ VDict b :: post)) = Ok df)
  /\ (dict_get "teachers" b = None ->
      ~ exists df, teachers_df (VList (pre ++ VDict b :: post)) = Ok df)
  /\ (dict_get "assignments" b = None ->
      ~ (exists df, assignments_df (VList (pre ++ VDict b :: post)) = Ok df)
      /\ ~ (exists df, submissions_df (VList (pre ++ VDict b :: post)) = Ok df))
  /\ (dict_get "submissions" a = None ->
      ~ exists df,
          submissions_df
            (VList (pre ++ VDict (dict_set "assignments"
                                    (VList (apre ++ VDict a :: apost)) b) :: post))
          = Ok df).
Proof.
  intros pre post apre apost a b.
  split; [|split; [|split]].
  - intros Hb [df H]. unfold students_df in H.
    revert H. apply bind_not_ok. intros df0. apply one_level_missing_key, Hb.
  - intros Hb [df H]. unfold teachers_df in H.
    revert H. apply bind_not_ok. intros df0. apply one_level_missing_key, Hb.
  - intros Hb. split.
    + intros [df H]. unfold assignments_df in H.
      revert H. apply bind_not_ok. intros df0. apply one_level_missing_key, Hb.
    + intros [df H]. unfold submissions_df in H.
      revert H. apply bind_not_ok. intros df0 H.
      rewrite json_normalize_app in H. unfold normalize_records in H.
      destruct (recursive_extract _ _ _ _ _ _ _) as [[seen st]| |] eqn:E;
        try discriminate.
      cbn [recursive_extract objects bind] in E.
      revert E. apply foldM_fails_at. intros [seen0 st0] s' Hs.
      cbn [foldM bind List.length Nat.eqb Nat.add] in Hs.
      unfold subscript in Hs. rewrite Hb in Hs. discriminate.
  - intros Ha [df H]. unfold submissions_df in H.
    revert H. apply bind_not_ok. intros df0 H.
    rewrite json_normalize_app in H. unfold normalize_records in H.
    destruct (recursive_extract _ _ _ _ _ _ _) as [[seen st]| |] eqn:E;
      try discriminate.
    cbn [recursive_extract objects bind] in E.
    revert E. apply foldM_fails_at. intros [seen0 st0] s' Hs.
    cbn [foldM bind List.length Nat.eqb Nat.add] in Hs.
    rewrite subscript_set_same in Hs. cbn [bind objects] in Hs.
    revert Hs. apply foldM_fails_at. intros [seen1 st1] s1 Hs.
    unfold pull_records, pull_field_str, subscript in Hs. rewrite Ha in Hs.
    cbn in Hs. discriminate.
Qed.

Lemma missing_key_fails_snapshot_witness :
  ~ exists df,
      teachers_df
        (VList ([VDict [("course_info", sample_course_info);
                        ("teachers", VList [VDict [("userId", VStr "t1")]])]]
                ++ VDict [("course_info", sample_course_info)] :: []))
      = Ok df.
Proof.
  apply (proj1 (proj2 (missing_key_fails_snapshot
                         [VDict [("course_info", sample_course_info);
                                 ("teachers", VList [VDict [("userId", VStr "t1")]])]]
                         [] [] [] [] [("course_info", sample_course_info)]))).
  reflexivity.
Defined.

(* ================================================================== *)
(** * Fields carried from the raw entries *)

Lemma dict_get_del_other : forall k k0 (d : dict),
  String.eqb k k0 = false -> dict_get k (dict_del k0 d) = dict_get k d.
Proof.
  intros k k0 d H. induction d as [|[k1 v1] d IH]; cbn; [reflexivity|].
  destruct (String.eqb k0 k1) eqn:E.
  - apply String.eqb_eq in E. subst. rewrite H. reflexivity.
  - cbn. destruct (String.eqb k k1); [reflexivity|exact IH].
Qed.

Lemma set_fresh_keeps : forall k v k' v' (d d' : dict),
  dict_get k d = Some v -> set_fresh k' v' d = Ok d' -> dict_get k d' = Some v.
Proof.
  intros k v k' v' d d' Hk H. unfold set_fresh in H.
  destruct (dict_in k' d); [discriminate|]. injection H as <-.
  revert Hk. clear. induction d as [|[k1 v1] d IH]; cbn; [discriminate|].
  destruct (String.eqb k k1); [auto|exact IH].
Qed.

Lemma update_fresh_keeps : forall k v (sub d d' : dict),
  dict_get k d = Some v -> update_fresh d sub = Ok d' -> dict_get k d' = Some v.
Proof.
  intros k v sub. unfold update_fresh.
  induction sub as [|[k1 v1] sub IH]; intros d d' Hk H; cbn in H.
  - injection H as <-. exact Hk.
  - destruct (set_fresh k1 v1 d) as [d1| |] eqn:E; try discriminate.
    cbn [bind] in H. apply (IH d1 d'); [|exact H].
    apply (set_fresh_keeps _ _ _ _ _ _ Hk E).
Qed.

Lemma dict_get_In : forall k (d : dict) v, dict_get k d = Some v -> In (k, v) d.
Proof.
  intros k d v. induction d as [|[k1 v1] d IH]; cbn; [discriminate|].
  destruct (String.eqb k k1) eqn:E.
  - intros H. injection H as <-. apply String.eqb_eq in E. subst. auto.
  - auto.
Qed.

Lemma NoDup_keys_unique : forall (d : dict) k v v',
  NoDup (map fst d) -> In (k, v) d -> In (k, v') d -> v = v'.
Proof.
  induction d as [|[k1 v1] d IH]; intros k v v' Hnd H1 H2; [contradiction|].
  cbn in Hnd. inversion Hnd as [|? ? Hk Hnd']; subst.
  destruct H1 as [H1|H1], H2 as [H2|H2].
  - congruence.
  - injection H1 as -> ->. exfalso. apply Hk. apply in_map_iff.
    exists (k, v'). auto.
  - injection H2 as -> ->. exfalso. apply Hk. apply in_map_iff.
    exists (k, v). auto.
  - apply (IH k v v' Hnd' H1 H2).
Qed.

(** Flattening a record leaves a top-level entry that is no dict as it is. *)
Lemma nested_to_record_keeps : forall (d d' : dict) k v,
  NoDup (map fst d) ->
  dict_get k d = Some v ->
  is_dict v = false ->
  nested_to_record "" 0 (VDict d) = Ok d' ->
  dict_get k d' = Some v.
Proof.
  intros d d' k v Hnd Hk Hv H. cbn [nested_to_record] in H.
  assert (Htodo : forall k0 v0, In (k0, v0) d -> k0 = k -> is_dict v0 = false).
  { intros k0 v0 Hin ->. apply dict_get_In in Hk.
    rewrite (NoDup_keys_unique d k v0 v Hnd Hin Hk). exact Hv. }
  clear Hnd Hv. revert H Hk Htodo.
  generalize d at 2 3 as new_d. generalize d as todo.
  induction todo as [|[k0 v0] todo IH]; intros new_d H Hnew Htodo.
  - injection H as <-. exact Hnew.
  - assert (Htodo' : forall k1 v1, In (k1, v1) todo -> k1 = k -> is_dict v1 = false)
      by (intros k1 v1 Hin; apply Htodo; right; exact Hin).
    cbn [Nat.eqb] in H.
    destruct v0 as [| | | | | |d0|]; try (apply (IH new_d H Hnew Htodo')).
    destruct (String.eqb k k0) eqn:Ek.
    { apply String.eqb_eq in Ek. subst k0.
      specialize (Htodo k (VDict d0) (or_introl eq_refl) eq_refl). discriminate. }
    match type of H with
    | bind ?m _ = Ok _ => destruct m as [sub| |] eqn:Esub; try discriminate
    end.
    cbn [bind] in H.
    match type of H with
    | bind ?m _ = Ok _ => destruct m as [nd| |] eqn:E; try discriminate
    end.
    cbn [bind] in H. apply (IH nd H); [|exact Htodo'].
    apply (update_fresh_keeps k v sub (dict_del k0 new_d) nd); [|exact E].
    rewrite dict_get_del_other by exact Ek. exact Hnew.
Qed.

Lemma flatten_carried : forall k recs vals flats,
  Forall2 (carries k) recs vals ->
  mapM flatten_record recs = Ok flats ->
  exists ds, as_dicts flats = Some ds
             /\ map (fun d => cell d k) ds = vals
             /\ forall d, In d ds -> dict_get k d <> None.
Proof.
  intros k recs vals flats HF. revert flats.
  induction HF as [|rec v recs vals (d & -> & Hnd & Hk & Hv) HF IH];
    intros flats H; cbn [mapM] in H.
  - injection H as <-. exists []. repeat split. intros d [].
  - unfold flatten_record at 1 in H. cbn [is_dict] in H.
    destruct (nested_to_record "" 0 (VDict d)) as [d'| |] eqn:E; try discriminate.
    cbn [bind] in H.
    destruct (mapM flatten_record recs) as [flats'| |] eqn:E'; try discriminate.
    cbn [bind] in H. injection H as <-.
    destruct (IH flats' eq_refl) as (ds & Hds & Hvals & Hall).
    pose proof (nested_to_record_keeps d d' k v Hnd Hk Hv E) as Hd'.
    exists (d' :: ds). cbn [as_dicts]. rewrite Hds. split; [reflexivity|]. split.
    + cbn [map]. rewrite Hvals. unfold cell. rewrite Hd'. reflexivity.
    + intros x [<-|Hx]; [congruence|apply Hall, Hx].
Qed.

Lemma union_step_spec : forall (d : dict) cols,
  NoDup cols ->
  let cols' := fold_left
                 (fun cols kv =>
                    if existsb (String.eqb (fst kv)) cols then cols
                    else cols ++ [fst kv]) d cols in
  NoDup cols' /\ incl cols cols' /\ incl (map fst d) cols'.
Proof.
  induction d as [|[k v] d IH]; intros cols Hnd; cbn [fold_left fst].
  - split; [exact Hnd|]. split; [apply incl_refl|intros x []].
  - destruct (existsb (String.eqb k) cols) eqn:E.
    + destruct (IH cols Hnd) as (H1 & H2 & H3). split; [exact H1|].
      split; [exact H2|]. intros x [<-|Hx]; [|apply H3, Hx].
      apply H2. apply existsb_exists in E. destruct E as (y & Hy & Ey).
      apply String.eqb_eq in Ey. subst. exact Hy.
    + assert (Hnd' : NoDup (cols ++ [k])).
      { apply NoDup_app; [exact Hnd|repeat constructor; intros []|].
        intros x Hx [Hk|[]]. subst x.
        assert (existsb (String.eqb k) cols = true)
          by (apply existsb_exists; exists k; split; [exact Hx|apply String.eqb_refl]).
        congruence. }
      destruct (IH (cols ++ [k]) Hnd') as (H1 & H2 & H3). split; [exact H1|].
      split.
      * intros x Hx. apply H2, in_or_app. left. exact Hx.
      * intros x [<-|Hx]; [|apply H3, Hx]. apply H2, in_or_app. right. left.
        reflexivity.
Qed.

Lemma union_keys_spec : forall ds,
  NoDup (union_keys ds)
  /\ forall (d : dict) k, In d ds -> In k (map fst d) -> In k (union_keys ds).
Proof.
  intros ds. unfold union_keys.
  assert (H : forall cols, NoDup cols ->
            let cols' := fold_left
              (fun cols d =>
                 fold_left
                   (fun cols kv =>
                      if existsb (String.eqb (fst kv)) cols then cols
                      else cols ++ [fst kv]) d cols) ds cols in
            NoDup cols' /\ incl cols cols'
            /\ forall (d : dict) k, In d ds -> In k (map fst d) -> In k cols').
  { induction ds as [|d ds IH]; intros cols Hnd; cbn [fold_left].
    - split; [exact Hnd|]. split; [apply incl_refl|intros d k []].
    - destruct (union_step_spec d cols Hnd) as (H1 & H2 & H3).
      destruct (IH _ H1) as (H4 & H5 & H6). split; [exact H4|]. split.
      + intros x Hx. apply H5, H2, Hx.
      + intros d' k [<-|Hd'] Hk; [apply H5, H3, Hk|apply (H6 d' k Hd' Hk)]. }
  destruct (H [] (NoDup_nil _)) as (H1 & _ & H3). split; assumption.
Qed.

Lemma NoDup_count_one : forall (k : string) cols,
  NoDup cols -> In k cols -> List.length (filter (String.eqb k) cols) = 1%nat.
Proof.
  intros k cols Hnd. induction Hnd as [|c cols Hc Hnd IH]; intros Hin;
    [contradiction|]. cbn.
  destruct (String.eqb k c) eqn:E.
  - apply String.eqb_eq in E. subst c. cbn. f_equal.
    assert (H0 : filter (String.eqb k) cols = []).
    { clear - Hc. induction cols as [|c0 cols IH]; [reflexivity|]. cbn.
      destruct (String.eqb k c0) eqn:E.
      - apply String.eqb_eq in E. subst. exfalso. apply Hc. left. reflexivity.
      - apply IH. intros H. apply Hc. right. exact H. }
    rewrite H0. reflexivity.
  - apply IH. destruct Hin as [->|Hin]; [|exact Hin].
    rewrite String.eqb_refl in E. discriminate.
Qed.

Lemma index_of_In : forall (k : string) cols,
  In k cols -> exists i, index_of k cols = Some i.
Proof.
  intros k cols. induction cols as [|c cols IH]; intros Hin; [contradiction|].
  cbn. destruct (String.eqb k c) eqn:E; [eexists; reflexivity|].
  destruct IH as [i Hi].
  - destruct Hin as [->|Hin]; [|exact Hin]. rewrite String.eqb_refl in E.
    discriminate.
  - rewrite Hi. eexists. reflexivity.
Qed.

Lemma dict_get_keys : forall k (d : dict) v,
  dict_get k d = Some v -> In k (map fst d).
Proof.
  intros k d v H. apply dict_get_In in H. apply in_map_iff. exists (k, v). auto.
Qed.

(** A column of [DataFrame(records)] that every record has. *)
Lemma DataFrame_of_records_column : forall flats ds df k,
  as_dicts flats = Some ds ->
  DataFrame_of_records flats = Ok df ->
  ds <> [] ->
  (forall d, In d ds -> dict_get k d <> None) ->
  getitem df k = Ok (map (fun d => cell d k) ds).
Proof.
  intros flats ds df k Hds H Hne Hall. unfold DataFrame_of_records in H.
  rewrite Hds in H. injection H as <-.
  destruct (union_keys_spec ds) as [Hnd Hin].
  assert (Hk : In k (union_keys ds)).
  { destruct ds as [|d ds']; [contradiction|].
    destruct (dict_get k d) as [v|] eqn:E;
      [|exfalso; apply (Hall d); [left; reflexivity|exact E]].
    apply (Hin d k); [left; reflexivity|apply (dict_get_keys _ _ _ E)]. }
  unfold getitem, count_label. cbn [columns rows].
  rewrite (NoDup_count_one k _ Hnd Hk).
  destruct (index_of_In k _ Hk) as [i Hi]. rewrite Hi.
  f_equal. rewrite map_map. apply map_ext. intros d.
  destruct (index_of_spec _ _ _ Hi) as [Hnth _].
  apply nth_error_nth. rewrite nth_error_map, Hnth. reflexivity.
Qed.

Lemma rename_getitem_other : forall mapping df k,
  (forall kv, In kv mapping -> fst kv <> k /\ snd kv <> k) ->
  getitem (rename mapping df) k = getitem df k.
Proof.
  intros mapping df k Hm. unfold getitem, count_label, rename. cbn [columns rows].
  set (new := fun c : string =>
                match List.find (fun kv => String.eqb c (fst kv)) mapping with
                | Some kv => snd kv
                | None => c
                end).
  assert (Hnew : forall c, String.eqb k (new c) = String.eqb k c).
  { intros c. subst new. cbn beta.
    destruct (List.find (fun kv => String.eqb c (fst kv)) mapping) as [kv|] eqn:E;
      [|reflexivity].
    apply find_some in E. destruct E as [Hin Ec]. apply String.eqb_eq in Ec.
    destruct (Hm kv Hin) as [H1 H2].
    rewrite (neq_eqb k (snd kv)) by congruence.
    rewrite (neq_eqb k c) by congruence. reflexivity. }
  assert (Hf : forall cols, List.length (filter (String.eqb k) (map new cols))
                            = List.length (filter (String.eqb k) cols)).
  { induction cols as [|c cols IH]; [reflexivity|]. cbn. rewrite Hnew.
    destruct (String.eqb k c); cbn; rewrite IH; reflexivity. }
  assert (Hi : forall cols, index_of k (map new cols) = index_of k cols).
  { induction cols as [|c cols IH]; [reflexivity|]. cbn. rewrite Hnew, IH.
    reflexivity. }
  rewrite Hf, Hi. reflexivity.
Qed.

Lemma dict_of_pairs_skip : forall (k : string) qs (a : dict),
  ~ In k (map fst qs) ->
  dict_get k (fold_left (fun d p => dict_set (fst p) (snd p) d) qs a)
  = dict_get k a.
Proof.
  intros k. induction qs as [|[k1 v1] qs IH]; intros a Hq; cbn in *; [reflexivity|].
  rewrite IH by tauto. apply dict_get_set_other.
  apply String.eqb_neq. intros ->. apply Hq. left. reflexivity.
Qed.

Lemma dict_of_row_unique : forall k cols (r : list value) i (acc : dict),
  List.length r = List.length cols ->
  index_of k cols = Some i ->
  List.length (filter (String.eqb k) cols) = 1%nat ->
  dict_get k (fold_left (fun d p => dict_set (fst p) (snd p) d) (combine cols r) acc)
  = Some (nth i r nan).
Proof.
  intros k cols. induction cols as [|c cols IH]; intros r i acc Hl Hi Hc;
    [discriminate|].
  destruct r as [|x r]; [discriminate|]. cbn in Hi, Hc. cbn [combine fold_left fst snd].
  destruct (String.eqb k c) eqn:E.
  - injection Hi as <-. apply String.eqb_eq in E. subst c. cbn [nth].
    rewrite dict_of_pairs_skip; [apply dict_get_set_same|].
    intros Hin. apply in_map_iff in Hin. destruct Hin as ([a b] & Ha & Hab).
    cbn in Ha. subst a. apply in_combine_l in Hab.
    cbn in Hc.
    assert (Hin : In k (filter (String.eqb k) cols))
      by (apply filter_In; split; [exact Hab|apply String.eqb_refl]).
    destruct (filter (String.eqb k) cols); [contradiction|discriminate].
  - destruct (index_of k cols) as [j|] eqn:Ej; [|discriminate].
    injection Hi as <-. cbn [nth]. apply IH; [injection Hl; auto|reflexivity|exact Hc].
Qed.

(** The values the emitted records have under the label of a column. *)
Lemma field_of_column : forall df k col,
  rectangular df ->
  getitem df k = Ok col ->
  field k (df_to_docs df) = map (fun v => Some (none_for_nan v)) col.
Proof.
  intros df k col Hrect Hg. unfold getitem in Hg.
  destruct (count_label k df) as [|[|n]] eqn:Ec; try discriminate.
  destruct (index_of k (columns df)) as [i|] eqn:Ei; [|discriminate].
  injection Hg as <-.
  unfold df_to_docs, empty.
  destruct (columns df) as [|c0 cs] eqn:Ecols; [discriminate|].
  destruct (rows df) as [|r0 rs] eqn:Erows; [reflexivity|].
  rewrite <- Ecols, <- Erows in *. clear c0 cs Ecols r0 rs Erows.
  unfold field, to_dict_records, replace_nan. cbn [columns rows].
  rewrite !map_map. apply map_ext_in. intros r Hr.
  unfold dict_of_pairs.
  unfold rectangular in Hrect. rewrite Forall_forall in Hrect.
  change (map _ r) with (map none_for_nan r).
  rewrite (dict_of_row_unique k (columns df) (map none_for_nan r) i []);
    [|rewrite length_map; apply Hrect, Hr|exact Ei|exact Ec].
  f_equal. destruct (index_of_spec _ _ _ Ei) as [_ Hi].
  rewrite <- (Hrect r Hr) in Hi.
  destruct (nth_error r i) as [x|] eqn:Ex.
  - rewrite (nth_error_nth _ _ nan Ex).
    apply nth_error_nth. rewrite nth_error_map, Ex. reflexivity.
  - apply nth_error_None in Ex. lia.
Qed.

Lemma mapM_app : forall (A B : Type) (f : A -> outcome B) xs xs' ys ys',
  mapM f xs = Ok ys -> mapM f xs' = Ok ys' -> mapM f (xs ++ xs') = Ok (ys ++ ys').
Proof.
  intros A B f xs. induction xs as [|x xs IH]; intros xs' ys ys' H H'; cbn in *.
  - injection H as <-. exact H'.
  - destruct (f x) as [y| |]; try discriminate. cbn [bind] in *.
    destruct (mapM f xs) as [ys0| |] eqn:E; try discriminate. cbn [bind] in H.
    injection H as <-. rewrite (IH xs' ys0 ys' eq_refl H'). reflexivity.
Qed.

(** The extraction over the blocks, for a record path of one level and the
    meta path [course_info.id]: the records are the flattened entries of the
    blocks, block after block. *)
Lemma extract_one_level_records : forall errors p blocks seen st seen' st',
  recursive_extract errors [["course_info"; "id"]] [p] (VList blocks) seen 0 st
    = Ok (seen', st') ->
  exists (parts : list (value * list value)) (per_block : list (list value)),
    Forall2 (fun blk recs => pull_records errors blk p = Ok recs) blocks per_block
    /\ List.length parts = List.length blocks
    /\ mapM flatten_record (List.concat per_block) = Ok (flat_map snd parts)
    /\ records st' = records st ++ flat_map snd parts
    /\ lengths st' = lengths st ++ map (fun part => List.length (snd part)) parts
    /\ meta_vals st'
       = fold_left (fun mv part => meta_append "course_info.id" (fst part) mv)
           parts (meta_vals st).
Proof.
  intros errors p blocks seen st seen' st' H.
  cbn [recursive_extract objects bind] in H.
  revert seen st H. induction blocks as [|blk blocks IH]; intros seen st H.
  - cbn [foldM] in H. injection H as <- <-. exists [], [].
    split; [constructor|]. cbn. rewrite !app_nil_r. auto.
  - cbn [foldM] in H.
    destruct (pull_records errors blk p) as [recs| |] eqn:Er; try discriminate.
    cbn [bind] in H.
    destruct (mapM flatten_record recs) as [recs'| |] eqn:Ef; try discriminate.
    cbn [bind foldM join List.length Nat.ltb Nat.leb Nat.add skipn] in H.
    destruct (pull_field errors blk ["course_info"; "id"]) as [cid| |] eqn:Ec;
      try discriminate.
    cbn [bind] in H.
    destruct (IH _ _ H) as (parts & per_block & HF & Hn & Hfl & Hr & Hl & Hm).
    cbn [records lengths meta_vals] in Hr, Hl, Hm.
    exists ((cid, recs') :: parts), (recs :: per_block).
    split; [constructor; assumption|]. split; [cbn; rewrite Hn; reflexivity|].
    split; [|split; [|split]].
    + cbn [List.concat flat_map snd]. apply mapM_app; assumption.
    + rewrite Hr. cbn [flat_map snd]. rewrite app_assoc. reflexivity.
    + rewrite Hl. cbn [map snd]. rewrite <- app_assoc. reflexivity.
    + rewrite Hm. reflexivity.
Qed.

Lemma Forall2_functional : forall (A B : Type) (f : A -> outcome B) xs ys ys',
  Forall2 (fun x y => f x = Ok y) xs ys ->
  Forall2 (fun x y => f x = Ok y) xs ys' -> ys = ys'.
Proof.
  intros A B f xs ys ys' H. revert ys'.
  induction H as [|x y xs ys Hx H IH]; intros ys' H'; inversion H'; subst;
    [reflexivity|].
  f_equal; [congruence|apply IH; assumption].
Qed.

Lemma df_to_docs_no_rows : forall df, rows df = [] -> df_to_docs df = [].
Proof.
  intros df H. unfold df_to_docs, empty, to_dict_records, replace_nan.
  cbn [rows]. rewrite H. destruct (columns df); reflexivity.
Qed.

Lemma one_level_carried : forall p mapping blocks df per_block k vals,
  (forall kv, In kv mapping -> fst kv <> k /\ snd kv <> k) ->
  k <> "course_info.id" ->
  (df0 <- json_normalize (VList blocks) [p] [["course_info"; "id"]] errors_raise ;;
   Ok (rename mapping df0)) = Ok df ->
  Forall2 (fun blk recs => pull_records errors_raise blk p = Ok recs)
    blocks per_block ->
  Forall2 (carries k) (List.concat per_block) vals ->
  field k (df_to_docs df) = map (fun v => Some (none_for_nan v)) vals.
Proof.
  intros p mapping blocks df per_block k vals Hmap Hk H HP HC.
  destruct blocks as [|b bs].
  { cbn in H. injection H as <-. inversion HP; subst. inversion HC; subst.
    reflexivity. }
  change (json_normalize (VList (b :: bs)) [p] [["course_info"; "id"]] errors_raise)
    with (normalize_records (VList (b :: bs)) [p] [["course_info"; "id"]]
            errors_raise) in H.
  unfold normalize_records in H.
  destruct (recursive_extract _ _ _ _ _ _ _) as [[seen st]| |] eqn:E;
    try discriminate.
  cbn [bind] in H.
  destruct (extract_one_level_records _ _ _ _ _ _ _ E)
    as (parts & per_block' & HP' & Hn & Hfl & Hr & Hl & Hm).
  cbn [records lengths meta_vals app] in Hr, Hl, Hm.
  rewrite (Forall2_functional _ _ _ _ _ _ HP' HP) in Hfl. clear HP' per_block'.
  assert (Hne : parts <> []) by (intros ->; discriminate Hn).
  rewrite (meta_vals_of_parts parts Hne) in Hm.
  destruct (DataFrame_of_records (records st)) as [df0| |] eqn:E0;
    try discriminate.
  cbn [bind] in H. rewrite Hm in H. cbn [foldM fst snd bind] in H.
  destruct (contains df0 "course_info.id") eqn:Econt; [discriminate|].
  cbn [bind] in H. injection H as <-.
  destruct (DataFrame_of_records_shape _ _ E0) as [Hrect Hlen].
  rewrite Hl, repeat_each_parts.
  set (ids := flat_map (fun part => repeat (fst part) (List.length (snd part))) parts).
  assert (Hids : List.length ids = List.length (rows df0)).
  { subst ids. rewrite Hlen, Hr. apply length_vals_of_parts. }
  assert (Hset : setitem df0 "course_info.id" ids
                 = Ok (append_column df0 "course_info.id" ids)).
  { unfold setitem.
    assert (E1 : count_label "course_info.id" df0 = 0%nat).
    { apply count_label_In. intros Hin. apply contains_In in Hin. congruence. }
    rewrite E1. reflexivity. }
  destruct (setitem_sets_column df0 _ ids _ Hrect Hids Hset)
    as [(R1 & L1 & G1 & C1) _].
  rewrite Hr in E0.
  destruct (flatten_carried k _ _ _ HC Hfl) as (ds & Hds & Hvals & Hall).
  destruct ds as [|d0 ds0] eqn:Eds.
  - (* no record at all *)
    cbn in Hvals. subst vals. cbn [map].
    assert (Hrows : rows df0 = []).
    { assert (Hflat : flat_map snd parts = []).
      { destruct (flat_map snd parts) as [|x xs]; [reflexivity|]. cbn in Hds.
        destruct x; try discriminate. destruct (as_dicts xs); discriminate. }
      rewrite Hr, Hflat in Hlen. destruct (rows df0); [reflexivity|discriminate]. }
    assert (Hnil : rows (rename mapping (append_column df0 "course_info.id" ids)) = []).
    { unfold rename. cbn [rows].
      destruct (rows (append_column df0 "course_info.id" ids)) eqn:Er1;
        [reflexivity|].
      rewrite Hrows in L1. discriminate. }
    rewrite df_to_docs_no_rows by exact Hnil. reflexivity.
  - rewrite <- Eds in *.
    assert (Hd : ds <> []) by (rewrite Eds; discriminate).
    pose proof (DataFrame_of_records_column _ ds df0 k Hds E0 Hd Hall) as Hg.
    rewrite Hvals in Hg.
    apply field_of_column.
    + apply rectangular_rename, R1.
    + rewrite rename_getitem_other by exact Hmap.
      rewrite G1 by exact Hk. exact Hg.
Qed.

Lemma map_none_for_nan_str : forall vals,
  Forall (fun v => is_str v = true) vals ->
  map (fun v => Some (none_for_nan v)) vals = map Some vals.
Proof.
  intros vals H. induction H as [|v vals Hv H IH]; [reflexivity|].
  cbn [map]. rewrite IH. destruct v; try discriminate. reflexivity.
Qed.

(** X9. A top-level field of the raw student, teacher or assignment entries
    that every entry has with a string as its value (an id, a name, a title,
    a state) is emitted unchanged, entry by entry in input order; for fields
    other than the renamed ones. *)
Theorem roster_field_carried : forall p blocks df per_block k vals,
  (p = "students" /\ students_df (VList blocks) = Ok df)
  \/ (p = "teachers" /\ teachers_df (VList blocks) = Ok df)
  \/ (p = "assignments" /\ assignments_df (VList blocks) = Ok df
      /\ k <> "id" /\ k <> "assignmentId") ->
  k <> "courseId" ->
  k <> "course_info.id" ->
  Forall2 (fun blk recs => pull_records errors_raise blk p = Ok recs)
    blocks per_block ->
  Forall2 (carries k) (List.concat per_block) vals ->
  Forall (fun v => is_str v = true) vals ->
  field k (df_to_docs df) = map Some vals.
Proof.
  intros p blocks df per_block k vals Hp Hk1 Hk2 HP HC Hstr.
  rewrite <- (map_none_for_nan_str vals Hstr).
  destruct Hp as [[-> H]|[[-> H]|(-> & H & Hk3 & Hk4)]].
  - apply (one_level_carried "students" [("course_info.id", "courseId")]
             blocks df per_block k vals); try assumption.
    intros kv [<-|[]]. cbn. split; congruence.
  - apply (one_level_carried "teachers" [("course_info.id", "courseId")]
             blocks df per_block k vals); try assumption.
    intros kv [<-|[]]. cbn. split; congruence.
  - apply (one_level_carried "assignments"
             [("course_info.id", "courseId"); ("id", "assignmentId")]
             blocks df per_block k vals); try assumption.
    intros kv [<-|[<-|[]]]; cbn; split; congruence.
Qed.

Lemma roster_field_carried_witness :
  field "userId" (df_to_docs (frame_of (students_df sample_snapshot)))
  = map Some [VStr "u1"; VStr "u2"].
Proof.
  apply (roster_field_carried "students"
           (match sample_snapshot with VList l => l | _ => [] end)
           (frame_of (students_df sample_snapshot))
           [[VDict [("userId", VStr "u1")]; VDict [("userId", VStr "u2")]]]
           "userId" [VStr "u1"; VStr "u2"]).
  - left. split; [reflexivity|vm_compute; reflexivity].
  - discriminate.
  - discriminate.
  - repeat constructor.
  - constructor; [|constructor; [|constructor]].
    + exists [("userId", VStr "u1")]. repeat split.
      repeat constructor. intros [].
    + exists [("userId", VStr "u2")]. repeat split.
      repeat constructor. intros [].
  - repeat constructor.
Defined.

(* ================================================================== *)
(** * The due dates, for every snapshot *)

Lemma distinct_NoDup : forall l, distinct l = true -> NoDup l.
Proof.
  induction l as [|x l IH]; intros H; [constructor|]. cbn in H.
  apply andb_true_iff in H. destruct H as [H1 H2]. constructor; [|apply IH, H2].
  intros Hin. apply negb_true_iff in H1.
  assert (existsb (String.eqb x) l = true)
    by (apply existsb_exists; exists x; split; [exact Hin|apply String.eqb_refl]).
  congruence.
Qed.

Lemma well_formed_dict : forall d,
  well_formed (VDict d) = true ->
  NoDup (map fst d) /\ Forall (fun kv => well_formed (snd kv) = true) d.
Proof.
  intros d H. cbn in H. apply andb_true_iff in H. destruct H as [H1 H2].
  split; [apply distinct_NoDup, H1|]. apply Forall_forall.
  rewrite forallb_forall in H2. exact H2.
Qed.

Lemma well_formed_list : forall l,
  well_formed (VList l) = true -> Forall (fun v => well_formed v = true) l.
Proof.
  intros l H. cbn in H. apply Forall_forall. rewrite forallb_forall in H. exact H.
Qed.

Lemma dict_del_spec : forall k (d : dict),
  NoDup (map fst d) ->
  NoDup (map fst (dict_del k d))
  /\ forall k' v', In (k', v') (dict_del k d) -> In (k', v') d /\ k' <> k.
Proof.
  intros k d. induction d as [|[k0 v0] d IH]; intros Hnd; cbn.
  - split; [constructor|intros k' v' []].
  - cbn in Hnd. inversion Hnd as [|? ? Hk0 Hnd']; subst.
    destruct (String.eqb k k0) eqn:E.
    + apply String.eqb_eq in E. subst k0. split; [exact Hnd'|].
      intros k' v' Hin. split; [right; exact Hin|].
      intros ->. apply Hk0. apply in_map_iff. exists (k, v'). auto.
    + destruct (IH Hnd') as [H1 H2]. split.
      * cbn. constructor; [|exact H1]. intros Hin. apply Hk0.
        apply in_map_iff in Hin. destruct Hin as ([a b] & Ha & Hab). cbn in Ha.
        subst a. apply in_map_iff. exists (k0, b). split; [reflexivity|].
        apply (H2 k0 b Hab).
      * intros k' v' [Hin|Hin].
        -- injection Hin as <- <-. split; [left; reflexivity|].
           intros ->. rewrite String.eqb_refl in E. discriminate.
        -- destruct (H2 k' v' Hin) as [H3 H4]. split; [right; exact H3|exact H4].
Qed.

Lemma dict_get_None_keys : forall k (d : dict),
  dict_get k d = None -> ~ In k (map fst d).
Proof.
  intros k d. induction d as [|[k0 v0] d IH]; cbn; [tauto|].
  destruct (String.eqb k k0) eqn:E; [discriminate|].
  intros H [H'|H']; [subst; rewrite String.eqb_refl in E; discriminate|].
  apply (IH H H').
Qed.

Lemma set_fresh_spec : forall k v (d d' : dict),
  set_fresh k v d = Ok d' ->
  d' = d ++ [(k, v)] /\ ~ In k (map fst d).
Proof.
  intros k v d d' H. unfold set_fresh, dict_in in H.
  destruct (dict_get k d) eqn:E; [discriminate|]. injection H as <-.
  split; [reflexivity|apply dict_get_None_keys, E].
Qed.

Lemma NoDup_keys_snoc : forall (d : dict) k v,
  NoDup (map fst d) -> ~ In k (map fst d) -> NoDup (map fst (d ++ [(k, v)])).
Proof.
  intros d k v Hnd Hk. rewrite map_app. cbn.
  apply NoDup_app; [exact Hnd|repeat constructor; intros []|].
  intros x Hx [<-|[]]. contradiction.
Qed.

(** What the loop of [nested_to_record] keeps true of [new_d]: distinct keys,
    and every entry is flat already or still waits in [todo]. *)
Lemma update_fresh_pending : forall (todo : list (string * value)) (sub d d' : dict),
  flat_dict sub ->
  NoDup (map fst d) ->
  (forall k v, In (k, v) d -> is_dict v = false \/ In (k, v) todo) ->
  update_fresh d sub = Ok d' ->
  NoDup (map fst d')
  /\ (forall k v, In (k, v) d' -> is_dict v = false \/ In (k, v) todo).
Proof.
  intros todo sub. unfold update_fresh.
  induction sub as [|[k1 v1] sub IH]; intros d d' Hsub Hnd Hd H; cbn in H.
  - injection H as <-. split; assumption.
  - inversion Hsub as [|? ? Hv1 Hsub']; subst. cbn [snd] in Hv1.
    destruct (set_fresh k1 v1 d) as [d1| |] eqn:E; try discriminate.
    cbn [bind] in H. destruct (set_fresh_spec _ _ _ _ E) as [-> Hk1].
    apply (IH (d ++ [(k1, v1)]) d' Hsub'); [| |exact H].
    + apply NoDup_keys_snoc; assumption.
    + intros k v Hin. apply in_app_or in Hin. destruct Hin as [Hin|[Hin|[]]].
      * apply Hd, Hin.
      * injection Hin as <- <-. left. exact Hv1.
Qed.

Lemma nested_to_record_flat : forall v prefix level d',
  well_formed v = true ->
  nested_to_record prefix level v = Ok d' -> flat_dict d'.
Proof.
  induction v as [| | | | |l IHl|d IHd|] using value_nested_ind;
    intros prefix level d' Hwf H; try discriminate.
  cbn [nested_to_record] in H.
  destruct (well_formed_dict d Hwf) as [Hnd Hall].
  assert (Hinv : NoDup (map fst d)
                 /\ forall k v, In (k, v) d -> is_dict v = false \/ In (k, v) d)
    by (split; [exact Hnd|auto]).
  clear Hwf Hnd. revert H Hinv.
  generalize d at 2 3 4 as new_d. revert IHd Hall. generalize d as todo.
  induction todo as [|[k v] todo IHtodo]; intros IHd Hall new_d H [Hnd Hpend].
  - injection H as <-. apply Forall_forall. intros [k v] Hin. cbn.
    destruct (Hpend k v Hin) as [Hf|[]]. exact Hf.
  - inversion IHd as [|? ? IHv IHrest]; subst.
    inversion Hall as [|? ? Hwv Hwrest]; subst. cbn [snd] in IHv, Hwv.
    destruct (dict_del_spec k new_d Hnd) as [Hnd_del Hdel].
    assert (Hpend_del : forall k' v', In (k', v') (dict_del k new_d) ->
                          is_dict v' = false \/ In (k', v') todo).
    { intros k' v' Hin. destruct (Hdel k' v' Hin) as [Hin' Hne].
      destruct (Hpend k' v' Hin') as [Hf|[Heq|Ht]]; [left; exact Hf| |right; exact Ht].
      injection Heq as -> _. contradiction. }
    destruct v as [| | | | | |d0|];
      try (destruct (level =? 0)%nat;
           [apply (IHtodo IHrest Hwrest new_d H); split; [exact Hnd|];
            intros k' v' Hin; destruct (Hpend k' v' Hin) as [Hf|[Heq|Ht]];
            [left; exact Hf|injection Heq as <- <-; left; reflexivity|right; exact Ht]
           |];
           match type of H with
           | bind ?m _ = Ok _ => destruct m as [nd| |] eqn:E; try discriminate
           end;
           cbn [bind] in H;
           destruct (set_fresh_spec _ _ _ _ E) as [-> Hfresh];
           apply (IHtodo IHrest Hwrest _ H); split;
           [apply NoDup_keys_snoc; assumption|];
           intros k' v' Hin; apply in_app_or in Hin;
           destruct Hin as [Hin|[Hin|[]]];
           [apply Hpend_del, Hin|injection Hin as <- <-; left; reflexivity]).
    match type of H with
    | bind ?m _ = Ok _ => destruct m as [sub| |] eqn:Esub; try discriminate
    end.
    cbn [bind] in H.
    match type of H with
    | bind ?m _ = Ok _ => destruct m as [nd| |] eqn:E; try discriminate
    end.
    cbn [bind] in H.
    apply (IHtodo IHrest Hwrest nd H).
    apply (update_fresh_pending todo sub (dict_del k new_d) nd); try assumption.
    apply (IHv _ _ _ Hwv Esub).
Qed.

Lemma well_formed_dict_get : forall k (d : dict) v,
  well_formed (VDict d) = true -> dict_get k d = Some v -> well_formed v = true.
Proof.
  intros k d v Hwf Hk. destruct (well_formed_dict d Hwf) as [_ Hall].
  rewrite Forall_forall in Hall. apply (Hall (k, v)). apply dict_get_In, Hk.
Qed.

Lemma pull_records_well_formed : forall errors blk p recs,
  well_formed blk = true ->
  pull_records errors blk p = Ok recs ->
  Forall (fun v => well_formed v = true) recs.
Proof.
  intros errors blk p recs Hwf H. unfold pull_records, pull_field_str in H.
  destruct blk; try discriminate. cbn [subscript] in H.
  destruct (dict_get p d) as [v|] eqn:E; [|discriminate].
  cbn [on_key_error bind] in H.
  pose proof (well_formed_dict_get _ _ _ Hwf E) as Hv.
  destruct v; cbn in H; try discriminate; try (injection H as <-; constructor).
  - destruct f; try discriminate. injection H as <-. constructor.
  - injection H as <-. apply well_formed_list, Hv.
Qed.

Lemma flatten_records_flat : forall recs flats ds,
  Forall (fun v => well_formed v = true) recs ->
  mapM flatten_record recs = Ok flats ->
  as_dicts flats = Some ds ->
  Forall flat_dict ds.
Proof.
  intros recs flats ds Hwf. revert flats ds.
  induction Hwf as [|r recs Hr Hwf IH]; intros flats ds H Hds; cbn [mapM] in H.
  - injection H as <-. injection Hds as <-. constructor.
  - destruct (flatten_record r) as [f| |] eqn:E; try discriminate. cbn [bind] in H.
    destruct (mapM flatten_record recs) as [flats'| |] eqn:E'; try discriminate.
    cbn [bind] in H. injection H as <-. cbn [as_dicts] in Hds.
    destruct f as [| | | | | |d|]; try discriminate.
    destruct (as_dicts flats') as [ds'|] eqn:Eds; [|discriminate].
    injection Hds as <-. constructor; [|apply (IH flats' ds' eq_refl Eds)].
    unfold flatten_record in E. destruct (is_dict r) eqn:Er.
    + destruct (nested_to_record "" 0 r) as [d'| |] eqn:En; try discriminate.
      cbn [bind] in E. injection E as <-.
      apply (nested_to_record_flat r "" 0%nat d' Hr En).
    + injection E as ->. discriminate.
Qed.

Lemma Forall2_concat_Forall : forall (A B : Type) (P : A -> Prop) (Q : B -> Prop)
  (R : A -> list B -> Prop) xs yss,
  (forall x ys, P x -> R x ys -> Forall Q ys) ->
  Forall P xs -> Forall2 R xs yss -> Forall Q (List.concat yss).
Proof.
  intros A B P Q R xs yss HR HP HF.
  induction HF as [|x ys xs yss Hx HF IH]; cbn; [constructor|].
  inversion HP; subst. apply Forall_app. split; [apply (HR x ys); assumption|].
  apply IH. assumption.
Qed.

Lemma dict_get_combine_snoc : forall (cols : list string) (r : list value) c c' v,
  List.length r = List.length cols ->
  c <> c' ->
  dict_get c (combine (cols ++ [c']) (r ++ [v])) = dict_get c (combine cols r).
Proof.
  intros cols r c c' v Hl Hc. rewrite combine_snoc by (symmetry; exact Hl).
  induction (combine cols r) as [|[k0 v0] ps IH]; cbn.
  - rewrite (neq_eqb _ _ Hc). reflexivity.
  - destruct (String.eqb c k0); [reflexivity|exact IH].
Qed.

Lemma Row_get_flat : forall (cols : list string) (r : list value) c,
  Forall (fun v => is_dict v = false) r ->
  is_dict (Row_get (combine cols r) c VNone) = false.
Proof.
  intros cols r c Hr. unfold Row_get.
  destruct (dict_get c (combine cols r)) as [v|] eqn:E; [|reflexivity].
  apply dict_get_In, in_combine_r in E. rewrite Forall_forall in Hr. apply Hr, E.
Qed.

(** X11. Lines 81-85 fail on every snapshot that has an assignment: nested
    [dueDate] dicts have been flattened into [dueDate.year] and so on, so
    the cell line 82 reads under [dueDate] is never a dict, and [to_dt]
    raises AttributeError on the first row. *)
Theorem assignments_never_dated : forall local blocks df,
  well_formed (VList blocks) = true ->
  assignments_df (VList blocks) = Ok df ->
  rows df <> [] ->
  assignments_df_dated local (VList blocks) = Raise AttributeError.
Proof.
  intros local blocks df Hwf H Hrows.
  unfold assignments_df_dated. rewrite H. cbn [bind].
  assert (Hfirst : exists r rs, rows df = r :: rs
                   /\ is_dict (Row_get (combine (columns df) r) "dueDate" VNone) = false).
  { unfold assignments_df in H.
    destruct blocks as [|b bs]; [cbn in H; injection H as <-; contradiction|].
    change (json_normalize (VList (b :: bs)) ["assignments"] [["course_info"; "id"]]
              errors_raise)
      with (normalize_records (VList (b :: bs)) ["assignments"]
              [["course_info"; "id"]] errors_raise) in H.
    unfold normalize_records in H.
    destruct (recursive_extract _ _ _ _ _ _ _) as [[seen st]| |] eqn:E;
      try discriminate.
    cbn [bind] in H.
    destruct (extract_one_level_records _ _ _ _ _ _ _ E)
      as (parts & per_block & HP & Hn & Hfl & Hr & Hl & Hm).
    cbn [records lengths meta_vals app] in Hr, Hl, Hm.
    assert (Hne : parts <> []) by (intros ->; discriminate Hn).
    rewrite (meta_vals_of_parts parts Hne) in Hm.
    destruct (DataFrame_of_records (records st)) as [df0| |] eqn:E0;
      try discriminate.
    cbn [bind] in H. rewrite Hm in H. cbn [foldM fst snd bind] in H.
    destruct (contains df0 "course_info.id") eqn:Econt; [discriminate|].
    cbn [bind] in H. injection H as <-.
    destruct (DataFrame_of_records_shape _ _ E0) as [Hrect Hlen].
    rewrite Hl, repeat_each_parts in *.
    set (ids := flat_map (fun part => repeat (fst part) (List.length (snd part)))
                  parts) in *.
    assert (Hids : List.length (rows df0) = List.length ids).
    { subst ids. rewrite Hlen, Hr. symmetry. apply length_vals_of_parts. }
    destruct (append_column_shape df0 "course_info.id" ids Hids) as [Hc1 Hr1].
    assert (Hflat : flat_frame df0).
    { unfold DataFrame_of_records in E0.
      destruct (as_dicts (records st)) as [ds|] eqn:Eds; [|discriminate].
      injection E0 as <-. apply frame_of_flat_dicts. rewrite Hr in Eds.
      apply (flatten_records_flat _ _ _ (Forall2_concat_Forall _ _
               (fun blk => well_formed blk = true)
               (fun v => well_formed v = true) _ _ _
               (fun x ys Hx Hxy => pull_records_well_formed _ _ _ _ Hx Hxy)
               (well_formed_list _ Hwf) HP) Hfl Eds). }
    unfold rename in *. cbn [columns rows] in *. rewrite Hc1, Hr1 in *.
    destruct (rows df0) as [|r0 rs0] eqn:Erows0;
      [destruct ids; cbn in Hrows; contradiction|].
    destruct ids as [|i0 ids0] eqn:Eids; [discriminate|].
    cbn [zip_with]. eexists. eexists. split; [reflexivity|].
    rewrite map_app. cbn [map]. unfold Row_get.
    rewrite dict_get_combine_snoc.
    - apply Row_get_flat. unfold flat_frame in Hflat. cbn [rows] in Hflat.
      rewrite Erows0 in Hflat. inversion Hflat; assumption.
    - rewrite length_map. unfold rectangular in Hrect. rewrite Erows0 in Hrect.
      inversion Hrect; assumption.
    - discriminate. }
  destruct Hfirst as (r & rs & Er & Hd).
  unfold apply_rows. rewrite Er. cbn [mapM].
  rewrite (due_of_row_raises local _ Hd). reflexivity.
Qed.

Lemma assignments_never_dated_witness :
  assignments_df_dated zone_utc sample_snapshot = Raise AttributeError.
Proof.
  apply (assignments_never_dated zone_utc
           (match sample_snapshot with VList l => l | _ => [] end)
           (frame_of (assignments_df sample_snapshot))).
  - vm_compute. reflexivity.
  - vm_compute. reflexivity.
  - vm_compute. discriminate.
Defined.

(* ================================================================== *)
(** * The paginated fetches *)

Lemma fetch_more_serves : forall execute key pages fuel page tok items ls,
  dict_get "nextPageToken" page = Some tok ->
  serves execute (Some tok) pages ->
  all_items key pages = Some ls ->
  (List.length pages < fuel)%nat ->
  fetch_more fuel execute key (VDict page) (VList items)
  = Some (Ok (VList (items ++ ls))).
Proof.
  intros execute key pages. induction pages as [|p pages IH];
    intros fuel page tok items ls Htok Hs Hall Hfuel; [inversion Hs|].
  destruct fuel as [|fuel]; [cbn in Hfuel; lia|]. cbn [fetch_more]. rewrite Htok.
  cbn [all_items] in Hall.
  destruct (page_items key p) as [| | | | |l| |] eqn:Ep; try discriminate.
  destruct (all_items key pages) as [ls'|] eqn:Els; [|discriminate].
  injection Hall as <-.
  inversion Hs as [tok0 p0 Hex Hlast|tok0 p0 tok' pages0 Hex Hnext Hrest]; subst.
  - rewrite Hex. cbn [bind meth_get]. fold (page_items key p). rewrite Ep.
    cbn [list_extend bind]. destruct fuel as [|fuel]; [cbn in Hfuel; lia|].
    cbn [fetch_more]. rewrite Hlast. cbn in Els. injection Els as <-.
    rewrite app_nil_r. reflexivity.
  - rewrite Hex. cbn [bind meth_get]. fold (page_items key p). rewrite Ep.
    cbn [list_extend bind].
    rewrite (IH fuel p tok' (items ++ l) ls' Hnext Hrest eq_refl)
      by (cbn in Hfuel; lia).
    rewrite <- app_assoc. reflexivity.
Qed.

Lemma fetch_body_serves : forall execute key pages fuel ls,
  serves execute None pages ->
  all_items key pages = Some ls ->
  (List.length pages <= fuel)%nat ->
  fetch_body fuel execute key = Some (Ok (VList ls)).
Proof.
  intros execute key pages fuel ls Hs Hall Hfuel. unfold fetch_body.
  inversion Hs as [tok0 p0 Hex Hlast|tok0 p0 tok' pages0 Hex Hnext Hrest]; subst;
    rewrite Hex; cbn [bind meth_get]; fold (page_items key p0);
    cbn [all_items] in Hall;
    destruct (page_items key p0) as [| | | | |l| |] eqn:Ep; try discriminate.
  - injection Hall as <-. rewrite app_nil_r.
    destruct fuel as [|fuel]; [cbn in Hfuel; lia|]. cbn [fetch_more].
    rewrite Hlast. reflexivity.
  - destruct (all_items key pages0) as [ls'|] eqn:Els; [|discriminate].
    injection Hall as <-.
    apply (fetch_more_serves execute key pages0 fuel p0 tok' l ls' Hnext Hrest Els).
    cbn in Hfuel. lia.
Qed.

(** X26. When the listing serves a finite chain of pages, each holding a
    list under the key, the fetch returns the items of all pages, in page
    order. *)
Theorem fetch_pages_all_pages : forall execute key pages fuel ls,
  serves execute None pages ->
  all_items key pages = Some ls ->
  (List.length pages <= fuel)%nat ->
  fetch_pages fuel execute key = Some (Ok (VList ls)).
Proof.
  intros execute key pages fuel ls Hs Hall Hfuel. unfold fetch_pages.
  rewrite (fetch_body_serves execute key pages fuel ls Hs Hall Hfuel). reflexivity.
Qed.

Lemma fetch_pages_all_pages_witness :
  fetch_pages 2 two_pages "students"
  = Some (Ok (VList [VDict [("userId", VStr "u1")]; VDict [("userId", VStr "u2")];
                     VDict [("userId", VStr "u3")]])).
Proof.
  apply (fetch_pages_all_pages two_pages "students"
           [[("students", VList [VDict [("userId", VStr "u1")];
                                 VDict [("userId", VStr "u2")]]);
             ("nextPageToken", VStr "t1")];
            [("students", VList [VDict [("userId", VStr "u3")]])]]).
  - apply (serves_next two_pages None _ (VStr "t1")); [reflexivity|reflexivity|].
    apply serves_last; reflexivity.
  - reflexivity.
  - apply le_n.
Defined.

Lemma fetch_more_breaks : forall execute key n fuel page tok items,
  dict_get "nextPageToken" page = Some tok ->
  breaks_after execute (Some tok) n ->
  (n < fuel)%nat ->
  exists e, fetch_more fuel execute key (VDict page) items = Some (Raise e).
Proof.
  intros execute key n. induction n as [|n IH];
    intros fuel page tok items Htok Hb Hfuel;
    (destruct fuel as [|fuel]; [lia|]); cbn [fetch_more]; rewrite Htok;
    inversion Hb as [tok0 e Hex|tok0 p tok' n0 Hex Hnext Hrest]; subst;
    rewrite Hex; cbn [bind meth_get].
  - exists e. reflexivity.
  - destruct (list_extend items _) as [items'|e|] eqn:El; cbn [bind].
    + apply (IH fuel p tok' items' Hnext Hrest). lia.
    + exists e. reflexivity.
    + exfalso. unfold list_extend in El.
      destruct items; try discriminate.
      destruct (match dict_get key p with Some v => v | None => VList [] end);
        discriminate.
Qed.

Lemma fetch_body_breaks : forall execute key n fuel,
  breaks_after execute None n ->
  (n < fuel)%nat ->
  exists e, fetch_body fuel execute key = Some (Raise e).
Proof.
  intros execute key n fuel Hb Hfuel. unfold fetch_body.
  inversion Hb as [tok0 e Hex|tok0 p tok' n0 Hex Hnext Hrest]; subst;
    rewrite Hex; cbn [bind meth_get].
  - exists e. reflexivity.
  - apply (fetch_more_breaks execute key n0 fuel p tok' _ Hnext Hrest). lia.
Qed.

(** X27. When a page request raises, the fetch returns the empty list: the
    items of the pages fetched before are discarded, and nothing is raised. *)
Theorem fetch_pages_failure_discards : forall execute key n fuel,
  breaks_after execute None n ->
  (n < fuel)%nat ->
  fetch_pages fuel execute key = Some (Ok (VList [])).
Proof.
  intros execute key n fuel Hb Hfuel. unfold fetch_pages.
  destruct (fetch_body_breaks execute key n fuel Hb Hfuel) as [e ->]. reflexivity.
Qed.

Lemma fetch_pages_failure_discards_witness :
  fetch_pages 2 second_page_fails "students" = Some (Ok (VList [])).
Proof.
  apply (fetch_pages_failure_discards second_page_fails "students" 1).
  - apply (breaks_later second_page_fails None
             [("students", VList [VDict [("userId", VStr "u1")];
                                  VDict [("userId", VStr "u2")]]);
              ("nextPageToken", VStr "t1")] (VStr "t1"));
      [reflexivity|reflexivity|].
    apply (breaks_now second_page_fails (Some (VStr "t1")) ValueError). reflexivity.
  - apply le_n.
Defined.

(** X28. Whenever [_fetch_single_assignment_submissions] returns, the
    assignment it returns has the key [submissions] and is otherwise the
    assignment it was given. *)
Theorem fetch_single_assignment_keeps_fields : forall fuel execute (a : dict) r,
  fetch_single_assignment_submissions fuel execute (VDict a) = Some (Ok r) ->
  exists a',
    r = VDict a'
    /\ dict_get "submissions" a' <> None
    /\ forall k, k <> "submissions" -> dict_get k a' = dict_get k a.
Proof.
  intros fuel execute a r H. unfold fetch_single_assignment_submissions in H.
  destruct (subscript (VDict a) "id"); try discriminate.
  destruct (fetch_body fuel execute "studentSubmissions") as [[v|e|]|];
    try discriminate; injection H as <-; eexists; (split; [reflexivity|]);
    (split; [rewrite dict_get_set_same; discriminate|]);
    intros k Hk; apply dict_get_set_other, String.eqb_neq, Hk.
Qed.

Lemma fetch_single_assignment_keeps_fields_witness :
  exists a',
    VDict [("id", VStr "a1"); ("title", VStr "Essay");
           ("submissions", VList [VDict [("id", VStr "s1")]])] = VDict a'
    /\ dict_get "submissions" a' <> None
    /\ forall k, k <> "submissions" ->
                 dict_get k a' = dict_get k [("id", VStr "a1"); ("title", VStr "Essay")].
Proof.
  apply (fetch_single_assignment_keeps_fields 1 one_page_of_submissions
           [("id", VStr "a1"); ("title", VStr "Essay")]).
  reflexivity.
Defined.

(* ================================================================== *)
(** * The foreign keys on the sample *)

Lemma roster_courseIds_witness :
  exists parts,
    Forall2 (block_part "students")
      (match sample_snapshot with VList l => l | _ => [] end) parts
    /\ field "courseId" (df_to_docs (frame_of (students_df sample_snapshot)))
       = expected_courseIds parts.
Proof.
  apply (proj1 (roster_courseIds
                  (match sample_snapshot with VList l => l | _ => [] end))).
  vm_compute. reflexivity.
Defined.

Lemma submission_courseId_is_assignment_id_witness :
  exists (per_block : list (list value)) (parts : list (value * nat)),
    Forall2 block_assignments
      (match sample_snapshot with VList l => l | _ => [] end) per_block
    /\ Forall2 assignment_part (List.concat per_block) parts
    /\ field "assignmentId" (df_to_docs (frame_of (submissions_df sample_snapshot)))
       = expected_courseIds parts
    /\ field "courseId" (df_to_docs (frame_of (submissions_df sample_snapshot)))
       = expected_courseIds parts.
Proof.
  apply (submission_courseId_is_assignment_id
           (match sample_snapshot with VList l => l | _ => [] end)).
  vm_compute. reflexivity.
Defined.
